(** * openai-mcp: the tool-augmented chat client, embedded and verified

    A shallow embedding of [src/settings.ts] and [src/client.ts].

    - JavaScript values that the code inspects (the parsed configuration
      file, tool arguments) are an inductive type [JSON].
    - Exceptions are a result type [Outcome]: [Ok v] for a normal return,
      [Throw e] for a thrown error.
    - The asynchronous methods of [MCPClient] run one [await] at a time, so
      they are functions in a state-and-exception monad [M] over the client
      state: the fields [session] and [messages], the state of the outside
      world, and the trace of the effects performed so far.
    - The outside world (the chat API, the tool-provider session, the
      terminal, the file system, the clock) is a record of arbitrary
      transition functions, so every theorem holds for every behaviour of
      the collaborators.

    Strings are sequences of bytes, the UTF-8 encoding of the JavaScript
    strings; [trim] strips all the white space of ECMAScript.  Console
    rendering ([console.log], [process.stdout]) is not modelled. *)

From Stdlib Require Import List String Ascii ZArith Lia Bool Arith.
Import ListNotations.
Local Open Scope string_scope.
Local Open Scope list_scope.

Set Implicit Arguments.

(** String concatenation, the [+] of JavaScript on strings and the holes
    of its template literals. *)
Infix "+++" := String.append (right associativity, at level 60).

(** ** JavaScript values and errors *)

(** The values [JSON.parse] produces.  An object is the list of its own
    properties in the order [Object.keys] and [Object.entries] enumerate
    them.  A number carries an integer: the code only ever asks whether a
    number is zero. *)
#[warnings="-register-all"]
Inductive JSON : Type :=
| JNull
| JBool (b : bool)
| JNum (z : Z)
| JStr (s : string)
| JArr (items : list JSON)
| JObj (props : list (string * JSON)).

(** What a [throw] carries.  [SystemError] is a Node error with a [code]
    property (as [fs.readFileSync] raises); [Rejected] is an error raised
    by a collaborator library (the chat API client, the tool session). *)
Inductive JsError : Type :=
| Error (message : string)
| TypeError (message : string)
| SyntaxError (message : string)
| SystemError (code : string) (message : string)
| Rejected (name : string) (message : string).

Definition message_of (e : JsError) : string :=
  match e with
  | Error m | TypeError m | SyntaxError m | SystemError _ m | Rejected _ m => m
  end.

(** [error.code]: [undefined] on everything but a system error. *)
Definition code_of (e : JsError) : option string :=
  match e with
  | SystemError c _ => Some c
  | _ => None
  end.

Definition instanceof_SyntaxError (e : JsError) : bool :=
  match e with
  | SyntaxError _ => true
  | _ => false
  end.

Inductive Outcome (A : Type) : Type :=
| Ok (a : A)
| Throw (e : JsError).
Arguments Ok {A} a.
Arguments Throw {A} e.

(** ** Small pieces of the JavaScript runtime *)

Module Js.

(** [Array.prototype.join]. *)
Fixpoint join (sep : string) (l : list string) : string :=
  match l with
  | [] => ""
  | [x] => x
  | x :: rest => x +++ sep +++ join sep rest
  end.

(** Decimal numeral of an array index, as a property name. *)
Definition digit (n : nat) : string :=
  String (ascii_of_nat (48 + n)) "".

Fixpoint index_name_aux (fuel n : nat) (acc : string) : string :=
  match fuel with
  | O => acc
  | S fuel' =>
      let acc' := digit (n mod 10) +++ acc in
      match n / 10 with
      | O => acc'
      | q => index_name_aux fuel' q acc'
      end
  end.

Definition index_name (n : nat) : string := index_name_aux (S n) n "".

(** Truthiness of a value that is present. *)
Definition truthy (v : JSON) : bool :=
  match v with
  | JNull => false
  | JBool b => b
  | JNum z => negb (Z.eqb z 0)
  | JStr s => negb (String.eqb s "")
  | JArr _ => true
  | JObj _ => true
  end.

Fixpoint assoc (k : string) (props : list (string * JSON)) : option JSON :=
  match props with
  | [] => None
  | (k', v) :: rest => if String.eqb k k' then Some v else assoc k rest
  end.

Fixpoint chars (s : string) : list JSON :=
  match s with
  | EmptyString => []
  | String c rest => JStr (String c "") :: chars rest
  end.

Fixpoint indexed (i : nat) (l : list JSON) : list (string * JSON) :=
  match l with
  | [] => []
  | x :: rest => (index_name i, x) :: indexed (S i) rest
  end.

(** [Object.entries(v)] for a value that is neither [null] nor
    [undefined]: the properties of an object, the indexed elements of an
    array, the indexed characters of a string, nothing for a number or
    a boolean. *)
Definition entries (v : JSON) : list (string * JSON) :=
  match v with
  | JObj props => props
  | JArr items => indexed 0 items
  | JStr s => indexed 0 (chars s)
  | JNull | JBool _ | JNum _ => []
  end.

(** [Object.keys(v)]. *)
Definition keys (v : JSON) : list string := map fst (entries v).

(** [v.k] for a configuration key [k] (a name that no prototype
    defines): a [TypeError] on [null], [undefined] on a primitive or
    when the property is absent. *)
Definition get (v : JSON) (k : string) : Outcome (option JSON) :=
  match v with
  | JNull => Throw (TypeError ("Cannot read properties of null (reading '" +++ k +++ "')"))
  | JObj props => Ok (assoc k props)
  | JArr _ | JStr _ | JNum _ | JBool _ => Ok None
  end.

(** [k in v] for such a key [k]: a [TypeError] unless [v] is an object
    or an array. *)
Definition has (k : string) (v : JSON) : Outcome bool :=
  match v with
  | JObj props =>
      Ok (match assoc k props with Some _ => true | None => false end)
  | JArr items =>
      Ok (existsb (String.eqb k) (map fst (indexed 0 items)))
  | JNull | JBool _ | JNum _ | JStr _ =>
      Throw (TypeError ("Cannot use 'in' operator to search for '" +++ k +++ "'"))
  end.

(** A string of the model is the UTF-8 encoding of the JavaScript
    string.  [String.prototype.trim] strips the white space and the line
    terminators of ECMAScript: U+0009 to U+000D, U+0020, U+00A0, U+1680,
    U+2000 to U+200A, U+2028, U+2029, U+202F, U+205F, U+3000 and U+FEFF.
    [is_space] holds of those encoded in one byte, [is_space2] of the
    one encoded in two (C2 A0), [is_space3] of those encoded in three. *)
Definition is_space (c : ascii) : bool :=
  let n := nat_of_ascii c in
  (Nat.eqb n 9 || Nat.eqb n 10 || Nat.eqb n 11 || Nat.eqb n 12
   || Nat.eqb n 13 || Nat.eqb n 32)%bool.

Definition is_space2 (a b : ascii) : bool :=
  (Ascii.eqb a "194" && Ascii.eqb b "160")%bool.

Definition is_space3 (a b c : ascii) : bool :=
  let n := nat_of_ascii c in
  ((Ascii.eqb a "225" && (Ascii.eqb b "154" && Ascii.eqb c "128"))
   || (Ascii.eqb a "226"
       && ((Ascii.eqb b "128"
            && ((Nat.leb 128 n && Nat.leb n 138)
                || Nat.eqb n 168 || Nat.eqb n 169 || Nat.eqb n 175))
           || (Ascii.eqb b "129" && Ascii.eqb c "159")))
   || (Ascii.eqb a "227" && (Ascii.eqb b "128" && Ascii.eqb c "128"))
   || (Ascii.eqb a "239" && (Ascii.eqb b "187" && Ascii.eqb c "191")))%bool.

(** The first byte of a white space of two or three bytes. *)
Definition is_lead (a : ascii) : bool :=
  (Ascii.eqb a "194" || Ascii.eqb a "225" || Ascii.eqb a "226"
   || Ascii.eqb a "227" || Ascii.eqb a "239")%bool.

(** Strips the white space at the front, one character after the
    other. *)
Fixpoint trimStart (s : string) : string :=
  match s with
  | EmptyString => EmptyString
  | String a rest =>
      if is_space a then trimStart rest
      else
        match rest with
        | EmptyString => s
        | String b rest2 =>
            if is_space2 a b then trimStart rest2
            else
              match rest2 with
              | EmptyString => s
              | String c rest3 =>
                  if is_space3 a b c then trimStart rest3 else s
              end
        end
  end.

(** Strips the white space at the end: the string is cut at the first
    place from which only white space follows. *)
Fixpoint trimEnd (s : string) : string :=
  match s with
  | EmptyString => EmptyString
  | String c rest =>
      match trimStart s with
      | EmptyString => EmptyString
      | _ => String c (trimEnd rest)
      end
  end.

Definition trim (s : string) : string := trimEnd (trimStart s).

(** [toLowerCase] lowers the letters A to Z and leaves every other
    character as it is.  The code uses the result for one thing, the
    comparison with [quit], and there the two agree: outside ASCII no
    character lowers to one of the letters q, u, i, t (U+0130 lowers to i
    followed by U+0307, two characters). *)
Definition lower_char (c : ascii) : ascii :=
  let n := nat_of_ascii c in
  if (Nat.leb 65 n && Nat.leb n 90)%bool then ascii_of_nat (n + 32) else c.

Fixpoint toLowerCase (s : string) : string :=
  match s with
  | EmptyString => EmptyString
  | String c rest => String (lower_char c) (toLowerCase rest)
  end.

(** [s.replace(/[:.]/g, "-")]. *)
Fixpoint replace_colon_dot (s : string) : string :=
  match s with
  | EmptyString => EmptyString
  | String c rest =>
      let c' := if (Ascii.eqb c ":" || Ascii.eqb c ".")%bool then "-"%char else c in
      String c' (replace_colon_dot rest)
  end.

End Js.

(** ** Sequencing of computations that may throw *)

Definition bindO {A B} (o : Outcome A) (k : A -> Outcome B) : Outcome B :=
  match o with
  | Ok a => k a
  | Throw e => Throw e
  end.

Notation "'let?' x ':=' e 'in' k" := (bindO e (fun x => k))
  (at level 10, x pattern, e at level 100, k at level 200).

(** ** [src/settings.ts] *)

(** The fields are typed [string] and [string[]] in the source, but the
    file's values are stored as they are: [command] is whatever the entry
    holds, [args] any non-empty array. *)
Record ServerConfig : Type := {
  name : string;
  command : option JSON;
  args : list JSON
}.

Record Settings : Type := {
  model : string;
  apiKey : string;
  baseUrl : string;
  projectDir : string;
  serverConfigPath : string;
  serverConfig : option ServerConfig
}.

(** What the module reads from its platform when it is loaded: the
    environment variable, the directory above the module's own, and the
    library functions [path.join], [fs.readFileSync] and [JSON.parse]
    ([None] is a [SyntaxError]). *)
Record Platform : Type := {
  env_DEEPSEEK_API_KEY : option string;
  platform_projectDir : string;
  path_join : string -> string -> string;
  readFileSync : string -> Outcome string;
  JSON_parse : string -> option JSON
}.

Definition parse (P : Platform) (raw : string) : Outcome JSON :=
  match JSON_parse P raw with
  | Some v => Ok v
  | None => Throw (SyntaxError "Unexpected token in JSON")
  end.

(** [!settings.apiKey]: the variable is unset or empty. *)
Definition apiKey_missing (k : option string) : bool :=
  match k with
  | None => true
  | Some s => String.eqb s ""
  end.

Definition requiredFields : list string := ["command"; "args"].

(** [requiredFields.filter((field) => !(field in server))]; the first
    [in] that throws ends the filter. *)
Fixpoint missingFields (fields : list string) (server : JSON) : Outcome (list string) :=
  match fields with
  | [] => Ok []
  | field :: rest =>
      let? present := Js.has field server in
      let? others := missingFields rest server in
      Ok (if present then others else field :: others)
  end.

(** [!Array.isArray(server.args) || server.args.length === 0] yields the
    list when the test is false. *)
Definition nonempty_array (v : option JSON) : option (list JSON) :=
  match v with
  | Some (JArr (x :: rest)) => Some (x :: rest)
  | _ => None
  end.

(** The body of the [try] block of [getSettings]. *)
Definition readServerConfig (P : Platform) (serverConfigPath : string)
  : Outcome ServerConfig :=
  let? serverConfigRaw := readFileSync P serverConfigPath in
  let? config := parse P serverConfigRaw in
  let? mcpServers := Js.get config "mcpServers" in
  match mcpServers with
  | None => Throw (Error "Config must contain at least one server in 'mcpServers'")
  | Some servers =>
      if (negb (Js.truthy servers) || Nat.eqb (List.length (Js.keys servers)) 0)%bool
      then Throw (Error "Config must contain at least one server in 'mcpServers'")
      else
        match Js.entries servers with
        | [] => Throw (TypeError "undefined is not iterable")
        | (name, server) :: _ =>
            let? missing := missingFields requiredFields server in
            if Nat.ltb 0 (List.length missing)
            then Throw (Error ("Server '" +++ name +++ "' missing required fields: "
                               +++ Js.join ", " missing))
            else
              let? server_command := Js.get server "command" in
              let? server_args := Js.get server "args" in
              match nonempty_array server_args with
              | Some a =>
                  Ok {| name := name; command := server_command; args := a |}
              | None =>
                  Throw (Error ("Server '" +++ name +++ "' must have a non-empty 'args' list"))
              end
        end
  end.

Definition getSettings (P : Platform) : Outcome Settings :=
  let projectDir := platform_projectDir P in
  let serverConfigPath := path_join P projectDir "server-config.json" in
  match env_DEEPSEEK_API_KEY P with
  | None =>
      Throw (Error "DeepSeek API key is required. Please set DEEPSEEK_API_KEY in your .env file.")
  | Some key =>
      if String.eqb key ""
      then Throw (Error "DeepSeek API key is required. Please set DEEPSEEK_API_KEY in your .env file.")
      else
        match readServerConfig P serverConfigPath with
        | Ok sc =>
            Ok {| model := "deepseek-chat";
                  apiKey := key;
                  baseUrl := "https://api.deepseek.com";
                  projectDir := projectDir;
                  serverConfigPath := serverConfigPath;
                  serverConfig := Some sc |}
        | Throw error =>
            match code_of error with
            | Some "ENOENT" =>
                Throw (Error ("MCP Config file not found: " +++ serverConfigPath))
            | _ =>
                if instanceof_SyntaxError error
                then Throw (Error ("Invalid MCP Config file: " +++ serverConfigPath))
                else Throw error
            end
        end
  end.

(** ** [src/client.ts]: data *)

Inductive Role : Type := user | assistant | tool.

(** One requested invocation: [{id, function: {name, arguments}}]. *)
Record ToolCall : Type := {
  id : string;
  function_name : string;
  function_arguments : string
}.

(** [ChatCompletionMessageParam], an entry of the transcript.  [None] is
    an absent, [null] or [undefined] field. *)
Record Message : Type := {
  role : Role;
  content : option string;
  tool_calls : option (list ToolCall);
  tool_call_id : option string
}.

(** [ChatCompletionMessage], the message of a choice: its role is always
    [assistant]. *)
Record ChatCompletionMessage : Type := {
  cm_content : option string;
  cm_tool_calls : option (list ToolCall)
}.

Record Choice : Type := {
  finish_reason : string;
  message : ChatCompletionMessage
}.

Record ChatCompletion : Type := {
  choices : list Choice
}.

(** A tool as the provider lists it. *)
Record Tool : Type := {
  tool_name : string;
  tool_description : option string;
  inputSchema : JSON
}.

(** [{type: "function", function: {name, description, parameters}}]. *)
Record FunctionTool : Type := {
  ft_type : string;
  ft_name : string;
  ft_description : option string;
  ft_parameters : JSON
}.

(** The argument of [chat.completions.create]; [None] is a field that is
    [undefined] or not written at all. *)
Record CompletionRequest : Type := {
  req_model : string;
  req_messages : list Message;
  req_tools : option (list FunctionTool);
  req_tool_choice : option string
}.

Record ContentItem : Type := {
  text : option string
}.

Record ToolResult : Type := {
  result_content : list ContentItem
}.

(** Every effect of the client, in the order it happens.  [EPush] is
    [this.messages.push]; the others are calls to a collaborator. *)
Inductive Event : Type :=
| EPush (m : Message)
| EStdioClient (command : option JSON) (args : list JSON)
| EInitialize
| EListTools
| ECreate (req : CompletionRequest)
| ECallTool (name : string) (args : JSON)
| EClose
| EQuestion
| ELoggerError (msg : string)
| EExistsSync (path : string)
| EMkdirSync (path : string)
| ENewDate
| EWriteFileSync (path : string) (data : list Message).

(** The collaborators: each call takes the state of the world to a
    result, or a thrown error, and a new state of the world. *)
Record Collaborators (W Session : Type) : Type := {
  stdio_client : option JSON -> list JSON -> W -> Outcome Session * W;
  initialize : Session -> W -> Outcome unit * W;
  list_tools : Session -> W -> Outcome (list Tool) * W;
  call_tool : Session -> string -> JSON -> W -> Outcome ToolResult * W;
  close : Session -> W -> Outcome unit * W;
  create : CompletionRequest -> W -> Outcome ChatCompletion * W;
  question : W -> Outcome string * W;
  existsSync : string -> W -> bool * W;
  mkdirSync : string -> W -> Outcome unit * W;
  toISOString : W -> string * W;
  writeFileSync : string -> list Message -> W -> Outcome unit * W
}.

(** The fields of an [MCPClient] that change, the world it runs in and
    the effects performed so far. *)
Record Client (W Session : Type) : Type := {
  session : option Session;
  messages : list Message;
  world : W;
  trace : list Event
}.

(** ** The monad of the client's methods *)

Section Monad.

Context {W Session : Type}.

Definition M (A : Type) : Type :=
  Client W Session -> Outcome A * Client W Session.

Definition ret {A} (a : A) : M A := fun st => (Ok a, st).

Definition throw {A} (e : JsError) : M A := fun st => (Throw e, st).

Definition bind {A B} (m : M A) (k : A -> M B) : M B :=
  fun st =>
    match m st with
    | (Ok a, st') => k a st'
    | (Throw e, st') => (Throw e, st')
    end.

(** [try { m } catch (error) { handler(error) }]: what [m] changed
    before it threw stays changed. *)
Definition try_catch {A} (m : M A) (handler : JsError -> M A) : M A :=
  fun st =>
    match m st with
    | (Ok a, st') => (Ok a, st')
    | (Throw e, st') => handler e st'
    end.

Definition lift {A} (o : Outcome A) : M A := fun st => (o, st).

Definition get_messages : M (list Message) :=
  fun st => (Ok (messages st), st).

Definition get_session : M (option Session) :=
  fun st => (Ok (session st), st).

(** The client after [this.session = s]. *)
Definition with_session (s : option Session) (st : Client W Session)
  : Client W Session :=
  {| session := s; messages := messages st;
     world := world st; trace := trace st |}.

Definition set_session (s : option Session) : M unit :=
  fun st => (Ok tt, with_session s st).

(** [this.session!.method]: reading a property of [null] throws. *)
Definition the_session (method : string) : M Session :=
  fun st =>
    match session st with
    | Some s => (Ok s, st)
    | None =>
        (Throw (TypeError ("Cannot read properties of null (reading '"
                           +++ method +++ "')")), st)
    end.

(** The client after [this.messages.push(m)]. *)
Definition with_push (m : Message) (st : Client W Session) : Client W Session :=
  {| session := session st; messages := messages st ++ [m];
     world := world st; trace := trace st ++ [EPush m] |}.

(** The client after the effect [ev], which left the world in [w]. *)
Definition with_event (ev : Event) (w : W) (st : Client W Session)
  : Client W Session :=
  {| session := session st; messages := messages st;
     world := w; trace := trace st ++ [ev] |}.

(** The client after the effects [evs], none of them a push, which left
    the world in [w]. *)
Definition with_events (evs : list Event) (w : W) (st : Client W Session)
  : Client W Session :=
  {| session := session st; messages := messages st;
     world := w; trace := trace st ++ evs |}.

(** The client after [this.messages.push(...ms)]. *)
Definition with_pushes (ms : list Message) (st : Client W Session)
  : Client W Session :=
  {| session := session st; messages := messages st ++ ms;
     world := world st; trace := trace st ++ map EPush ms |}.

(** [this.messages.push(m)]. *)
Definition push (m : Message) : M unit :=
  fun st => (Ok tt, with_push m st).

(** [this.messages.push(...ms)]. *)
Fixpoint push_all (ms : list Message) : M unit :=
  match ms with
  | [] => ret tt
  | m :: rest => bind (push m) (fun _ => push_all rest)
  end.

(** A call to a collaborator: recorded, then answered by the world. *)
Definition perform {A} (ev : Event) (call : W -> Outcome A * W) : M A :=
  fun st =>
    let (r, w') := call (world st) in
    (r, with_event ev w' st).

(** A call that cannot throw. *)
Definition perform_total {A} (ev : Event) (call : W -> A * W) : M A :=
  perform ev (fun w => let (a, w') := call w in (Ok a, w')).

(** [logger.error(msg)]. *)
Definition logger_error (msg : string) : M unit :=
  fun st => (Ok tt, with_event (ELoggerError msg) (world st) st).

End Monad.

Notation "x <- m ;; k" := (bind m (fun x => k))
  (at level 61, m at next level, right associativity).
Notation "m ;; k" := (bind m (fun _ => k))
  (at level 61, right associativity).

(** ** [src/client.ts]: the methods of [MCPClient] *)

Section MCPClient.

Context {W Session : Type}.
Variable C : Collaborators W Session.
Variable P : Platform.
Variable settings : Settings.

(** [new MCPClient()]: no session, an empty transcript. *)
Definition new_MCPClient (w : W) : Client W Session :=
  {| session := None; messages := []; world := w; trace := [] |}.

(** [this.serverConfig = settings.serverConfig!]; reading a field of it
    throws when it is [null]. *)
Definition the_serverConfig : M (W := W) (Session := Session) ServerConfig :=
  match serverConfig settings with
  | Some sc => ret sc
  | None => throw (TypeError "Cannot read properties of null (reading 'name')")
  end.

Definition connectToServer : M unit :=
  sc <- the_serverConfig ;;
  s <- perform (EStdioClient (command sc) (args sc))
               (stdio_client C (command sc) (args sc)) ;;
  set_session (Some s) ;;
  s <- the_session "initialize" ;;
  perform EInitialize (initialize C s) ;;
  s <- the_session "list_tools" ;;
  _ <- perform EListTools (list_tools C s) ;;
  ret tt.

Definition user_message (query : string) : Message :=
  {| role := user; content := Some query;
     tool_calls := None; tool_call_id := None |}.

(** [content.message as ChatCompletionMessage], pushed as it is. *)
Definition assistant_message (m : ChatCompletionMessage) : Message :=
  {| role := assistant; content := cm_content m;
     tool_calls := cm_tool_calls m; tool_call_id := None |}.

Definition tool_message (result_text : option string) (call_id : string) : Message :=
  {| role := tool; content := result_text;
     tool_calls := None; tool_call_id := Some call_id |}.

Definition function_tool (t : Tool) : FunctionTool :=
  {| ft_type := "function"; ft_name := tool_name t;
     ft_description := tool_description t; ft_parameters := inputSchema t |}.

(** [response.choices[0]], then a property of it: a [TypeError] when
    there is no choice. *)
Definition first_choice (r : ChatCompletion) : Outcome Choice :=
  match choices r with
  | c :: _ => Ok c
  | [] => Throw (TypeError "Cannot read properties of undefined")
  end.

(** [result.content[0].text]. *)
Definition first_text (r : ToolResult) : Outcome (option string) :=
  match result_content r with
  | item :: _ => Ok (text item)
  | [] => Throw (TypeError "Cannot read properties of undefined (reading 'text')")
  end.

(** [for (const tool_call of tool_calls)] when [tool_calls] is
    [undefined]. *)
Definition iterable (calls : option (list ToolCall)) : Outcome (list ToolCall) :=
  match calls with
  | Some l => Ok l
  | None => Throw (TypeError "undefined is not iterable")
  end.

(** The [for] loop of [processQuery]: [tool_messages] is the local
    array the loop fills. *)
Fixpoint call_tools (calls : list ToolCall) (tool_messages : list Message)
  : M (list Message) :=
  match calls with
  | [] => ret tool_messages
  | tool_call :: rest =>
      let tool_name := function_name tool_call in
      tool_args <- lift (parse P (function_arguments tool_call)) ;;
      s <- the_session "call_tool" ;;
      result <- perform (ECallTool tool_name tool_args)
                        (call_tool C s tool_name tool_args) ;;
      result_text <- lift (first_text result) ;;
      call_tools rest (tool_messages ++ [tool_message result_text (id tool_call)])
  end.

Definition processQuery (query : string) : M (option string) :=
  push (user_message query) ;;
  s <- the_session "list_tools" ;;
  response <- perform EListTools (list_tools C s) ;;
  let available_tools := map function_tool response in
  let some_tools := Nat.ltb 0 (List.length available_tools) in
  msgs <- get_messages ;;
  let request :=
    {| req_model := model settings;
       req_messages := msgs;
       req_tools := if some_tools then Some available_tools else None;
       req_tool_choice := if some_tools then Some "auto" else None |} in
  chatResponse <- perform (ECreate request) (create C request) ;;
  content <- lift (first_choice chatResponse) ;;
  if String.eqb (finish_reason content) "tool_calls"
  then
    tool_calls <- lift (iterable (cm_tool_calls (message content))) ;;
    tool_messages <- call_tools tool_calls [] ;;
    push (assistant_message (message content)) ;;
    push_all tool_messages ;;
    msgs <- get_messages ;;
    let second_request :=
      {| req_model := model settings;
         req_messages := msgs;
         req_tools := None;
         req_tool_choice := None |} in
    second_response <- perform (ECreate second_request) (create C second_request) ;;
    second_content <- lift (first_choice second_response) ;;
    ret (cm_content (message second_content))
  else
    push (assistant_message (message content)) ;;
    ret (cm_content (message content)).

(** How one pass through the body of [while (true)] ends. *)
Inductive LoopStep : Type := Continue | Break.

Definition is_quit (query : string) : bool :=
  String.eqb (Js.toLowerCase query) "quit".

(** The [try]/[catch] inside the loop of [chatLoop].  What follows the
    call of [processQuery] in the [try] block only renders the answer on
    the console. *)
Definition chatLoop_body : M LoopStep :=
  try_catch
    (line <- perform EQuestion (question C) ;;
     let query := Js.trim line in
     if is_quit query
     then ret Break
     else
       _ <- processQuery query ;;
       ret Continue)
    (fun error =>
       logger_error ("Error: " +++ message_of error) ;;
       ret Continue).

(** [chatLoop], run for at most [fuel] passes: [true] when the loop was
    left by [break], [false] when the passes ran out first. *)
Fixpoint chatLoop (fuel : nat) : M bool :=
  match fuel with
  | O => ret false
  | S fuel' =>
      step <- chatLoop_body ;;
      match step with
      | Break => ret true
      | Continue => chatLoop fuel'
      end
  end.

Definition cleanup : M unit :=
  let historyDir := path_join P (projectDir settings) "history" in
  found <- perform_total (EExistsSync historyDir) (existsSync C historyDir) ;;
  (if negb found
   then perform (EMkdirSync historyDir) (mkdirSync C historyDir)
   else ret tt) ;;
  iso <- perform_total ENewDate (toISOString C) ;;
  let timestamp := Js.replace_colon_dot iso in
  let filePath := path_join P historyDir (timestamp +++ ".json") in
  msgs <- get_messages ;;
  perform (EWriteFileSync filePath msgs) (writeFileSync C filePath msgs) ;;
  s <- get_session ;;
  match s with
  | Some s => perform EClose (close C s)
  | None => ret tt
  end.

(** [main], with the passes of the loop bounded: [Some tt] when [main]
    returned, [None] when the loop was still running. *)
Definition main (fuel : nat) : M (option unit) :=
  try_catch
    (connectToServer ;;
     left <- chatLoop fuel ;;
     if left
     then cleanup ;; ret (Some tt)
     else ret None)
    (fun error =>
       logger_error (message_of error) ;;
       ret (Some tt)).

End MCPClient.

(** The whole program: loading [settings.ts] runs [getSettings]; when it
    throws, the import fails and [main] is never called. *)
Inductive Run (W Session : Type) : Type :=
| LoadFailed (e : JsError)
| Ran (result : Outcome (option unit)) (final : Client W Session).
Arguments LoadFailed {W Session} e.
Arguments Ran {W Session} result final.

Definition program {W Session} (C : Collaborators W Session) (P : Platform)
           (fuel : nat) (w : W) : Run W Session :=
  match getSettings P with
  | Throw e => LoadFailed e
  | Ok settings =>
      let (r, st) := main C P settings fuel (new_MCPClient w) in
      Ran r st
  end.

(** ** Observations on traces and runs *)

(** The messages pushed by a run of events. *)
Fixpoint pushed (evs : list Event) : list Message :=
  match evs with
  | [] => []
  | EPush m :: rest => m :: pushed rest
  | _ :: rest => pushed rest
  end.

(** The completion requests sent, in order. *)
Fixpoint requests (evs : list Event) : list CompletionRequest :=
  match evs with
  | [] => []
  | ECreate r :: rest => r :: requests rest
  | _ :: rest => requests rest
  end.

(** The tool invocations made, in order. *)
Fixpoint invocations (evs : list Event) : list (string * JSON) :=
  match evs with
  | [] => []
  | ECallTool n a :: rest => (n, a) :: invocations rest
  | _ :: rest => invocations rest
  end.

(** How often [cleanup] was entered: its first effect is the test for
    the history directory, which nothing else performs. *)
Fixpoint cleanups (evs : list Event) : nat :=
  match evs with
  | [] => 0
  | EExistsSync _ :: rest => S (cleanups rest)
  | _ :: rest => cleanups rest
  end.

(** An effect of the turn orchestrator. *)
Definition is_turn_event (ev : Event) : bool :=
  match ev with
  | EPush _ | EListTools | ECreate _ | ECallTool _ _ => true
  | _ => false
  end.

(** An effect on the file system, the clock or the end of the session:
    what [cleanup] does. *)
Definition is_cleanup_event (ev : Event) : bool :=
  match ev with
  | EExistsSync _ | EMkdirSync _ | ENewDate | EWriteFileSync _ _ | EClose => true
  | _ => false
  end.

(** "Each call's result message is appended to the transcript before the
    next call runs", read on a trace: no tool is invoked while the result
    of an earlier invocation is still waiting to be pushed. *)
Fixpoint result_pushed_before_next_call (waiting : bool) (evs : list Event) : bool :=
  match evs with
  | [] => true
  | ECallTool _ _ :: rest =>
      if waiting then false else result_pushed_before_next_call true rest
  | EPush m :: rest =>
      match role m with
      | tool => result_pushed_before_next_call false rest
      | _ => result_pushed_before_next_call waiting rest
      end
  | _ :: rest => result_pushed_before_next_call waiting rest
  end.

Section Reaches.

Context {W Session : Type}.
Variable C : Collaborators W Session.
Variable P : Platform.
Variable settings : Settings.

(** [loop_reaches n st st']: [n] passes through the body of the loop,
    none of which left it, take the client from [st] to [st']. *)
Inductive loop_reaches : nat -> Client W Session -> Client W Session -> Prop :=
| reaches_here : forall st, loop_reaches 0 st st
| reaches_pass : forall n st st1 st2,
    chatLoop_body C P settings st = (Ok Continue, st1) ->
    loop_reaches n st1 st2 ->
    loop_reaches (S n) st st2.

End Reaches.

(** [keeps R m]: the method [m] relates the state it starts in to the
    state it ends in, however it ends. *)
Definition keeps {W Session A} (R : Client W Session -> Client W Session -> Prop)
           (m : M A) : Prop :=
  forall st r st', m st = (r, st') -> R st st'.

(** [follows Q st st']: from [st] to [st'] the trace grew by events that
    all satisfy [Q], and the transcript grew, at its end, by exactly the
    messages those events pushed. *)
Definition follows {W Session} (Q : Event -> bool) (st st' : Client W Session) : Prop :=
  exists evs,
    trace st' = trace st ++ evs
    /\ messages st' = messages st ++ pushed evs
    /\ forallb Q evs = true.

Definition same_session {W Session} (st st' : Client W Session) : Prop :=
  session st' = session st.

Definition any_event (ev : Event) : bool := true.

Definition not_cleanup_event (ev : Event) : bool := negb (is_cleanup_event ev).

(** The request of the first completion of a turn, as [processQuery]
    builds it from the transcript and the tools just listed. *)
Definition first_request (settings : Settings) (msgs : list Message)
           (tools : list Tool) : CompletionRequest :=
  let available_tools := map function_tool tools in
  let some_tools := Nat.ltb 0 (List.length available_tools) in
  {| req_model := model settings;
     req_messages := msgs;
     req_tools := if some_tools then Some available_tools else None;
     req_tool_choice := if some_tools then Some "auto" else None |}.

(** The request of the completion that follows a tool round. *)
Definition second_request (settings : Settings) (msgs : list Message)
  : CompletionRequest :=
  {| req_model := model settings;
     req_messages := msgs;
     req_tools := None;
     req_tool_choice := None |}.

(** The client once the first completion of a turn has been answered:
    the user message is pushed, the tools are listed, the request is
    sent and the world is in [w]. *)
Definition awaiting_tools {W Session} (settings : Settings)
           (st : Client W Session) (query : string) (tools : list Tool) (w1 w2 : W)
  : Client W Session :=
  let st1 := with_push (user_message query) st in
  with_event (ECreate (first_request settings (messages st1) tools)) w2
    (with_event EListTools w1 st1).

(** The invocation a requested call leads to, when its arguments
    parse. *)
Definition call_event (P : Platform) (call : ToolCall) : list Event :=
  match JSON_parse P (function_arguments call) with
  | Some tool_args => [ECallTool (function_name call) tool_args]
  | None => []
  end.

Definition call_events (P : Platform) (calls : list ToolCall) : list Event :=
  flat_map (call_event P) calls.

Definition is_invocation (ev : Event) : bool :=
  match ev with
  | ECallTool _ _ => true
  | _ => false
  end.

(** [records C P call m]: [m] is the tool message the loop builds for
    [call] from a result the provider returned for it: its content is the
    text of the first content item, its [tool_call_id] the call's id. *)
Definition records {W Session} (C : Collaborators W Session) (P : Platform)
           (call : ToolCall) (m : Message) : Prop :=
  exists s tool_args w result w' item others,
    parse P (function_arguments call) = Ok tool_args
    /\ call_tool C s (function_name call) tool_args w = (Ok result, w')
    /\ result_content result = item :: others
    /\ m = tool_message (text item) (id call).

(** The directory and the file [cleanup] writes to. *)
Definition historyDir (P : Platform) (settings : Settings) : string :=
  path_join P (projectDir settings) "history".

Definition historyFile (P : Platform) (settings : Settings) (iso : string) : string :=
  path_join P (historyDir P settings) (Js.replace_colon_dot iso +++ ".json").

Definition not_turn_event (ev : Event) : bool := negb (is_turn_event ev).

(** The ways the configuration can be unfit for startup. *)

(** The parsed file names no server: [mcpServers] cannot be read, is
    absent, or has no entry (a value that is falsy has none). *)
Definition no_server_entry (config : JSON) : Prop :=
  match Js.get config "mcpServers" with
  | Ok (Some servers) => Js.entries servers = []
  | _ => True
  end.

(** The server entry the code selects, the first one, lacks [command] or
    [args]. *)
Definition server_entry_lacks_field (config : JSON) : Prop :=
  exists servers name server rest,
    Js.get config "mcpServers" = Ok (Some servers)
    /\ Js.entries servers = (name, server) :: rest
    /\ (Js.has "command" server <> Ok true \/ Js.has "args" server <> Ok true).

Definition unfit_for_startup (P : Platform) : Prop :=
  let file := path_join P (platform_projectDir P) "server-config.json" in
  apiKey_missing (env_DEEPSEEK_API_KEY P) = true
  \/ (exists e, readFileSync P file = Throw e)
  \/ (exists raw, readFileSync P file = Ok raw /\ JSON_parse P raw = None)
  \/ (exists raw config,
        readFileSync P file = Ok raw
        /\ JSON_parse P raw = Some config
        /\ (no_server_entry config \/ server_entry_lacks_field config)).

(** "A server entry lacks the command or args fields", read on any of
    the entries of [mcpServers], not only on the first. *)
Definition some_server_entry_lacks_field (config : JSON) : Prop :=
  exists servers name server,
    Js.get config "mcpServers" = Ok (Some servers)
    /\ In (name, server) (Js.entries servers)
    /\ (Js.has "command" server <> Ok true \/ Js.has "args" server <> Ok true).

(** ** More observations, on the configuration *)

(** The configuration file of a platform. *)
Definition config_file (P : Platform) : string :=
  path_join P (platform_projectDir P) "server-config.json".

(** The platform has the API key [key], and its configuration file reads
    and parses to [config]. *)
Definition loads_config (P : Platform) (key : string) (config : JSON) : Prop :=
  env_DEEPSEEK_API_KEY P = Some key
  /\ key <> ""
  /\ exists raw,
      readFileSync P (config_file P) = Ok raw /\ JSON_parse P raw = Some config.

(** [mcpServers] of [config] is truthy and its first entry is
    [name : server]. *)
Definition selects (config : JSON) (name : string) (server : JSON) : Prop :=
  exists servers rest,
    Js.get config "mcpServers" = Ok (Some servers)
    /\ Js.truthy servers = true
    /\ Js.entries servers = (name, server) :: rest.

(** [!(field in server)] for a server that is the object of [fields]. *)
Definition lacks (fields : list (string * JSON)) (field : string) : bool :=
  match Js.assoc field fields with
  | None => true
  | Some _ => false
  end.

(** What the [catch] block of [getSettings] throws for [error]. *)
Definition reported (P : Platform) (error : JsError) : JsError :=
  match code_of error with
  | Some code =>
      if String.eqb code "ENOENT"
      then Error ("MCP Config file not found: " +++ config_file P)
      else if instanceof_SyntaxError error
           then Error ("Invalid MCP Config file: " +++ config_file P)
           else error
  | None =>
      if instanceof_SyntaxError error
      then Error ("Invalid MCP Config file: " +++ config_file P)
      else error
  end.

(** ** More observations, on transcripts and lines *)

(** The ids of the calls an assistant message requests. *)
Definition requested_ids (m : Message) : list string :=
  match tool_calls m with
  | Some calls => map id calls
  | None => []
  end.

(** [well_linked expected ms]: every tool message of [ms] carries the id
    of a call requested by the assistant message that precedes it, no
    user message in between; [expected] are the ids requested by the
    assistant message before [ms], if any is still open. *)
Fixpoint well_linked (expected : list string) (ms : list Message) : bool :=
  match ms with
  | [] => true
  | m :: rest =>
      match role m with
      | user => well_linked [] rest
      | assistant => well_linked (requested_ids m) rest
      | tool =>
          match tool_call_id m with
          | Some call_id =>
              (existsb (String.eqb call_id) expected && well_linked expected rest)%bool
          | None => false
          end
      end
  end.

(** A string of white space only. *)
Fixpoint blank (s : string) : bool :=
  match s with
  | EmptyString => true
  | String c rest => (Js.is_space c && blank rest)%bool
  end.

(** ** A scripted world, for running the client on concrete inputs *)

Module Script.

(** One answer of the outside world. *)
Inductive Reply : Type :=
| Connected
| Done
| Tools (l : list Tool)
| Completion (c : ChatCompletion)
| Result (r : ToolResult)
| Line (s : string)
| Found (b : bool)
| Clock (iso : string)
| Fails (e : JsError).

(** The world is the list of answers still to come; a call takes the
    next one. *)
Definition World : Type := list Reply.

Definition unscripted {A} : Outcome A := Throw (Error "unscripted call").

Definition answer {A} (pick : Reply -> Outcome A) (w : World) : Outcome A * World :=
  match w with
  | [] => (unscripted, [])
  | Fails e :: rest => (Throw e, rest)
  | r :: rest => (pick r, rest)
  end.

Definition collaborators : Collaborators World unit :=
  {| stdio_client := fun _ _ =>
       answer (fun r => match r with Connected => Ok tt | _ => unscripted end);
     initialize := fun _ =>
       answer (fun r => match r with Done => Ok tt | _ => unscripted end);
     list_tools := fun _ =>
       answer (fun r => match r with Tools l => Ok l | _ => unscripted end);
     call_tool := fun _ _ _ =>
       answer (fun r => match r with Result x => Ok x | _ => unscripted end);
     close := fun _ =>
       answer (fun r => match r with Done => Ok tt | _ => unscripted end);
     create := fun _ =>
       answer (fun r => match r with Completion c => Ok c | _ => unscripted end);
     question :=
       answer (fun r => match r with Line s => Ok s | _ => unscripted end);
     existsSync := fun _ w =>
       match w with
       | Found b :: rest => (b, rest)
       | _ => (false, w)
       end;
     mkdirSync := fun _ =>
       answer (fun r => match r with Done => Ok tt | _ => unscripted end);
     toISOString := fun w =>
       match w with
       | Clock iso :: rest => (iso, rest)
       | _ => ("1970-01-01T00:00:00.000Z", w)
       end;
     writeFileSync := fun _ _ =>
       answer (fun r => match r with Done => Ok tt | _ => unscripted end) |}.

(** [JSON.parse] on the texts the scenarios use. *)
Definition parse_table (raw : string) : option JSON :=
  if String.eqb raw "{}" then Some (JObj [])
  else if String.eqb raw "CONFIG" then
    Some (JObj [("mcpServers",
                 JObj [("files",
                        JObj [("command", JStr "node");
                              ("args", JArr [JStr "server.js"])])])])
  else if String.eqb raw "NO-SERVERS" then
    Some (JObj [("mcpServers", JObj [])])
  else if String.eqb raw "NO-ARGS" then
    Some (JObj [("mcpServers", JObj [("files", JObj [("command", JStr "node")])])])
  else None.

(** A platform with the API key set, whose configuration file reads as
    [file]. *)
Definition platform_reading (file : Outcome string) : Platform :=
  {| env_DEEPSEEK_API_KEY := Some "sk-test";
     platform_projectDir := "/app";
     path_join := fun a b => a +++ "/" +++ b;
     readFileSync := fun _ => file;
     JSON_parse := parse_table |}.

Definition platform : Platform := platform_reading (Ok "CONFIG").

(** The same platform without the environment variable. *)
Definition platform_without_key : Platform :=
  {| env_DEEPSEEK_API_KEY := None;
     platform_projectDir := "/app";
     path_join := fun a b => a +++ "/" +++ b;
     readFileSync := fun _ => Ok "CONFIG";
     JSON_parse := parse_table |}.

Definition settings : Settings :=
  {| model := "deepseek-chat";
     apiKey := "sk-test";
     baseUrl := "https://api.deepseek.com";
     projectDir := "/app";
     serverConfigPath := "/app/server-config.json";
     serverConfig :=
       Some {| name := "files"; command := Some (JStr "node");
               args := [JStr "server.js"] |} |}.

(** A client that is connected, with an empty transcript. *)
Definition connected (w : World) : Client World unit :=
  {| session := Some tt; messages := []; world := w; trace := [] |}.

Definition list_dir : Tool :=
  {| tool_name := "list_dir"; tool_description := Some "List a directory";
     inputSchema := JObj [] |}.

Definition call (call_id tool : string) : ToolCall :=
  {| id := call_id; function_name := tool; function_arguments := "{}" |}.

Definition asks (calls : list ToolCall) : ChatCompletion :=
  {| choices := [ {| finish_reason := "tool_calls";
                     message := {| cm_content := None;
                                   cm_tool_calls := Some calls |} |} ] |}.

Definition says (answer_text : string) : ChatCompletion :=
  {| choices := [ {| finish_reason := "stop";
                     message := {| cm_content := Some answer_text;
                                   cm_tool_calls := None |} |} ] |}.

Definition returns (texts : list string) : ToolResult :=
  {| result_content := map (fun t => {| text := Some t |}) texts |}.

Definition processQuery := processQuery collaborators platform settings.
Definition main := main collaborators platform settings.

(** The model answers at once. *)
Definition plain_answer : World :=
  [Tools [list_dir]; Completion (says "4")].

(** The same with a provider that lists no tool. *)
Definition plain_answer_without_tools : World :=
  [Tools []; Completion (says "4")].

(** The model asks for one call, the tool answers, the model concludes. *)
Definition one_call : World :=
  [Tools [list_dir];
   Completion (asks [call "c1" "list_dir"]);
   Result (returns ["a.txt, b.txt"]);
   Completion (says "The files are a.txt and b.txt.")].

(** The model asks for two calls in one round. *)
Definition two_calls : World :=
  [Tools [list_dir];
   Completion (asks [call "c1" "list_dir"; call "c2" "read_file"]);
   Result (returns ["a.txt"; "b.txt"]);
   Result (returns ["hello"]);
   Completion (says "a.txt says hello.")].

(** The provider rejects the second of two calls. *)
Definition second_call_fails : World :=
  [Tools [list_dir];
   Completion (asks [call "c1" "list_dir"; call "c2" "read_file"]);
   Result (returns ["a.txt"]);
   Fails (Rejected "McpError" "read_file failed")].

(** The provider rejects the only call. *)
Definition call_fails : World :=
  [Tools [list_dir];
   Completion (asks [call "c1" "list_dir"]);
   Fails (Rejected "McpError" "list_dir failed")].

(** The tool returns a result without any content item. *)
Definition empty_result : World :=
  [Tools [list_dir];
   Completion (asks [call "c1" "list_dir"]);
   Result (returns [])].

(** A session: connect, one plain turn, then [quit]; the history
    directory is missing and every file-system step succeeds. *)
Definition session_with_quit : World :=
  [Connected; Done; Tools [list_dir];
   Line "What is 2+2?"; Tools [list_dir]; Completion (says "4");
   Line "  QuIt ";
   Found false; Done; Clock "2024-01-02T03:04:05.000Z"; Done; Done].

(** The provider process starts, but the handshake fails. *)
Definition handshake_fails : World :=
  [Connected; Fails (Rejected "McpError" "handshake failed")].

(** The states [session_with_quit] goes through: connected, after the
    plain turn, after the loop. *)
Definition started : Client World unit := new_MCPClient session_with_quit.

Definition after_connect : Client World unit :=
  snd (connectToServer collaborators settings started).

Definition after_first_turn : Client World unit :=
  snd (chatLoop_body collaborators platform settings after_connect).

Definition after_loop : Client World unit :=
  snd (chatLoop collaborators platform settings 5 after_connect).

(** The client of [second_call_fails] and of [two_calls] once the first
    completion has asked for the calls, and once the first call has
    returned. *)
Definition asked (w : World) : Client World unit :=
  awaiting_tools settings (connected w) "Read the first file" [list_dir]
    (tl w) (tl (tl w)).

Definition first_call_returned (w : World) : Client World unit :=
  snd (call_tools collaborators platform [call "c1" "list_dir"] [] (asked w)).

(** A platform with the API key set, whose configuration file parses to
    [config]. *)
Definition platform_parsing (config : JSON) : Platform :=
  {| env_DEEPSEEK_API_KEY := Some "sk-test";
     platform_projectDir := "/app";
     path_join := fun a b => a +++ "/" +++ b;
     readFileSync := fun _ => Ok "";
     JSON_parse := fun _ => Some config |}.

(** A configuration of two servers, the second of which is not even an
    object. *)
Definition two_servers : JSON :=
  JObj [("mcpServers",
         JObj [("files", JObj [("command", JStr "node");
                               ("args", JArr [JStr "server.js"])]);
               ("broken", JNum 0)])].

(** U+00A0, the no-break space, and U+3000, the ideographic space. *)
Definition nbsp : string := String "194" (String "160" "").

Definition ideographic_space : string :=
  String "227" (String "128" (String "128" "")).

(** The line read is [quit] between no-break spaces. *)
Definition nbsp_quit : World :=
  [Line (nbsp +++ "Quit" +++ nbsp)].

(** The line read is a greeting after a no-break space, answered. *)
Definition nbsp_hello : World :=
  [Line (nbsp +++ "hello" +++ ideographic_space); Tools [];
   Completion (says "Hi")].

(** A configuration of two servers, the second of which has neither
    [command] nor [args]. *)
Definition later_server_bare : JSON :=
  JObj [("mcpServers",
         JObj [("files", JObj [("command", JStr "node");
                               ("args", JArr [JStr "server.js"])]);
               ("search", JObj [("cwd", JStr "/tmp")])])].

(** A configuration whose server has neither [command] nor [args]. *)
Definition bare_server : JSON :=
  JObj [("mcpServers", JObj [("files", JObj [("cwd", JStr "/tmp")])])].

(** A configuration whose server has an empty [args]. *)
Definition empty_args : JSON :=
  JObj [("mcpServers",
         JObj [("files", JObj [("command", JStr "node"); ("args", JArr [])])])].

(** Both calls return, and the finalizing completion fails. *)
Definition finalizing_fails : World :=
  [Tools [list_dir];
   Completion (asks [call "c1" "list_dir"; call "c2" "read_file"]);
   Result (returns ["a.txt"]);
   Result (returns ["hello"]);
   Fails (Rejected "APIError" "503 Service Unavailable")].

(** The call returns, and the finalizing completion asks for a call
    again. *)
Definition asks_again : World :=
  [Tools [list_dir];
   Completion (asks [call "c1" "list_dir"]);
   Result (returns ["a.txt"]);
   Completion (asks [call "c3" "read_file"])].

(** A call whose arguments are not JSON. *)
Definition garbled_call : ToolCall :=
  {| id := "c2"; function_name := "read_file"; function_arguments := "{path:" |}.

Definition garbled_second_call : World :=
  [Tools [list_dir];
   Completion (asks [call "c1" "list_dir"; garbled_call]);
   Result (returns ["a.txt"])].

(** The client of a two-call scenario [w] once the first completion has
    asked for the calls of the query [query]. *)
Definition asked_for (query : string) (w : World) : Client World unit :=
  awaiting_tools settings (connected w) query [list_dir] (tl w) (tl (tl w)).

(** A line is read and the listing of the tools then fails. *)
Definition turn_fails : World :=
  [Line "hello"; Fails (Rejected "McpError" "connection closed")].

(** The terminal cannot be read. *)
Definition read_fails : World :=
  [Fails (Error "stdin closed")].

(** An empty line, answered. *)
Definition empty_line : World :=
  [Line "  "; Tools []; Completion (says "Yes?")].

(** The file system at [cleanup]: the directory exists and all goes
    well; the directory is missing and all goes well. *)
Definition existing_directory : World :=
  [Found true; Clock "2024-01-02T03:04:05.000Z"; Done; Done].

Definition missing_directory : World :=
  [Found false; Done; Clock "2024-01-02T03:04:05.000Z"; Done; Done].

(** A session that quits at once, and whose transcript cannot be
    written. *)
Definition write_fails : World :=
  [Connected; Done; Tools [list_dir]; Line "quit";
   Found true; Clock "2024-01-02T03:04:05.000Z";
   Fails (SystemError "EACCES" "permission denied")].

End Script.

(** * Properties *)

(** ** Relations that every step of a method keeps *)

Section Keeps.

Context {W Session : Type}.
Variable R : Client W Session -> Client W Session -> Prop.
Hypothesis R_refl : forall st, R st st.
Hypothesis R_trans : forall a b c, R a b -> R b c -> R a c.

Lemma keeps_ret A (a : A) : keeps R (ret a).
Proof. intros st r st' H. inversion H; subst. apply R_refl. Qed.

Lemma keeps_throw A (e : JsError) : keeps R (throw (A := A) e).
Proof. intros st r st' H. inversion H; subst. apply R_refl. Qed.

Lemma keeps_lift A (o : Outcome A) : keeps R (lift o).
Proof. intros st r st' H. inversion H; subst. apply R_refl. Qed.

Lemma keeps_get_messages : keeps R get_messages.
Proof. intros st r st' H. inversion H; subst. apply R_refl. Qed.

Lemma keeps_get_session : keeps R get_session.
Proof. intros st r st' H. inversion H; subst. apply R_refl. Qed.

Lemma keeps_the_session method : keeps R (the_session method).
Proof.
  intros st r st' H. unfold the_session in H.
  destruct (session st); inversion H; subst; apply R_refl.
Qed.

Lemma keeps_bind A B (m : M A) (k : A -> M B) :
  keeps R m -> (forall a, keeps R (k a)) -> keeps R (bind m k).
Proof.
  intros Hm Hk st r st' H. unfold bind in H.
  destruct (m st) as [[a | e] st1] eqn:E.
  - eapply R_trans; [ eapply Hm; eassumption | eapply Hk; eassumption ].
  - inversion H; subst. eapply Hm; eassumption.
Qed.

Lemma keeps_try_catch A (m : M A) (handler : JsError -> M A) :
  keeps R m -> (forall e, keeps R (handler e)) -> keeps R (try_catch m handler).
Proof.
  intros Hm Hh st r st' H. unfold try_catch in H.
  destruct (m st) as [[a | e] st1] eqn:E.
  - inversion H; subst. eapply Hm; eassumption.
  - eapply R_trans; [ eapply Hm; eassumption | eapply Hh; eassumption ].
Qed.

End Keeps.

(** Splits a goal [keeps R m] along the structure of [m], leaving the
    primitive effects to the hypotheses in scope. *)
Ltac keeps_structure :=
  repeat first
    [ solve [auto]
    | apply keeps_ret; assumption
    | apply keeps_throw; assumption
    | apply keeps_lift; assumption
    | apply keeps_get_messages; assumption
    | apply keeps_get_session; assumption
    | apply keeps_the_session; assumption
    | apply keeps_bind; [ assumption | | intros ]
    | apply keeps_try_catch; [ assumption | | intros ]
    | match goal with
      | |- keeps _ (if ?b then _ else _) => destruct b
      | |- keeps _ (match ?x with _ => _ end) => destruct x
      end ].

Section KeptByMethods.

Context {W Session : Type}.
Variable C : Collaborators W Session.
Variable P : Platform.
Variable settings : Settings.
Variable R : Client W Session -> Client W Session -> Prop.
Hypothesis R_refl : forall st, R st st.
Hypothesis R_trans : forall a b c, R a b -> R b c -> R a c.

Section Turn.

(** What the orchestrator is made of: pushes and three calls. *)
Hypothesis R_push : forall m, keeps R (push m).
Hypothesis R_list_tools : forall s, keeps R (perform EListTools (list_tools C s)).
Hypothesis R_create : forall r, keeps R (perform (ECreate r) (create C r)).
Hypothesis R_call_tool : forall s n a,
  keeps R (perform (ECallTool n a) (call_tool C s n a)).

Lemma keeps_push_all ms : keeps R (push_all ms).
Proof. induction ms; simpl; keeps_structure. Qed.

Lemma keeps_call_tools calls : forall acc, keeps R (call_tools C P calls acc).
Proof. induction calls; intros acc; simpl; keeps_structure. Qed.

Lemma keeps_processQuery query : keeps R (processQuery C P settings query).
Proof.
  pose proof keeps_push_all. pose proof keeps_call_tools.
  unfold processQuery. keeps_structure.
Qed.

Hypothesis R_question : keeps R (perform EQuestion (question C)).
Hypothesis R_logger : forall msg, keeps R (logger_error msg).

Lemma keeps_chatLoop_body : keeps R (chatLoop_body C P settings).
Proof.
  pose proof keeps_processQuery.
  unfold chatLoop_body. keeps_structure.
Qed.

Lemma keeps_chatLoop fuel : keeps R (chatLoop C P settings fuel).
Proof.
  pose proof keeps_chatLoop_body.
  induction fuel; simpl; keeps_structure.
Qed.

End Turn.

End KeptByMethods.

(** ** Startup *)

Section Startup.

Variable P : Platform.

Let file := path_join P (platform_projectDir P) "server-config.json".

(** Whatever the [try] block throws, the [catch] block throws too. *)
Lemma getSettings_rethrows e :
  readServerConfig P file = Throw e -> exists e', getSettings P = Throw e'.
Proof.
  intros H. unfold getSettings. fold file.
  destruct (env_DEEPSEEK_API_KEY P) as [key |]; [| eauto].
  destruct (String.eqb key ""); [eauto |].
  rewrite H.
  destruct (code_of e) as [code |].
  - destruct (String.eqb code "ENOENT") eqn:E.
    + apply String.eqb_eq in E. subst code. eauto.
    + assert (Hne : code <> "ENOENT") by (apply String.eqb_neq; exact E).
      destruct code as [| a0 code]; [destruct (instanceof_SyntaxError e); eauto |].
      repeat match goal with
             | |- context [match ?x with _ => _ end] =>
                 destruct x; eauto
             end.
  - destruct (instanceof_SyntaxError e); eauto.
Qed.

Lemma missingFields_lacking server :
  Js.has "command" server <> Ok true \/ Js.has "args" server <> Ok true ->
  match missingFields requiredFields server with
  | Ok missing => Nat.ltb 0 (List.length missing) = true
  | Throw _ => True
  end.
Proof.
  intros H. unfold requiredFields. cbn [missingFields].
  destruct (Js.has "command" server) as [[|] | e1];
    destruct (Js.has "args" server) as [[|] | e2]; simpl; auto.
  destruct H as [H | H]; contradiction H; reflexivity.
Qed.

Lemma readServerConfig_unfit :
  (exists e, readFileSync P file = Throw e)
  \/ (exists raw, readFileSync P file = Ok raw /\ JSON_parse P raw = None)
  \/ (exists raw config,
        readFileSync P file = Ok raw
        /\ JSON_parse P raw = Some config
        /\ (no_server_entry config \/ server_entry_lacks_field config)) ->
  exists e, readServerConfig P file = Throw e.
Proof.
  unfold readServerConfig.
  intros [[e H] | [(raw & Hr & Hp) | (raw & config & Hr & Hp & Hbad)]].
  - rewrite H. simpl. eauto.
  - rewrite Hr. simpl. unfold parse. rewrite Hp. simpl. eauto.
  - rewrite Hr. cbn [bindO]. unfold parse. rewrite Hp. cbn [bindO].
    destruct Hbad as [Hnone | (servers & name & server & rest & Hg & He & Hlack)].
    + unfold no_server_entry in Hnone.
      destruct (Js.get config "mcpServers") as [[servers |] | e];
        cbn [bindO]; eauto.
      unfold Js.keys. rewrite Hnone. cbn [map List.length Nat.eqb].
      rewrite orb_true_r. eauto.
    + rewrite Hg. cbn [bindO]. unfold Js.keys. rewrite He.
      cbn [map List.length Nat.eqb]. rewrite orb_false_r.
      destruct (negb (Js.truthy servers)); [eauto |].
      pose proof (missingFields_lacking server Hlack) as Hm.
      destruct (missingFields requiredFields server) as [missing | e];
        cbn [bindO]; [| eauto].
      rewrite Hm. eauto.
Qed.

(** C8, as the code has it -- Startup fails on an unfit
    configuration.  When the API key is missing, the configuration file
    cannot be read or parsed, the parsed file names no server, or the
    server entry the code selects, the first of [mcpServers], lacks
    [command] or [args], [getSettings] throws: it produces no settings,
    so nothing is put in the place of the missing configuration, the
    import of the settings fails and [main], hence the interactive loop,
    never starts.  The entries after the first are not looked at. *)
Theorem startup_fails_on_unfit_configuration :
  unfit_for_startup P ->
  exists e,
    getSettings P = Throw e
    /\ (forall settings, getSettings P <> Ok settings)
    /\ (forall W Session (C : Collaborators W Session) fuel (w : W),
          program C P fuel w = LoadFailed e).
Proof.
  intros H.
  assert (Hthrow : exists e, getSettings P = Throw e).
  { unfold unfit_for_startup in H. fold file in H.
    destruct H as [Hkey | Hfile].
    - unfold getSettings, apiKey_missing in *.
      destruct (env_DEEPSEEK_API_KEY P) as [key |]; [| eauto].
      rewrite Hkey. eauto.
    - destruct (readServerConfig_unfit Hfile) as [e He].
      exact (getSettings_rethrows He). }
  destruct Hthrow as [e He]. exists e.
  split; [exact He |]. split.
  - intros settings Hs. rewrite He in Hs. discriminate.
  - intros. unfold program. rewrite He. reflexivity.
Qed.

End Startup.

(** ** The transcript only grows, and the trace records how *)

Lemma pushed_app evs1 evs2 : pushed (evs1 ++ evs2) = pushed evs1 ++ pushed evs2.
Proof.
  induction evs1 as [| ev evs1 IH]; simpl; [reflexivity |].
  destruct ev; simpl; rewrite ?IH; reflexivity.
Qed.

Lemma cleanups_app evs1 evs2 : cleanups (evs1 ++ evs2) = cleanups evs1 + cleanups evs2.
Proof.
  induction evs1 as [| ev evs1 IH]; simpl; [reflexivity |].
  destruct ev; simpl; rewrite ?IH; reflexivity.
Qed.

Lemma requests_app evs1 evs2 :
  requests (evs1 ++ evs2) = requests evs1 ++ requests evs2.
Proof.
  induction evs1 as [| ev evs1 IH]; simpl; [reflexivity |].
  destruct ev; simpl; rewrite ?IH; reflexivity.
Qed.

Lemma requests_invocations evs :
  forallb is_invocation evs = true -> requests evs = [].
Proof.
  induction evs as [| ev evs IH]; simpl; [reflexivity |].
  intros H. apply andb_true_iff in H. destruct H as [H1 H2].
  destruct ev; simpl in *; try discriminate; auto.
Qed.

Lemma requests_pushes ms : requests (map EPush ms) = [].
Proof. induction ms; simpl; auto. Qed.

Section Follows.

Context {W Session : Type}.
Variable C : Collaborators W Session.
Variable Q : Event -> bool.

Lemma follows_refl (st : Client W Session) : follows Q st st.
Proof.
  exists []. simpl. rewrite !app_nil_r. auto.
Qed.

Lemma follows_trans (a b c : Client W Session) :
  follows Q a b -> follows Q b c -> follows Q a c.
Proof.
  intros (e1 & T1 & M1 & Q1) (e2 & T2 & M2 & Q2).
  exists (e1 ++ e2). rewrite T2, T1, M2, M1, pushed_app, forallb_app, Q1, Q2.
  rewrite !app_assoc. auto.
Qed.

Lemma follows_one (st st' : Client W Session) ev :
  Q ev = true ->
  trace st' = trace st ++ [ev] ->
  messages st' = messages st ++ pushed [ev] ->
  follows Q st st'.
Proof.
  intros HQ HT HM. exists [ev]. simpl. rewrite HQ. auto.
Qed.

Lemma follows_push m : Q (EPush m) = true -> keeps (follows (W := W) (Session := Session) Q) (push m).
Proof.
  intros HQ st r st' H. inversion H; subst.
  apply follows_one with (ev := EPush m); auto.
Qed.

Lemma follows_perform A ev (call : W -> Outcome A * W) :
  Q ev = true -> pushed [ev] = [] ->
  keeps (follows (Session := Session) Q) (perform ev call).
Proof.
  intros HQ HP st r st' H. unfold perform in H.
  destruct (call (world st)) as [r0 w']. inversion H; subst.
  apply follows_one with (ev := ev);
    [ assumption | reflexivity | cbn [messages]; rewrite HP, app_nil_r; reflexivity ].
Qed.

Lemma follows_perform_total A ev (call : W -> A * W) :
  Q ev = true -> pushed [ev] = [] ->
  keeps (follows (Session := Session) Q) (perform_total ev call).
Proof.
  intros. unfold perform_total. apply follows_perform; assumption.
Qed.

Lemma follows_logger_error msg :
  Q (ELoggerError msg) = true ->
  keeps (follows (W := W) (Session := Session) Q) (logger_error msg).
Proof.
  intros HQ st r st' H. inversion H; subst.
  apply follows_one with (ev := ELoggerError msg); simpl; auto.
  rewrite app_nil_r. reflexivity.
Qed.

Lemma follows_set_session s :
  keeps (follows (W := W) (Session := Session) Q) (set_session s).
Proof.
  intros st r st' H. inversion H; subst. exists []. simpl.
  rewrite !app_nil_r. auto.
Qed.

End Follows.

Lemma follows_weaken {W Session} (Q Q' : Event -> bool) (st st' : Client W Session) :
  (forall ev, Q ev = true -> Q' ev = true) ->
  follows Q st st' -> follows Q' st st'.
Proof.
  intros HQ (evs & T & M & F). exists evs. repeat split; auto.
  rewrite forallb_forall in *. auto.
Qed.

Section SameSession.

Context {W Session : Type}.

Lemma same_session_refl (st : Client W Session) : same_session st st.
Proof. reflexivity. Qed.

Lemma same_session_trans (a b c : Client W Session) :
  same_session a b -> same_session b c -> same_session a c.
Proof. unfold same_session. congruence. Qed.

Lemma same_session_push m : keeps (same_session (W := W) (Session := Session)) (push m).
Proof. intros st r st' H. inversion H; subst. reflexivity. Qed.

Lemma same_session_perform A ev (call : W -> Outcome A * W) :
  keeps (same_session (Session := Session)) (perform ev call).
Proof.
  intros st r st' H. unfold perform in H.
  destruct (call (world st)). inversion H; subst. reflexivity.
Qed.

Lemma same_session_logger_error msg :
  keeps (same_session (W := W) (Session := Session)) (logger_error msg).
Proof. intros st r st' H. inversion H; subst. reflexivity. Qed.

End SameSession.

Section MethodsFollow.

Context {W Session : Type}.
Variable C : Collaborators W Session.
Variable P : Platform.
Variable settings : Settings.

Let Client' := Client W Session.

(** The effects of a turn are pushes, tool listings, completions and tool
    invocations only. *)
Lemma processQuery_follows query :
  keeps (follows is_turn_event) (processQuery C P settings query).
Proof.
  apply keeps_processQuery; intros;
    first [ apply follows_refl | eapply follows_trans; eassumption
          | apply follows_push; reflexivity
          | apply follows_perform; reflexivity ].
Qed.

Lemma call_tools_follows calls acc :
  keeps (follows is_turn_event) (call_tools C P calls acc).
Proof.
  apply keeps_call_tools; intros;
    first [ apply follows_refl | eapply follows_trans; eassumption
          | apply follows_perform; reflexivity ].
Qed.

(** The loop never touches the file system and never closes the
    session. *)
Lemma chatLoop_body_follows :
  keeps (follows not_cleanup_event) (chatLoop_body C P settings).
Proof.
  apply keeps_chatLoop_body; intros;
    first [ apply follows_refl | eapply follows_trans; eassumption
          | apply follows_push; reflexivity
          | apply follows_perform; reflexivity
          | apply follows_logger_error; reflexivity ].
Qed.

Lemma chatLoop_follows fuel :
  keeps (follows not_cleanup_event) (chatLoop C P settings fuel).
Proof.
  apply keeps_chatLoop; intros;
    first [ apply follows_refl | eapply follows_trans; eassumption
          | apply follows_push; reflexivity
          | apply follows_perform; reflexivity
          | apply follows_logger_error; reflexivity ].
Qed.

Lemma chatLoop_body_same_session :
  keeps same_session (chatLoop_body C P settings).
Proof.
  apply keeps_chatLoop_body; intros;
    first [ apply same_session_refl | eapply same_session_trans; eassumption
          | apply same_session_push | apply same_session_perform
          | apply same_session_logger_error ].
Qed.

Lemma chatLoop_same_session fuel :
  keeps same_session (chatLoop C P settings fuel).
Proof.
  apply keeps_chatLoop; intros;
    first [ apply same_session_refl | eapply same_session_trans; eassumption
          | apply same_session_push | apply same_session_perform
          | apply same_session_logger_error ].
Qed.

Ltac follows_structure :=
  pose proof (follows_refl (W := W) (Session := Session));
  pose proof (follows_trans (W := W) (Session := Session));
  repeat first
    [ apply follows_perform; reflexivity
    | apply follows_perform_total; reflexivity
    | apply follows_logger_error; reflexivity
    | apply follows_set_session
    | apply keeps_ret; solve [auto]
    | apply keeps_throw; solve [auto]
    | apply keeps_get_messages; solve [auto]
    | apply keeps_get_session; solve [auto]
    | apply keeps_the_session; solve [auto]
    | apply keeps_bind; [ solve [eauto] | | intros ]
    | apply keeps_try_catch; [ solve [eauto] | | intros ]
    | match goal with
      | |- keeps _ (if ?b then _ else _) => destruct b
      | |- keeps _ (match ?x with _ => _ end) => destruct x
      end ].

(** [cleanup] pushes nothing: all it does is test, create, stamp, write
    and close. *)
Lemma cleanup_follows :
  keeps (follows is_cleanup_event) (cleanup C P settings).
Proof.
  unfold cleanup. follows_structure.
Qed.

Lemma connectToServer_follows :
  keeps (follows not_cleanup_event) (connectToServer C settings).
Proof.
  unfold connectToServer, the_serverConfig. follows_structure.
Qed.

Lemma main_follows fuel :
  keeps (follows any_event) (main C P settings fuel).
Proof.
  pose proof (chatLoop_follows fuel) as HL.
  pose proof connectToServer_follows as HC.
  pose proof cleanup_follows as HK.
  assert (W1 : forall A (m : M (W := W) (Session := Session) A), keeps (follows not_cleanup_event) m ->
                                   keeps (follows any_event) m).
  { intros A m Hm st r st' E. eapply follows_weaken; [| eapply Hm; eassumption].
    reflexivity. }
  assert (W2 : forall A (m : M (W := W) (Session := Session) A), keeps (follows is_cleanup_event) m ->
                                   keeps (follows any_event) m).
  { intros A m Hm st r st' E. eapply follows_weaken; [| eapply Hm; eassumption].
    reflexivity. }
  apply W1 in HL, HC. apply W2 in HK.
  unfold main.
  pose proof (follows_refl (W := W) (Session := Session)).
  pose proof (follows_trans (W := W) (Session := Session)).
  apply keeps_try_catch; [ solve [eauto] | | intros ].
  - apply keeps_bind; [ solve [eauto] | assumption | intros ].
    apply keeps_bind; [ solve [eauto] | assumption | intros ].
    destruct a0.
    + apply keeps_bind; [ solve [eauto] | assumption | intros ].
      apply keeps_ret; auto.
    + apply keeps_ret; auto.
  - apply keeps_bind; [ solve [eauto] | | intros ].
    + apply follows_logger_error; reflexivity.
    + apply keeps_ret; auto.
Qed.

(** A kept relation, read on the final state of a run. *)
Lemma keeps_snd A (R : Client' -> Client' -> Prop)
      (m : M (W := W) (Session := Session) A) (st : Client') :
  keeps R m -> R st (snd (m st)).
Proof.
  intros H. destruct (m st) as [r st'] eqn:E. simpl. eapply H; eassumption.
Qed.

Lemma follows_grows (Q : Event -> bool) (st st' : Client') :
  follows Q st st' -> exists added, messages st' = messages st ++ added.
Proof.
  intros (evs & _ & HM & _). exists (pushed evs). assumption.
Qed.

Lemma pushed_cleanup_events evs :
  forallb is_cleanup_event evs = true -> pushed evs = [].
Proof.
  induction evs as [| ev evs IH]; simpl; [reflexivity |].
  intros H. apply andb_true_iff in H. destruct H as [H1 H2].
  destruct ev; simpl in *; try discriminate; auto.
Qed.

(** C9 -- The transcript is append-only.  Whatever the collaborators
    answer and however the operation ends (a normal return or a thrown
    error), [processQuery], the loop over any number of turns,
    [connectToServer] and [main] leave every message that was in
    [this.messages] in place and unchanged and only add messages at the
    end; [cleanup] leaves the transcript exactly as it was. *)
Theorem transcript_append_only (st : Client') :
  (forall query, exists added,
      messages (snd (processQuery C P settings query st)) = messages st ++ added)
  /\ (forall fuel, exists added,
      messages (snd (chatLoop C P settings fuel st)) = messages st ++ added)
  /\ messages (snd (cleanup C P settings st)) = messages st
  /\ (exists added,
      messages (snd (connectToServer C settings st)) = messages st ++ added)
  /\ (forall fuel, exists added,
      messages (snd (main C P settings fuel st)) = messages st ++ added).
Proof.
  repeat split; intros.
  - eapply follows_grows, keeps_snd, processQuery_follows.
  - eapply follows_grows, keeps_snd, chatLoop_follows.
  - destruct (keeps_snd st cleanup_follows) as (evs & _ & HM & HQ).
    rewrite HM, (pushed_cleanup_events _ HQ), app_nil_r. reflexivity.
  - eapply follows_grows, keeps_snd, connectToServer_follows.
  - eapply follows_grows, keeps_snd, main_follows.
Qed.

End MethodsFollow.

(** ** The paths of [processQuery] *)

Section Steps.

Context {W Session : Type}.

Let Client' := Client W Session.
Let M' := M (W := W) (Session := Session).

Lemma bind_ret A B (a : A) (k : A -> M' B) (st : Client') :
  (x <- ret a ;; k x) st = k a st.
Proof. reflexivity. Qed.

Lemma bind_lift_ok A B (a : A) (k : A -> M' B) (st : Client') :
  (x <- lift (Ok a) ;; k x) st = k a st.
Proof. reflexivity. Qed.

Lemma bind_lift_throw A B e (k : A -> M' B) (st : Client') :
  (x <- lift (Throw e) ;; k x) st = (Throw e, st).
Proof. reflexivity. Qed.

Lemma bind_push B m (k : unit -> M' B) (st : Client') :
  (x <- push m ;; k x) st = k tt (with_push m st).
Proof. reflexivity. Qed.

Lemma bind_get_messages B (k : list Message -> M' B) (st : Client') :
  (x <- get_messages ;; k x) st = k (messages st) st.
Proof. reflexivity. Qed.

Lemma bind_get_session B (k : option Session -> M' B) (st : Client') :
  (x <- get_session ;; k x) st = k (session st) st.
Proof. reflexivity. Qed.

Lemma bind_the_session B method s (k : Session -> M' B) (st : Client') :
  session st = Some s ->
  (x <- the_session method ;; k x) st = k s st.
Proof. intros H. unfold bind, the_session. rewrite H. reflexivity. Qed.

Lemma bind_the_session_null B method (k : Session -> M' B) (st : Client') :
  session st = None ->
  (x <- the_session method ;; k x) st
  = (Throw (TypeError ("Cannot read properties of null (reading '"
                       +++ method +++ "')")), st).
Proof. intros H. unfold bind, the_session. rewrite H. reflexivity. Qed.

Lemma bind_perform_ok A B ev (call : W -> Outcome A * W) a w'
      (k : A -> M' B) (st : Client') :
  call (world st) = (Ok a, w') ->
  (x <- perform ev call ;; k x) st = k a (with_event ev w' st).
Proof. intros H. unfold bind, perform. rewrite H. reflexivity. Qed.

Lemma bind_perform_throw A B ev (call : W -> Outcome A * W) e w'
      (k : A -> M' B) (st : Client') :
  call (world st) = (Throw e, w') ->
  (x <- perform ev call ;; k x) st = (Throw e, with_event ev w' st).
Proof. intros H. unfold bind, perform. rewrite H. reflexivity. Qed.

Lemma bind_perform_total A B ev (call : W -> A * W) a w'
      (k : A -> M' B) (st : Client') :
  call (world st) = (a, w') ->
  (x <- perform_total ev call ;; k x) st = k a (with_event ev w' st).
Proof. intros H. unfold bind, perform_total, perform. rewrite H. reflexivity. Qed.

Lemma bind_set_session B s (k : unit -> M' B) (st : Client') :
  (x <- set_session s ;; k x) st = k tt (with_session s st).
Proof. reflexivity. Qed.

Lemma bind_assoc A B D (m : M' A) (k : A -> M' B) (h : B -> M' D) (st : Client') :
  (y <- (x <- m ;; k x) ;; h y) st = (x <- m ;; y <- k x ;; h y) st.
Proof.
  unfold bind. destruct (m st) as [[a | e] st1]; reflexivity.
Qed.

End Steps.

Section StateUpdates.

Context {W Session : Type}.

Let Client' := Client W Session.

Lemma with_events_nil (st : Client') : with_events [] (world st) st = st.
Proof. destruct st. unfold with_events. simpl. rewrite app_nil_r. reflexivity. Qed.

Lemma with_events_app evs1 evs2 (w1 w2 : W) (st : Client') :
  with_events evs2 w2 (with_events evs1 w1 st) = with_events (evs1 ++ evs2) w2 st.
Proof. unfold with_events. simpl. rewrite app_assoc. reflexivity. Qed.

Lemma with_event_events ev (w : W) (st : Client') :
  with_event ev w st = with_events [ev] w st.
Proof. reflexivity. Qed.

Lemma with_pushes_nil (st : Client') : with_pushes [] st = st.
Proof. destruct st. unfold with_pushes. simpl. rewrite !app_nil_r. reflexivity. Qed.

Lemma with_pushes_cons m ms (st : Client') :
  with_pushes ms (with_push m st) = with_pushes (m :: ms) st.
Proof. unfold with_pushes, with_push. simpl. rewrite <- !app_assoc. reflexivity. Qed.

Lemma push_all_eq ms (st : Client') : push_all ms st = (Ok tt, with_pushes ms st).
Proof.
  revert st. induction ms as [| m ms IH]; intros st; simpl.
  - unfold ret. rewrite with_pushes_nil. reflexivity.
  - rewrite bind_push, IH, with_pushes_cons. reflexivity.
Qed.

End StateUpdates.

Section Paths.

Context {W Session : Type}.
Variable C : Collaborators W Session.
Variable P : Platform.
Variable settings : Settings.

Let Client' := Client W Session.

(** Up to the first completion. *)
Lemma processQuery_first_completion (st : Client') query s tools w1 response w2 :
  session st = Some s ->
  list_tools C s (world st) = (Ok tools, w1) ->
  create C (first_request settings (messages st ++ [user_message query]) tools) w1
    = (Ok response, w2) ->
  processQuery C P settings query st
  = (content <- lift (first_choice response) ;;
     if String.eqb (finish_reason content) "tool_calls"
     then
       tool_calls <- lift (iterable (cm_tool_calls (message content))) ;;
       tool_messages <- call_tools C P tool_calls [] ;;
       push (assistant_message (message content)) ;;
       push_all tool_messages ;;
       msgs <- get_messages ;;
       second_response <- perform (ECreate (second_request settings msgs))
                                  (create C (second_request settings msgs)) ;;
       second_content <- lift (first_choice second_response) ;;
       ret (cm_content (message second_content))
     else
       push (assistant_message (message content)) ;;
       ret (cm_content (message content)))
      (awaiting_tools settings st query tools w1 w2).
Proof.
  intros Hs Hl Hc.
  unfold processQuery.
  rewrite bind_push.
  rewrite (bind_the_session _ _ (s := s)) by exact Hs.
  rewrite (bind_perform_ok _ _ _ (a := tools) (w' := w1)) by exact Hl.
  rewrite bind_get_messages.
  cbv zeta.
  rewrite (bind_perform_ok _ _ _ (a := response) (w' := w2)) by exact Hc.
  reflexivity.
Qed.

(** The loop over the requested calls: it changes neither the session
    nor the transcript; when it completes, it has invoked the tools one
    after the other in the order of the requests, and it returns one tool
    message per call, in that order, after the messages it started
    with. *)
Lemma call_tools_shape calls : forall acc (st : Client'),
  exists r evs w,
    call_tools C P calls acc st = (r, with_events evs w st)
    /\ forallb is_invocation evs = true
    /\ (forall tool_messages, r = Ok tool_messages ->
        evs = call_events P calls
        /\ exists new, tool_messages = acc ++ new
                       /\ Forall2 (records C P) calls new).
Proof.
  induction calls as [| call rest IH]; intros acc st.
  - exists (Ok acc), [], (world st). simpl. rewrite with_events_nil.
    split; [reflexivity | split; [reflexivity |]].
    intros tms E. inversion E; subst. split; [reflexivity |].
    exists []. rewrite app_nil_r. auto.
  - cbn [call_tools]. unfold parse at 1.
    destruct (JSON_parse P (function_arguments call)) as [tool_args |] eqn:EP.
    2:{ rewrite bind_lift_throw. do 3 eexists.
        rewrite with_events_nil. split; [reflexivity | split; [reflexivity | discriminate]]. }
    rewrite bind_lift_ok.
    destruct (session st) as [s |] eqn:ES.
    2:{ unfold bind at 1, the_session. rewrite ES. do 3 eexists.
        rewrite with_events_nil. split; [reflexivity | split; [reflexivity | discriminate]]. }
    rewrite (bind_the_session _ _ (s := s)) by exact ES.
    destruct (call_tool C s (function_name call) tool_args (world st))
      as [[result | e] w1] eqn:EC.
    2:{ erewrite bind_perform_throw by exact EC. do 3 eexists.
        rewrite with_event_events. split; [reflexivity | split; [reflexivity | discriminate]]. }
    erewrite bind_perform_ok by exact EC.
    unfold first_text at 1.
    destruct (result_content result) as [| item others] eqn:ER.
    { rewrite bind_lift_throw. do 3 eexists.
      rewrite with_event_events. split; [reflexivity | split; [reflexivity | discriminate]]. }
    rewrite bind_lift_ok.
    destruct (IH (acc ++ [tool_message (text item) (id call)])
                 (with_event (ECallTool (function_name call) tool_args) w1 st))
      as (r & evs & w & E & HQ & Hok).
    exists r, (ECallTool (function_name call) tool_args :: evs), w.
    rewrite E, with_event_events, with_events_app.
    split; [reflexivity | split; [exact HQ |]].
    intros tms Etms. destruct (Hok _ Etms) as (Hev & new & Hnew & HF). split.
    + unfold call_events. simpl.
      unfold call_event at 1. rewrite EP. simpl. f_equal. exact Hev.
    + exists (tool_message (text item) (id call) :: new).
      rewrite Hnew, <- app_assoc. split; [reflexivity |].
      constructor; [| exact HF].
      exists s, tool_args, (world st), result, w1, item, others.
      unfold parse. rewrite EP. auto.
Qed.

Lemma records_order calls new :
  Forall2 (records C P) calls new ->
  map fst (invocations (call_events P calls)) = map function_name calls
  /\ map tool_call_id new = map (fun call => Some (id call)) calls
  /\ Forall (fun m => role m = tool) new
  /\ List.length new = List.length calls.
Proof.
  induction 1 as [| call m calls new Hr HF IH]; simpl; [auto |].
  destruct IH as (I1 & I2 & I3 & I4).
  destruct Hr as (s & a & w & result & w' & item & others & Hp & _ & _ & Hm).
  unfold parse in Hp. unfold call_events in *. simpl.
  unfold call_event at 1.
  destruct (JSON_parse P (function_arguments call)); [| discriminate].
  subst m. simpl. rewrite I1, I2, I4. auto.
Qed.

(** The branch of [processQuery] taken when the first choice asks for
    tool calls. *)
Lemma processQuery_tool_round (st : Client') query s tools w1 response w2 c cs calls :
  session st = Some s ->
  list_tools C s (world st) = (Ok tools, w1) ->
  create C (first_request settings (messages st ++ [user_message query]) tools) w1
    = (Ok response, w2) ->
  choices response = c :: cs ->
  finish_reason c = "tool_calls" ->
  cm_tool_calls (message c) = Some calls ->
  processQuery C P settings query st
  = (tool_messages <- call_tools C P calls [] ;;
     push (assistant_message (message c)) ;;
     push_all tool_messages ;;
     msgs <- get_messages ;;
     second_response <- perform (ECreate (second_request settings msgs))
                                (create C (second_request settings msgs)) ;;
     second_content <- lift (first_choice second_response) ;;
     ret (cm_content (message second_content)))
      (awaiting_tools settings st query tools w1 w2).
Proof.
  intros Hs Hl Hc Hch Hf Ht.
  rewrite (processQuery_first_completion st query Hs Hl Hc).
  unfold first_choice. rewrite Hch, bind_lift_ok, Hf, String.eqb_refl, Ht.
  unfold iterable. rewrite bind_lift_ok. reflexivity.
Qed.

(** C5 -- A turn in which the model requests no tool calls: the first
    choice of the completion does not finish with [tool_calls].  The
    transcript gains exactly two messages, the user message and then the
    assistant message of that choice, and [processQuery] returns the
    content of the assistant message it appended. *)
Theorem turn_without_tool_calls (st : Client') query s tools w1 response w2 c cs :
  session st = Some s ->
  list_tools C s (world st) = (Ok tools, w1) ->
  create C (first_request settings (messages st ++ [user_message query]) tools) w1
    = (Ok response, w2) ->
  choices response = c :: cs ->
  finish_reason c <> "tool_calls" ->
  exists answer st',
    processQuery C P settings query st = (Ok answer, st')
    /\ messages st'
       = messages st ++ [user_message query; assistant_message (message c)]
    /\ List.length (messages st') = List.length (messages st) + 2
    /\ role (assistant_message (message c)) = assistant
    /\ answer = content (assistant_message (message c)).
Proof.
  intros Hs Hl Hc Hch Hf.
  rewrite (processQuery_first_completion st query Hs Hl Hc).
  unfold first_choice. rewrite Hch, bind_lift_ok.
  apply String.eqb_neq in Hf. rewrite Hf, bind_push.
  do 2 eexists. split; [reflexivity |].
  unfold awaiting_tools. cbn [messages with_push with_event].
  rewrite <- app_assoc. simpl.
  repeat split. rewrite length_app. simpl. reflexivity.
Qed.

(** C4, as the code has it -- A turn whose first completion requests the
    calls [calls] and which returns an answer.  The tools are invoked
    strictly one after the other in the order of the requests; the
    result messages are collected in a local array meanwhile, and only
    when every call has returned are the assistant message and then the
    tool messages pushed onto the transcript, the tool messages in the
    order of the requested calls. *)
Theorem tool_calls_sequential_then_appended
        (st : Client') query s tools w1 response w2 c cs calls answer st' :
  session st = Some s ->
  list_tools C s (world st) = (Ok tools, w1) ->
  create C (first_request settings (messages st ++ [user_message query]) tools) w1
    = (Ok response, w2) ->
  choices response = c :: cs ->
  finish_reason c = "tool_calls" ->
  cm_tool_calls (message c) = Some calls ->
  processQuery C P settings query st = (Ok answer, st') ->
  exists tool_messages,
    trace st'
    = trace st
      ++ [EPush (user_message query); EListTools;
          ECreate (first_request settings (messages st ++ [user_message query]) tools)]
      ++ call_events P calls
      ++ EPush (assistant_message (message c)) :: map EPush tool_messages
      ++ [ECreate (second_request settings (messages st'))]
    /\ map fst (invocations (call_events P calls)) = map function_name calls
    /\ messages st'
       = messages st
         ++ user_message query :: assistant_message (message c) :: tool_messages
    /\ map tool_call_id tool_messages = map (fun call => Some (id call)) calls
    /\ Forall (fun m => role m = tool) tool_messages.
Proof.
  intros Hs Hl Hc Hch Hf Ht Hrun.
  rewrite (processQuery_tool_round st query Hs Hl Hc Hch Hf Ht) in Hrun.
  destruct (call_tools_shape calls [] (awaiting_tools settings st query tools w1 w2))
    as (r & evs & w3 & E & _ & Hok).
  unfold bind at 1 in Hrun. rewrite E in Hrun.
  destruct r as [tms | e]; [| discriminate].
  destruct (Hok tms eq_refl) as (Hev & new & Hnew & HF). simpl in Hnew. subst new evs.
  rewrite bind_push in Hrun.
  unfold bind at 1 in Hrun. rewrite push_all_eq in Hrun.
  rewrite bind_get_messages in Hrun.
  match type of Hrun with
  | bind (perform _ (create C ?r)) _ ?st5 = _ =>
      destruct (create C r (world st5)) as [[second | e] w4] eqn:E2
  end.
  2:{ erewrite bind_perform_throw in Hrun by exact E2. discriminate. }
  erewrite bind_perform_ok in Hrun by exact E2.
  destruct (first_choice second) as [c2 | e] eqn:E3;
    [ rewrite bind_lift_ok in Hrun | rewrite bind_lift_throw in Hrun; discriminate ].
  inversion Hrun; subst answer st'. clear Hrun.
  destruct (records_order HF) as (O1 & O2 & O3 & _).
  exists tms. unfold awaiting_tools.
  cbn [messages trace with_push with_event with_events with_pushes].
  rewrite <- !app_assoc. simpl. auto.
Qed.

Lemma call_tools_app before after : forall acc (st : Client'),
  call_tools C P (before ++ after) acc st
  = (tool_messages <- call_tools C P before acc ;;
     call_tools C P after tool_messages) st.
Proof.
  induction before as [| call rest IH]; intros acc st; [reflexivity |].
  cbn [app call_tools]. rewrite bind_assoc.
  destruct (parse P (function_arguments call)) as [tool_args | e];
    [ rewrite !bind_lift_ok | rewrite !bind_lift_throw; reflexivity ].
  rewrite bind_assoc.
  destruct (session st) as [s |] eqn:ES.
  2:{ rewrite !bind_the_session_null by exact ES. reflexivity. }
  rewrite !(bind_the_session _ _ (s := s)) by exact ES.
  rewrite bind_assoc.
  destruct (call_tool C s (function_name call) tool_args (world st))
    as [[result | e] w1] eqn:EC.
  2:{ erewrite !bind_perform_throw by exact EC. reflexivity. }
  erewrite !bind_perform_ok by exact EC.
  rewrite bind_assoc.
  destruct (first_text result) as [result_text | e];
    [ rewrite !bind_lift_ok | rewrite !bind_lift_throw; reflexivity ].
  apply IH.
Qed.

(** When the loop over the requested calls throws, [processQuery] throws
    the same error, and the transcript has gained the user message and
    nothing else. *)
Lemma processQuery_loop_throws (st : Client') query s tools w1 response w2 c cs calls e st3 :
  session st = Some s ->
  list_tools C s (world st) = (Ok tools, w1) ->
  create C (first_request settings (messages st ++ [user_message query]) tools) w1
    = (Ok response, w2) ->
  choices response = c :: cs ->
  finish_reason c = "tool_calls" ->
  cm_tool_calls (message c) = Some calls ->
  call_tools C P calls [] (awaiting_tools settings st query tools w1 w2)
    = (Throw e, st3) ->
  processQuery C P settings query st = (Throw e, st3)
  /\ messages st3 = messages st ++ [user_message query].
Proof.
  intros Hs Hl Hc Hch Hf Ht Hloop.
  rewrite (processQuery_tool_round st query Hs Hl Hc Hch Hf Ht).
  unfold bind at 1. rewrite Hloop. split; [reflexivity |].
  destruct (call_tools_shape calls [] (awaiting_tools settings st query tools w1 w2))
    as (r & evs & w3 & E & _ & _).
  rewrite Hloop in E. inversion E; subst. reflexivity.
Qed.

(** The loop after the calls [before] have returned. *)
Lemma call_tools_after (st2 : Client') before rest tool_messages st3 :
  call_tools C P before [] st2 = (Ok tool_messages, st3) ->
  call_tools C P (before ++ rest) [] st2 = call_tools C P rest tool_messages st3
  /\ session st3 = session st2
  /\ messages st3 = messages st2.
Proof.
  intros H. rewrite call_tools_app. unfold bind. rewrite H.
  split; [reflexivity |].
  destruct (call_tools_shape before [] st2) as (r & evs & w3 & E & _ & _).
  rewrite H in E. inversion E; subst. auto.
Qed.

(** C2, as the code has it -- A turn in which a tool invocation fails:
    the calls requested before it have returned and the provider
    rejects this one with the error [e].  [processQuery] rejects with that
    same error [e] (the code has no error type of its own for this), the
    loop stops at the failed invocation, and the transcript has gained
    exactly one message, the user message: the assistant message with the
    requests and the tool messages collected so far were still held back
    and are not appended. *)
Theorem failed_tool_call_propagates
        (st : Client') query s tools w1 response w2 c cs
        before call after tool_messages st3 tool_args e w4 :
  session st = Some s ->
  list_tools C s (world st) = (Ok tools, w1) ->
  create C (first_request settings (messages st ++ [user_message query]) tools) w1
    = (Ok response, w2) ->
  choices response = c :: cs ->
  finish_reason c = "tool_calls" ->
  cm_tool_calls (message c) = Some (before ++ call :: after) ->
  call_tools C P before [] (awaiting_tools settings st query tools w1 w2)
    = (Ok tool_messages, st3) ->
  parse P (function_arguments call) = Ok tool_args ->
  call_tool C s (function_name call) tool_args (world st3) = (Throw e, w4) ->
  exists st',
    processQuery C P settings query st = (Throw e, st')
    /\ trace st' = trace st3 ++ [ECallTool (function_name call) tool_args]
    /\ messages st' = messages st ++ [user_message query]
    /\ List.length (messages st') = List.length (messages st) + 1.
Proof.
  intros Hs Hl Hc Hch Hf Ht Hbefore Hp Hcall.
  destruct (call_tools_after _ _ (call :: after) Hbefore) as (Happ & Hs3 & _).
  cbn [call_tools] in Happ.
  rewrite Hp, bind_lift_ok in Happ.
  rewrite (bind_the_session _ _ (s := s)) in Happ by (rewrite Hs3; exact Hs).
  erewrite bind_perform_throw in Happ by exact Hcall.
  destruct (processQuery_loop_throws st query Hs Hl Hc Hch Hf Ht Happ) as [Hq Hm].
  eexists. split; [exact Hq |]. split; [reflexivity |]. split; [exact Hm |].
  rewrite Hm, length_app. reflexivity.
Qed.

(** C6 -- The [tools] field of the completion requests.  In every turn
    that gets as far as the first completion, the request carries no
    [tools] field (and no [tool_choice]) when the provider lists no tool,
    and the non-empty list of tool schemas otherwise, never an empty
    list; a turn sends one request, or two when a tool round completed,
    and the second, finalizing request never carries tools. *)
Theorem tools_omitted_when_none_available (st : Client') query s tools w1 :
  session st = Some s ->
  list_tools C s (world st) = (Ok tools, w1) ->
  let r1 := first_request settings (messages st ++ [user_message query]) tools in
  (exists evs,
      trace (snd (processQuery C P settings query st)) = trace st ++ evs
      /\ (requests evs = [r1]
          \/ exists msgs, requests evs = [r1; second_request settings msgs]))
  /\ (tools = [] -> req_tools r1 = None /\ req_tool_choice r1 = None)
  /\ (tools <> [] ->
      req_tools r1 = Some (map function_tool tools)
      /\ map function_tool tools <> [])
  /\ req_tools r1 <> Some []
  /\ (forall msgs,
        req_tools (second_request settings msgs) = None
        /\ req_tool_choice (second_request settings msgs) = None).
Proof.
  intros Hs Hl r1.
  assert (Hfields : (tools = [] -> req_tools r1 = None /\ req_tool_choice r1 = None)
                    /\ (tools <> [] ->
                        req_tools r1 = Some (map function_tool tools)
                        /\ map function_tool tools <> [])
                    /\ req_tools r1 <> Some []).
  { subst r1. unfold first_request. destruct tools as [| t ts]; simpl.
    - split; [auto |]. split; [| discriminate].
      intros Hne. contradiction Hne. reflexivity.
    - split; [discriminate |]. split; [| discriminate].
      intros _. split; [reflexivity | discriminate]. }
  split; [| intuition].
  clear Hfields.
  (* every path ends in a state whose trace is [trace st ++ evs] *)
  assert (Hpre : forall evs w,
             trace (with_events evs w
                      (awaiting_tools settings st query tools w1 w)) 
             = trace st ++ [EPush (user_message query); EListTools; ECreate r1] ++ evs).
  { intros. unfold awaiting_tools. cbn [trace with_events with_event with_push messages].
    rewrite <- !app_assoc. reflexivity. }
  destruct (create C r1 w1) as [[response | e] w2] eqn:Hc.
  2:{ unfold processQuery.
      rewrite bind_push, (bind_the_session _ _ (s := s)) by exact Hs.
      erewrite bind_perform_ok by exact Hl.
      rewrite bind_get_messages. cbv zeta.
      erewrite bind_perform_throw by exact Hc.
      exists [EPush (user_message query); EListTools; ECreate r1].
      split; [| left; reflexivity].
      cbn [snd trace with_event with_push]. rewrite <- !app_assoc. reflexivity. }
  rewrite (processQuery_first_completion st query Hs Hl Hc).
  fold r1.
  set (st2 := awaiting_tools settings st query tools w1 w2) in *.
  assert (H2 : trace st2 = trace st ++ [EPush (user_message query); EListTools; ECreate r1]).
  { subst st2. rewrite <- (with_events_nil (awaiting_tools _ _ _ _ _ _)).
    rewrite Hpre, app_nil_r. reflexivity. }
  destruct (first_choice response) as [c | e];
    [ rewrite bind_lift_ok | rewrite bind_lift_throw ].
  2:{ eexists. split; [exact H2 | left; reflexivity]. }
  destruct (String.eqb (finish_reason c) "tool_calls").
  2:{ rewrite bind_push. unfold ret. cbn [snd trace with_push]. rewrite H2.
      exists ([EPush (user_message query); EListTools; ECreate r1]
                ++ [EPush (assistant_message (message c))]).
      rewrite app_assoc. split; [reflexivity | left; reflexivity]. }
  destruct (iterable (cm_tool_calls (message c))) as [calls | e];
    [ rewrite bind_lift_ok | rewrite bind_lift_throw ].
  2:{ eexists. split; [exact H2 | left; reflexivity]. }
  destruct (call_tools_shape calls [] st2) as (r & evs & w3 & E & HQ & _).
  unfold bind at 1. rewrite E.
  destruct r as [tms | e].
  2:{ cbn [snd trace with_events]. rewrite H2.
      exists ([EPush (user_message query); EListTools; ECreate r1] ++ evs).
      rewrite app_assoc. split; [reflexivity |]. left.
      rewrite requests_app, (requests_invocations _ HQ). reflexivity. }
  rewrite bind_push. unfold bind at 1. rewrite push_all_eq.
  rewrite bind_get_messages.
  set (st5 := with_pushes tms (with_push (assistant_message (message c))
                                         (with_events evs w3 st2))).
  assert (H5 : forall w, trace (with_event (ECreate (second_request settings (messages st5))) w st5)
               = trace st ++ ([EPush (user_message query); EListTools; ECreate r1] ++ evs
                                ++ EPush (assistant_message (message c)) :: map EPush tms
                                ++ [ECreate (second_request settings (messages st5))])).
  { intros w. subst st5.
    cbn [trace with_event with_pushes with_push with_events]. rewrite H2.
    rewrite <- !app_assoc. reflexivity. }
  assert (HR : requests ([EPush (user_message query); EListTools; ECreate r1] ++ evs
                           ++ EPush (assistant_message (message c)) :: map EPush tms
                           ++ [ECreate (second_request settings (messages st5))])
               = [r1; second_request settings (messages st5)]).
  { rewrite !requests_app, (requests_invocations _ HQ). simpl.
    rewrite requests_app, requests_pushes. reflexivity. }
  destruct (create C (second_request settings (messages st5)) (world st5))
    as [[second | e] w4] eqn:E2.
  2:{ erewrite bind_perform_throw by exact E2.
      eexists. split; [apply H5 | right; eexists; exact HR]. }
  erewrite bind_perform_ok by exact E2.
  destruct (first_choice second) as [c2 | e];
    [ rewrite bind_lift_ok | rewrite bind_lift_throw ];
    (eexists; split; [apply H5 | right; eexists; exact HR]).
Qed.

End Paths.

(** ** The end of the session *)

Section Shutdown.

Context {W Session : Type}.
Variable C : Collaborators W Session.
Variable P : Platform.
Variable settings : Settings.

Let Client' := Client W Session.

Lemma cleanups_not_cleanup evs :
  forallb not_cleanup_event evs = true -> cleanups evs = 0.
Proof.
  induction evs as [| ev evs IH]; simpl; [reflexivity |].
  intros H. apply andb_true_iff in H. destruct H as [H1 H2].
  destruct ev; simpl in *; try discriminate; auto.
Qed.

Lemma cleanup_not_turn evs :
  forallb is_cleanup_event evs = true -> forallb not_turn_event evs = true.
Proof.
  induction evs as [| ev evs IH]; simpl; [reflexivity |].
  intros H. apply andb_true_iff in H. destruct H as [H1 H2].
  rewrite (IH H2), andb_true_r. destruct ev; simpl in *; auto; discriminate.
Qed.

(** Every run of [cleanup] starts with the test for the history
    directory and performs it once; a run that completes has written the
    transcript, as it stands, and then closed the session. *)
Lemma cleanup_shape (st : Client') :
  exists r evs w,
    cleanup C P settings st
    = (r, with_events (EExistsSync (historyDir P settings) :: evs) w st)
    /\ cleanups evs = 0
    /\ forallb is_cleanup_event evs = true
    /\ (r = Ok tt ->
        exists mk iso,
          evs = mk ++ [ENewDate;
                       EWriteFileSync (historyFile P settings iso) (messages st)]
                   ++ match session st with Some _ => [EClose] | None => [] end
          /\ (mk = [] \/ mk = [EMkdirSync (historyDir P settings)])).
Proof.
  unfold cleanup. fold (historyDir P settings).
  destruct (existsSync C (historyDir P settings) (world st)) as [found w1] eqn:E1.
  erewrite bind_perform_total by exact E1.
  set (st1 := with_event (EExistsSync (historyDir P settings)) w1 st).
  assert (Hmk : exists (r : Outcome unit) mk w2,
             (if negb found
              then perform (EMkdirSync (historyDir P settings))
                           (mkdirSync C (historyDir P settings))
              else ret tt) st1 = (r, with_events mk w2 st1)
             /\ (mk = [] \/ mk = [EMkdirSync (historyDir P settings)])).
  { destruct found; simpl.
    - exists (Ok tt), [], (world st1). rewrite with_events_nil. auto.
    - unfold perform.
      destruct (mkdirSync C (historyDir P settings) (world st1)) as [r w2].
      exists r, [EMkdirSync (historyDir P settings)], w2. auto. }
  destruct Hmk as (r & mk & w2 & Emk & Hmk).
  unfold bind at 1. rewrite Emk.
  assert (Hmk' : cleanups mk = 0 /\ forallb is_cleanup_event mk = true)
    by (destruct Hmk; subst mk; auto).
  destruct Hmk' as [Hmk1 Hmk2].
  destruct r as [[] | e].
  2:{ exists (Throw e), mk, w2. subst st1.
      rewrite with_event_events, with_events_app.
      split; [reflexivity | split; [assumption | split; [assumption | discriminate]]]. }
  destruct (toISOString C w2) as [iso w3] eqn:E3.
  erewrite bind_perform_total by exact E3.
  rewrite bind_get_messages. fold (historyFile P settings iso).
  set (st3 := with_event ENewDate w3 (with_events mk w2 st1)).
  replace (messages st3) with (messages st) by reflexivity.
  destruct (writeFileSync C (historyFile P settings iso) (messages st) (world st3))
    as [[[] | e] w4] eqn:E4.
  2:{ erewrite bind_perform_throw by exact E4.
      exists (Throw e),
        (mk ++ [ENewDate; EWriteFileSync (historyFile P settings iso) (messages st)]), w4.
      subst st3 st1. rewrite !with_event_events, !with_events_app.
      rewrite cleanups_app, forallb_app, Hmk1, Hmk2. simpl.
      rewrite <- ?app_assoc.
      split; [reflexivity | split; [reflexivity | split; [reflexivity | discriminate]]]. }
  erewrite bind_perform_ok by exact E4.
  rewrite bind_get_session.
  set (st4 := with_event (EWriteFileSync (historyFile P settings iso) (messages st)) w4 st3).
  replace (session st4) with (session st) by reflexivity.
  destruct (session st) as [s |] eqn:ES.
  - unfold perform. destruct (close C s (world st4)) as [r w5].
    exists r,
      (mk ++ [ENewDate; EWriteFileSync (historyFile P settings iso) (messages st)]
          ++ [EClose]), w5.
    subst st4 st3 st1. rewrite !with_event_events, !with_events_app.
    rewrite cleanups_app, forallb_app, Hmk1, Hmk2. simpl.
    rewrite <- ?app_assoc.
    split; [reflexivity | split; [reflexivity | split; [reflexivity |]]].
    intros _. exists mk, iso. auto.
  - exists (Ok tt),
      (mk ++ [ENewDate; EWriteFileSync (historyFile P settings iso) (messages st)]),
      (world st4).
    unfold ret. subst st4 st3 st1. rewrite !with_event_events, !with_events_app.
    rewrite cleanups_app, forallb_app, Hmk1, Hmk2. simpl.
    rewrite <- ?app_assoc.
    split; [reflexivity | split; [reflexivity | split; [reflexivity |]]].
    intros _. exists mk, iso. auto.
Qed.

(** A client that [connectToServer] has connected holds a session. *)
Lemma connectToServer_session (st0 st1 : Client') :
  connectToServer C settings st0 = (Ok tt, st1) ->
  exists s, session st1 = Some s.
Proof.
  unfold connectToServer, the_serverConfig.
  destruct (serverConfig settings) as [sc |]; [| discriminate].
  rewrite bind_ret.
  destruct (stdio_client C (command sc) (args sc) (world st0)) as [[s | e] w1] eqn:E1.
  2:{ erewrite bind_perform_throw by exact E1. discriminate. }
  erewrite bind_perform_ok by exact E1.
  rewrite bind_set_session.
  rewrite (bind_the_session _ _ (s := s)) by reflexivity.
  intros H.
  assert (K : keeps same_session
                (perform EInitialize (initialize C s) ;;
                 s0 <- the_session "list_tools" ;;
                 _ <- perform EListTools (list_tools C s0) ;; ret tt)).
  { pose proof (same_session_refl (W := W) (Session := Session)).
    pose proof (same_session_trans (W := W) (Session := Session)).
    repeat first
      [ apply same_session_perform
      | apply keeps_ret; solve [auto]
      | apply keeps_the_session; solve [auto]
      | apply keeps_bind; [ solve [eauto] | | intros ] ]. }
  exists s. rewrite (K _ _ _ H). reflexivity.
Qed.

Lemma chatLoop_continues n : forall (st1 st : Client') fuel,
  loop_reaches C P settings n st1 st ->
  chatLoop C P settings (n + fuel) st1 = chatLoop C P settings fuel st.
Proof.
  induction n as [| n IH]; intros st1 st fuel H; inversion H; subst;
    [reflexivity |].
  cbn [Nat.add chatLoop]. unfold bind at 1.
  match goal with E : chatLoop_body _ _ _ _ = _ |- _ => rewrite E end.
  apply IH. assumption.
Qed.

(** A line that is [quit] once trimmed and lowered ends the pass with
    [break], and nothing but the question has happened. *)
Lemma chatLoop_body_quit (st : Client') line w' :
  question C (world st) = (Ok line, w') ->
  Js.toLowerCase (Js.trim line) = "quit" ->
  chatLoop_body C P settings st = (Ok Break, with_event EQuestion w' st).
Proof.
  intros Hq Hquit. unfold chatLoop_body, try_catch.
  erewrite bind_perform_ok by exact Hq. cbv zeta.
  unfold is_quit. rewrite Hquit. reflexivity.
Qed.

(** [main] once the client is connected and the loop has been left: it
    runs [cleanup], once, on the state the loop ended in, and returns. *)
Lemma main_after_quit (st0 st1 st2 : Client') fuel :
  connectToServer C settings st0 = (Ok tt, st1) ->
  chatLoop C P settings fuel st1 = (Ok true, st2) ->
  exists st_end evs,
    main C P settings fuel st0 = (Ok (Some tt), st_end)
    /\ trace st_end = trace st2 ++ EExistsSync (historyDir P settings) :: evs
    /\ cleanups evs = 0
    /\ forallb not_turn_event evs = true
    /\ messages st_end = messages st2
    /\ (forall st3,
          cleanup C P settings st2 = (Ok tt, st3) ->
          st_end = st3
          /\ exists mk iso,
              evs = mk ++ [ENewDate;
                           EWriteFileSync (historyFile P settings iso) (messages st2)]
                       ++ match session st2 with Some _ => [EClose] | None => [] end
              /\ (mk = [] \/ mk = [EMkdirSync (historyDir P settings)])).
Proof.
  intros Hc Hl. unfold main, try_catch.
  unfold bind at 1. rewrite Hc. unfold bind at 1. rewrite Hl.
  destruct (cleanup_shape st2) as (r & evs & w & E & H0 & HQ & Hok).
  unfold bind at 1. rewrite E.
  destruct r as [[] | e].
  - exists (with_events (EExistsSync (historyDir P settings) :: evs) w st2), evs.
    unfold ret.
    split; [reflexivity | split; [reflexivity | split; [assumption |]]].
    split; [apply cleanup_not_turn; assumption |].
    split; [reflexivity |].
    intros st3 E3. inversion E3; subst. split; [reflexivity |]. apply Hok. reflexivity.
  - exists (with_event (ELoggerError (message_of e)) w
             (with_events (EExistsSync (historyDir P settings) :: evs) w st2)),
      (evs ++ [ELoggerError (message_of e)]).
    split; [reflexivity |].
    split; [cbn [trace with_event with_events]; rewrite <- app_assoc; reflexivity |].
    split; [rewrite cleanups_app, H0; reflexivity |].
    split; [rewrite forallb_app, (cleanup_not_turn _ HQ); reflexivity |].
    split; [reflexivity |].
    intros st3 E3. discriminate.
Qed.

(** C3, as the code has it -- The normal quit path: the connection
    succeeded and the loop was left.  [main] then runs [cleanup] exactly
    once, after the loop, and returns; when [cleanup] completes, the
    transcript as it stood at the end of the loop has been written to a
    file of the history directory and, after that, the session has been
    closed. *)
Theorem cleanup_on_normal_quit (st0 st1 st2 : Client') fuel :
  connectToServer C settings st0 = (Ok tt, st1) ->
  chatLoop C P settings fuel st1 = (Ok true, st2) ->
  exists s st_end evs,
    session st2 = Some s
    /\ main C P settings fuel st0 = (Ok (Some tt), st_end)
    /\ trace st_end = trace st2 ++ EExistsSync (historyDir P settings) :: evs
    /\ cleanups evs = 0
    /\ cleanups (trace st_end) = cleanups (trace st0) + 1
    /\ (forall st3,
          cleanup C P settings st2 = (Ok tt, st3) ->
          st_end = st3
          /\ exists mk iso,
              evs = mk ++ [ENewDate;
                           EWriteFileSync (historyFile P settings iso) (messages st2);
                           EClose]
              /\ (mk = [] \/ mk = [EMkdirSync (historyDir P settings)])).
Proof.
  intros Hc Hl.
  destruct (@connectToServer_session st0 st1 Hc) as [s Hs1].
  assert (Hs2 : session st2 = Some s)
    by (rewrite (chatLoop_same_session C P settings fuel _ Hl); exact Hs1).
  destruct (@main_after_quit st0 st1 st2 fuel Hc Hl)
    as (st_end & evs & Hmain & Htr & H0 & _ & _ & Hok).
  exists s, st_end, evs.
  split; [exact Hs2 |]. split; [exact Hmain |]. split; [exact Htr |].
  split; [exact H0 |]. split.
  - destruct (connectToServer_follows C settings _ Hc) as (e1 & T1 & _ & Q1).
    destruct (chatLoop_follows C P settings fuel _ Hl) as (e2 & T2 & _ & Q2).
    rewrite Htr, T2, T1, !cleanups_app.
    rewrite (cleanups_not_cleanup _ Q1), (cleanups_not_cleanup _ Q2). simpl.
    rewrite H0. lia.
  - intros st3 E3. destruct (Hok st3 E3) as (Heq & mk & iso & Hev & Hmk).
    split; [exact Heq |]. exists mk, iso. rewrite Hs2 in Hev. auto.
Qed.

(** C7 -- Quitting.  The client is connected and the loop has made any
    number of passes; the line read next is [quit] once trimmed (of all
    white space) and lowered.  The pass ends the loop with nothing done
    but the reading of the line: the orchestrator is not invoked for it,
    and no effect of a turn follows.  What [main] does from there is one
    call of [cleanup], whose error, if any, it logs: [cleanup] is entered
    exactly once, after the loop, and [main] returns, the transcript being
    what it was when the line was read. *)
Theorem quit_leaves_loop_and_cleans_up_once
        (st0 st1 st : Client') n line w' fuel :
  connectToServer C settings st0 = (Ok tt, st1) ->
  loop_reaches C P settings n st1 st ->
  question C (world st) = (Ok line, w') ->
  Js.toLowerCase (Js.trim line) = "quit" ->
  chatLoop_body C P settings st = (Ok Break, with_event EQuestion w' st)
  /\ chatLoop C P settings (n + S fuel) st1 = (Ok true, with_event EQuestion w' st)
  /\ main C P settings (n + S fuel) st0
     = try_catch (cleanup C P settings ;; ret (Some tt))
                 (fun error => logger_error (message_of error) ;; ret (Some tt))
                 (with_event EQuestion w' st)
  /\ exists st_end evs,
      main C P settings (n + S fuel) st0 = (Ok (Some tt), st_end)
      /\ trace st_end
         = trace st ++ EQuestion :: EExistsSync (historyDir P settings) :: evs
      /\ forallb not_turn_event evs = true
      /\ cleanups evs = 0
      /\ cleanups (trace st_end) = cleanups (trace st0) + 1
      /\ messages st_end = messages st.
Proof.
  intros Hc Hreach Hq Hquit.
  pose proof (@chatLoop_body_quit st line w' Hq Hquit) as Hbody.
  assert (Hloop : chatLoop C P settings (n + S fuel) st1
                  = (Ok true, with_event EQuestion w' st)).
  { rewrite (@chatLoop_continues n st1 st (S fuel) Hreach).
    cbn [chatLoop]. unfold bind at 1. rewrite Hbody. reflexivity. }
  split; [exact Hbody |]. split; [exact Hloop |].
  split.
  { unfold main, try_catch. unfold bind at 1. rewrite Hc.
    unfold bind at 1. rewrite Hloop. reflexivity. }
  destruct (@main_after_quit st0 st1 _ _ Hc Hloop)
    as (st_end & evs & Hmain & Htr & H0 & HQ & Hm & _).
  exists st_end, evs.
  split; [exact Hmain |].
  split; [rewrite Htr; cbn [trace with_event]; rewrite <- app_assoc; reflexivity |].
  split; [exact HQ |]. split; [exact H0 |]. split; [| exact Hm].
  destruct (connectToServer_follows C settings _ Hc) as (e1 & T1 & _ & Q1).
  destruct (chatLoop_follows C P settings (n + S fuel) _ Hloop) as (e2 & T2 & _ & Q2).
  rewrite Htr, T2, T1, !cleanups_app.
  rewrite (cleanups_not_cleanup _ Q1), (cleanups_not_cleanup _ Q2). simpl.
  rewrite H0. lia.
Qed.

End Shutdown.

(** ** The scenarios, run *)

Example trim_quit : Js.toLowerCase (Js.trim "  QuIt ") = "quit".
Proof. reflexivity. Qed.

Example index_name_12 : Js.index_name 12 = "12".
Proof. reflexivity. Qed.

Example replace_timestamp :
  Js.replace_colon_dot "2024-01-02T03:04:05.000Z" = "2024-01-02T03-04-05-000Z".
Proof. reflexivity. Qed.

Example settings_loaded : getSettings Script.platform = Ok Script.settings.
Proof. reflexivity. Qed.

Example config_file_not_found :
  getSettings (Script.platform_reading (Throw (SystemError "ENOENT" "no such file")))
  = Throw (Error "MCP Config file not found: /app/server-config.json").
Proof. reflexivity. Qed.

Example config_file_invalid :
  getSettings (Script.platform_reading (Ok "not json"))
  = Throw (Error "Invalid MCP Config file: /app/server-config.json").
Proof. reflexivity. Qed.

Example config_without_servers :
  getSettings (Script.platform_reading (Ok "NO-SERVERS"))
  = Throw (Error "Config must contain at least one server in 'mcpServers'").
Proof. reflexivity. Qed.

Example config_without_args :
  getSettings (Script.platform_reading (Ok "NO-ARGS"))
  = Throw (Error "Server 'files' missing required fields: args").
Proof. reflexivity. Qed.

(** C1 -- The spec's scenario of one tool call, run on the code: the
    model asks for [list_dir], the tool answers, the second completion
    gives the answer.  [processQuery] returns the answer, but the
    transcript has gained three messages, not four: the user message,
    the assistant message with the request and the tool message.  The
    final assistant message is returned and never pushed, although the
    branch without tool calls pushes the assistant message it returns. *)
Theorem tool_round_final_answer_not_appended :
  fst (Script.processQuery "List files in /tmp" (Script.connected Script.one_call))
  = Ok (Some "The files are a.txt and b.txt.")
  /\ messages (snd (Script.processQuery "List files in /tmp"
                      (Script.connected Script.one_call)))
     = [ user_message "List files in /tmp";
         assistant_message {| cm_content := None;
                              cm_tool_calls := Some [Script.call "c1" "list_dir"] |};
         tool_message (Some "a.txt, b.txt") "c1" ]
  /\ List.length (messages (snd (Script.processQuery "List files in /tmp"
                                   (Script.connected Script.one_call)))) = 1 + 2
  /\ ~ In (assistant_message {| cm_content := Some "The files are a.txt and b.txt.";
                                cm_tool_calls := None |})
          (messages (snd (Script.processQuery "List files in /tmp"
                            (Script.connected Script.one_call)))).
Proof.
  split; [reflexivity |]. split; [reflexivity |]. split; [reflexivity |].
  intros [H | [H | [H | []]]]; discriminate H.
Qed.

(** C2 refuted as stated -- The provider rejects the only requested
    call.  [processQuery] rejects with the provider's own error, and the
    transcript holds one message, the user message, not two: the
    assistant message with the request has not been appended. *)
Lemma failed_tool_call_transcript_has_one_message :
  fst (Script.processQuery "List files in /tmp" (Script.connected Script.call_fails))
  = Throw (Rejected "McpError" "list_dir failed")
  /\ messages (snd (Script.processQuery "List files in /tmp"
                      (Script.connected Script.call_fails)))
     = [user_message "List files in /tmp"]
  /\ List.length (messages (snd (Script.processQuery "List files in /tmp"
                                   (Script.connected Script.call_fails)))) <> 2.
Proof.
  split; [reflexivity |]. split; [reflexivity |]. discriminate.
Qed.

(** C3 refuted as stated -- The provider process starts and the
    handshake fails.  [main] logs the error and returns: the session it
    opened is never closed and no transcript is written. *)
Lemma error_exit_runs_no_cleanup :
  fst (Script.main 5 (new_MCPClient Script.handshake_fails)) = Ok (Some tt)
  /\ session (snd (Script.main 5 (new_MCPClient Script.handshake_fails))) = Some tt
  /\ trace (snd (Script.main 5 (new_MCPClient Script.handshake_fails)))
     = [EStdioClient (Some (JStr "node")) [JStr "server.js"];
        EInitialize;
        ELoggerError "handshake failed"]
  /\ cleanups (trace (snd (Script.main 5 (new_MCPClient Script.handshake_fails)))) = 0
  /\ ~ In EClose (trace (snd (Script.main 5 (new_MCPClient Script.handshake_fails)))).
Proof.
  split; [reflexivity |]. split; [reflexivity |]. split; [reflexivity |].
  split; [reflexivity |].
  intros [H | [H | [H | []]]]; discriminate H.
Qed.

(** C4 refuted as stated -- Two calls in one round.  The second tool is
    invoked while the result of the first is still held in the local
    array: both invocations come before the first push of a tool
    message. *)
Lemma second_call_runs_before_first_result_is_appended :
  fst (Script.processQuery "Read the first file" (Script.connected Script.two_calls))
  = Ok (Some "a.txt says hello.")
  /\ result_pushed_before_next_call false
       (trace (snd (Script.processQuery "Read the first file"
                      (Script.connected Script.two_calls)))) = false
  /\ exists r1 r2,
      trace (snd (Script.processQuery "Read the first file"
                    (Script.connected Script.two_calls)))
      = [ EPush (user_message "Read the first file");
          EListTools;
          ECreate r1;
          ECallTool "list_dir" (JObj []);
          ECallTool "read_file" (JObj []);
          EPush (assistant_message
                   {| cm_content := None;
                      cm_tool_calls := Some [Script.call "c1" "list_dir";
                                             Script.call "c2" "read_file"] |});
          EPush (tool_message (Some "a.txt") "c1");
          EPush (tool_message (Some "hello") "c2");
          ECreate r2 ].
Proof.
  split; [reflexivity |]. split; [reflexivity |].
  do 2 eexists. reflexivity.
Qed.

Example one_call_result_pushed_in_time :
  result_pushed_before_next_call false
    (trace (snd (Script.processQuery "List files in /tmp"
                   (Script.connected Script.one_call)))) = true.
Proof. reflexivity. Qed.

(** The plain turn of the spec: ["What is 2+2?"] answered by ["4"]. *)
Lemma turn_without_tool_calls_witness :
  exists answer st',
    processQuery Script.collaborators Script.platform Script.settings
      "What is 2+2?" (Script.connected Script.plain_answer) = (Ok answer, st')
    /\ messages st'
       = messages (Script.connected Script.plain_answer)
         ++ [user_message "What is 2+2?";
             assistant_message {| cm_content := Some "4"; cm_tool_calls := None |}]
    /\ List.length (messages st')
       = List.length (messages (Script.connected Script.plain_answer)) + 2
    /\ role (assistant_message {| cm_content := Some "4"; cm_tool_calls := None |})
       = assistant
    /\ answer
       = content (assistant_message {| cm_content := Some "4"; cm_tool_calls := None |}).
Proof.
  apply (@turn_without_tool_calls _ _ Script.collaborators Script.platform
           Script.settings (Script.connected Script.plain_answer) "What is 2+2?"
           tt [Script.list_dir] [Script.Completion (Script.says "4")]
           (Script.says "4") []
           {| finish_reason := "stop";
              message := {| cm_content := Some "4"; cm_tool_calls := None |} |} []);
    [reflexivity | reflexivity | reflexivity | reflexivity | discriminate].
Defined.

(** The same turn with a provider that lists no tool: the request has
    no [tools] field. *)
Lemma tools_omitted_when_none_available_witness :
  let st := Script.connected Script.plain_answer_without_tools in
  let r1 := first_request Script.settings
              (messages st ++ [user_message "What is 2+2?"]) [] in
  (exists evs,
      trace (snd (processQuery Script.collaborators Script.platform Script.settings
                    "What is 2+2?" st)) = trace st ++ evs
      /\ (requests evs = [r1]
          \/ exists msgs, requests evs = [r1; second_request Script.settings msgs]))
  /\ (@nil Tool = [] -> req_tools r1 = None /\ req_tool_choice r1 = None)
  /\ (@nil Tool <> [] ->
      req_tools r1 = Some (map function_tool []) /\ map function_tool [] <> [])
  /\ req_tools r1 <> Some []
  /\ (forall msgs,
        req_tools (second_request Script.settings msgs) = None
        /\ req_tool_choice (second_request Script.settings msgs) = None).
Proof.
  apply (@tools_omitted_when_none_available _ _ Script.collaborators Script.platform
           Script.settings (Script.connected Script.plain_answer_without_tools)
           "What is 2+2?" tt [] [Script.Completion (Script.says "4")]);
    reflexivity.
Defined.

(** The only server of the configuration has neither [command] nor
    [args]. *)
Lemma startup_fails_on_unfit_configuration_witness :
  exists e,
    getSettings (Script.platform_parsing Script.bare_server) = Throw e
    /\ (forall settings,
          getSettings (Script.platform_parsing Script.bare_server) <> Ok settings)
    /\ (forall W Session (C : Collaborators W Session) fuel (w : W),
          program C (Script.platform_parsing Script.bare_server) fuel w
          = LoadFailed e).
Proof.
  apply (@startup_fails_on_unfit_configuration
           (Script.platform_parsing Script.bare_server)).
  right. right. right.
  exists "", Script.bare_server.
  split; [reflexivity |]. split; [reflexivity |]. right.
  exists (JObj [("files", JObj [("cwd", JStr "/tmp")])]),
    "files", (JObj [("cwd", JStr "/tmp")]), [].
  split; [reflexivity |]. split; [reflexivity |].
  left. discriminate.
Defined.

(** The environment variable is not set. *)
Example startup_fails_without_key :
  unfit_for_startup Script.platform_without_key
  /\ getSettings Script.platform_without_key
     = Throw (Error "DeepSeek API key is required. Please set DEEPSEEK_API_KEY in your .env file.").
Proof. split; [left; reflexivity | reflexivity]. Qed.

(** C8 refuted as stated -- A configuration of two servers, the second
    of which has neither [command] nor [args].  A server entry lacks the
    fields, and yet startup succeeds: [getSettings] returns the settings
    of the first server, and [main] runs. *)
Lemma later_bare_entry_does_not_stop_startup :
  some_server_entry_lacks_field Script.later_server_bare
  /\ loads_config (Script.platform_parsing Script.later_server_bare)
       "sk-test" Script.later_server_bare
  /\ getSettings (Script.platform_parsing Script.later_server_bare)
     = Ok {| model := "deepseek-chat";
             apiKey := "sk-test";
             baseUrl := "https://api.deepseek.com";
             projectDir := "/app";
             serverConfigPath := "/app/server-config.json";
             serverConfig :=
               Some {| name := "files"; command := Some (JStr "node");
                       args := [JStr "server.js"] |} |}
  /\ (forall e,
        program Script.collaborators
          (Script.platform_parsing Script.later_server_bare) 5
          Script.session_with_quit
        <> LoadFailed e)
  /\ ~ unfit_for_startup (Script.platform_parsing Script.later_server_bare).
Proof.
  split.
  { exists (JObj [("files", JObj [("command", JStr "node");
                                  ("args", JArr [JStr "server.js"])]);
                  ("search", JObj [("cwd", JStr "/tmp")])]),
      "search", (JObj [("cwd", JStr "/tmp")]).
    split; [reflexivity |]. split; [right; left; reflexivity |].
    left. discriminate. }
  split.
  { split; [reflexivity |]. split; [discriminate |].
    exists "". split; reflexivity. }
  split; [reflexivity |]. split.
  { intros e H. vm_compute in H. discriminate H. }
  intros [H | [[e H] | [(raw & _ & H) | (raw & config & _ & Hp & Hbad)]]];
    try discriminate H.
  cbn in Hp. inversion Hp; subst config. clear Hp.
  destruct Hbad as [Hnone | (servers & name & server & rest & Hg & He & Hlack)].
  - cbn in Hnone. discriminate Hnone.
  - cbn in Hg. inversion Hg; subst servers. clear Hg.
    cbn in He. inversion He; subst name server rest. clear He.
    destruct Hlack as [H | H]; apply H; reflexivity.
Qed.

(** Two calls, the second of which the provider rejects. *)
Lemma failed_tool_call_propagates_witness :
  exists st',
    processQuery Script.collaborators Script.platform Script.settings
      "Read the first file" (Script.connected Script.second_call_fails)
    = (Throw (Rejected "McpError" "read_file failed"), st')
    /\ trace st'
       = trace (Script.first_call_returned Script.second_call_fails)
         ++ [ECallTool (function_name (Script.call "c2" "read_file")) (JObj [])]
    /\ messages st'
       = messages (Script.connected Script.second_call_fails)
         ++ [user_message "Read the first file"]
    /\ List.length (messages st')
       = List.length (messages (Script.connected Script.second_call_fails)) + 1.
Proof.
  apply (@failed_tool_call_propagates _ _ Script.collaborators Script.platform
           Script.settings (Script.connected Script.second_call_fails)
           "Read the first file" tt [Script.list_dir]
           (tl Script.second_call_fails)
           (Script.asks [Script.call "c1" "list_dir"; Script.call "c2" "read_file"])
           (tl (tl Script.second_call_fails))
           {| finish_reason := "tool_calls";
              message := {| cm_content := None;
                            cm_tool_calls :=
                              Some [Script.call "c1" "list_dir";
                                    Script.call "c2" "read_file"] |} |}
           []
           [Script.call "c1" "list_dir"] (Script.call "c2" "read_file") []
           [tool_message (Some "a.txt") "c1"]
           (Script.first_call_returned Script.second_call_fails)
           (JObj []) (Rejected "McpError" "read_file failed") []);
    reflexivity.
Defined.

(** Two calls that both return. *)
Lemma tool_calls_sequential_then_appended_witness :
  let st := Script.connected Script.two_calls in
  let st' := snd (Script.processQuery "Read the first file" st) in
  let calls := [Script.call "c1" "list_dir"; Script.call "c2" "read_file"] in
  let asking := {| cm_content := None; cm_tool_calls := Some calls |} in
  exists tool_messages,
    trace st'
    = trace st
      ++ [EPush (user_message "Read the first file"); EListTools;
          ECreate (first_request Script.settings
                     (messages st ++ [user_message "Read the first file"])
                     [Script.list_dir])]
      ++ call_events Script.platform calls
      ++ EPush (assistant_message asking) :: map EPush tool_messages
      ++ [ECreate (second_request Script.settings (messages st'))]
    /\ map fst (invocations (call_events Script.platform calls))
       = map function_name calls
    /\ messages st'
       = messages st
         ++ user_message "Read the first file" :: assistant_message asking
         :: tool_messages
    /\ map tool_call_id tool_messages = map (fun call => Some (id call)) calls
    /\ Forall (fun m => role m = tool) tool_messages.
Proof.
  apply (@tool_calls_sequential_then_appended _ _ Script.collaborators Script.platform
           Script.settings (Script.connected Script.two_calls)
           "Read the first file" tt [Script.list_dir]
           (tl Script.two_calls)
           (Script.asks [Script.call "c1" "list_dir"; Script.call "c2" "read_file"])
           (tl (tl Script.two_calls))
           {| finish_reason := "tool_calls";
              message := {| cm_content := None;
                            cm_tool_calls :=
                              Some [Script.call "c1" "list_dir";
                                    Script.call "c2" "read_file"] |} |}
           []
           [Script.call "c1" "list_dir"; Script.call "c2" "read_file"]
           (Some "a.txt says hello.")
           (snd (Script.processQuery "Read the first file"
                   (Script.connected Script.two_calls))));
    reflexivity.
Defined.

(** A session of one turn that ends with [quit]. *)
Lemma cleanup_on_normal_quit_witness :
  exists s st_end evs,
    session Script.after_loop = Some s
    /\ main Script.collaborators Script.platform Script.settings 5 Script.started
       = (Ok (Some tt), st_end)
    /\ trace st_end
       = trace Script.after_loop
         ++ EExistsSync (historyDir Script.platform Script.settings) :: evs
    /\ cleanups evs = 0
    /\ cleanups (trace st_end) = cleanups (trace Script.started) + 1
    /\ (forall st3,
          cleanup Script.collaborators Script.platform Script.settings
            Script.after_loop = (Ok tt, st3) ->
          st_end = st3
          /\ exists mk iso,
              evs = mk ++ [ENewDate;
                           EWriteFileSync
                             (historyFile Script.platform Script.settings iso)
                             (messages Script.after_loop);
                           EClose]
              /\ (mk = [] \/ mk = [EMkdirSync (historyDir Script.platform
                                                             Script.settings)])).
Proof.
  apply (@cleanup_on_normal_quit _ _ Script.collaborators Script.platform
           Script.settings Script.started Script.after_connect Script.after_loop 5);
    reflexivity.
Defined.

(** The same session: [quit], in mixed case and with blanks around it,
    is the second line. *)
Lemma quit_leaves_loop_and_cleans_up_once_witness :
  let st := Script.after_first_turn in
  let w' := tl (world st) in
  chatLoop_body Script.collaborators Script.platform Script.settings st
  = (Ok Break, with_event EQuestion w' st)
  /\ chatLoop Script.collaborators Script.platform Script.settings (1 + 4)
       Script.after_connect
     = (Ok true, with_event EQuestion w' st)
  /\ main Script.collaborators Script.platform Script.settings (1 + 4) Script.started
     = try_catch (cleanup Script.collaborators Script.platform Script.settings ;;
                  ret (Some tt))
                 (fun error => logger_error (message_of error) ;; ret (Some tt))
                 (with_event EQuestion w' st)
  /\ exists st_end evs,
      main Script.collaborators Script.platform Script.settings (1 + 4) Script.started
      = (Ok (Some tt), st_end)
      /\ trace st_end
         = trace st
           ++ EQuestion
           :: EExistsSync (historyDir Script.platform Script.settings) :: evs
      /\ forallb not_turn_event evs = true
      /\ cleanups evs = 0
      /\ cleanups (trace st_end) = cleanups (trace Script.started) + 1
      /\ messages st_end = messages st.
Proof.
  apply (@quit_leaves_loop_and_cleans_up_once _ _ Script.collaborators Script.platform
           Script.settings Script.started Script.after_connect
           Script.after_first_turn 1 "  QuIt "
           (tl (world Script.after_first_turn)) 3).
  - reflexivity.
  - eapply reaches_pass; [reflexivity | apply reaches_here].
  - reflexivity.
  - reflexivity.
Defined.

(** A result without content: the turn fails on reading the first item,
    and the transcript holds the user message only. *)
Example empty_result_fails :
  fst (Script.processQuery "List files in /tmp" (Script.connected Script.empty_result))
  = Throw (TypeError "Cannot read properties of undefined (reading 'text')")
  /\ messages (snd (Script.processQuery "List files in /tmp"
                      (Script.connected Script.empty_result)))
     = [user_message "List files in /tmp"].
Proof. split; reflexivity. Qed.

(** Only the first of the two content items of [list_dir]'s result is
    kept. *)
Example second_content_item_dropped :
  map content
    (messages (snd (Script.processQuery "Read the first file"
                      (Script.connected Script.two_calls))))
  = [Some "Read the first file"; None; Some "a.txt"; Some "hello"].
Proof. reflexivity. Qed.

(** * Further properties of the code *)

(** ** [getSettings] *)

Section Settings.

Variable P : Platform.

(** The [catch] block, branch by branch. *)
Lemma getSettings_catch key e :
  env_DEEPSEEK_API_KEY P = Some key ->
  key <> "" ->
  readServerConfig P (config_file P) = Throw e ->
  getSettings P = Throw (reported P e).
Proof.
  intros Hk Hne H. unfold getSettings. fold (config_file P).
  rewrite Hk. apply String.eqb_neq in Hne. rewrite Hne, H.
  unfold reported.
  destruct (code_of e) as [code |]; [| destruct (instanceof_SyntaxError e); reflexivity].
  destruct (String.eqb code "ENOENT") eqn:E.
  - apply String.eqb_eq in E. subst code. reflexivity.
  - assert (Hc : code <> "ENOENT") by (apply String.eqb_neq; exact E).
    clear E.
    repeat match goal with
           | |- context [match ?x with _ => _ end] =>
               match type of x with
               | string => destruct x
               | ascii => destruct x
               | bool => destruct x
               end
           end;
      first [ reflexivity
            | destruct (instanceof_SyntaxError e); reflexivity
            | contradiction Hc; reflexivity ].
Qed.

Lemma getSettings_return key sc :
  env_DEEPSEEK_API_KEY P = Some key ->
  key <> "" ->
  readServerConfig P (config_file P) = Ok sc ->
  getSettings P
  = Ok {| model := "deepseek-chat";
          apiKey := key;
          baseUrl := "https://api.deepseek.com";
          projectDir := platform_projectDir P;
          serverConfigPath := config_file P;
          serverConfig := Some sc |}.
Proof.
  intros Hk Hne H. unfold getSettings. fold (config_file P).
  rewrite Hk. apply String.eqb_neq in Hne. rewrite Hne, H. reflexivity.
Qed.

(** The [try] block once the first entry of [mcpServers] is selected. *)
Lemma readServerConfig_selected key config name server :
  loads_config P key config ->
  selects config name server ->
  readServerConfig P (config_file P)
  = (let? missing := missingFields requiredFields server in
     if Nat.ltb 0 (List.length missing)
     then Throw (Error ("Server '" +++ name +++ "' missing required fields: "
                        +++ Js.join ", " missing))
     else
       let? server_command := Js.get server "command" in
       let? server_args := Js.get server "args" in
       match nonempty_array server_args with
       | Some a => Ok {| name := name; command := server_command; args := a |}
       | None =>
           Throw (Error ("Server '" +++ name +++ "' must have a non-empty 'args' list"))
       end).
Proof.
  intros (_ & _ & raw & Hr & Hp) (servers & rest & Hg & Ht & He).
  unfold readServerConfig. rewrite Hr. cbn [bindO].
  unfold parse. rewrite Hp. cbn [bindO]. rewrite Hg. cbn [bindO].
  rewrite Ht. unfold Js.keys. rewrite He. reflexivity.
Qed.

Lemma missingFields_object fields :
  missingFields requiredFields (JObj fields) = Ok (filter (lacks fields) requiredFields).
Proof.
  unfold requiredFields, lacks. simpl.
  destruct (Js.assoc "command" fields); destruct (Js.assoc "args" fields); reflexivity.
Qed.

Lemma readServerConfig_return sc :
  readServerConfig P (config_file P) = Ok sc ->
  exists raw config servers server rest,
    readFileSync P (config_file P) = Ok raw
    /\ JSON_parse P raw = Some config
    /\ Js.get config "mcpServers" = Ok (Some servers)
    /\ Js.truthy servers = true
    /\ Js.entries servers = (name sc, server) :: rest
    /\ Js.has "command" server = Ok true
    /\ Js.has "args" server = Ok true
    /\ Js.get server "command" = Ok (command sc)
    /\ Js.get server "args" = Ok (Some (JArr (args sc)))
    /\ args sc <> [].
Proof.
  unfold readServerConfig.
  destruct (readFileSync P (config_file P)) as [raw | e] eqn:E1; [| discriminate].
  cbn [bindO]. unfold parse.
  destruct (JSON_parse P raw) as [config |] eqn:E2; [| discriminate].
  cbn [bindO].
  destruct (Js.get config "mcpServers") as [[servers |] | e] eqn:E3;
    try discriminate.
  cbn [bindO].
  destruct (Js.truthy servers) eqn:Ht; [| discriminate].
  cbn [negb orb].
  destruct (Nat.eqb (List.length (Js.keys servers)) 0); [discriminate |].
  destruct (Js.entries servers) as [| [name0 server] rest] eqn:He; [discriminate |].
  unfold requiredFields. cbn [missingFields].
  destruct (Js.has "command" server) as [[|] | e1] eqn:H1; try discriminate;
    destruct (Js.has "args" server) as [[|] | e2] eqn:H2; try discriminate.
  cbn [bindO List.length Nat.ltb Nat.leb].
  destruct (Js.get server "command") as [server_command | e] eqn:G1;
    [| discriminate].
  cbn [bindO].
  destruct (Js.get server "args") as [server_args | e] eqn:G2; [| discriminate].
  cbn [bindO].
  destruct server_args as [[| | | | [| a more] |] |];
    cbn [nonempty_array]; try discriminate.
  intros H. inversion H; subst sc. cbn [name command args].
  exists raw, config, servers, server, rest.
  repeat (split; [solve [auto] |]). discriminate.
Qed.

(** X1 -- What [getSettings] returns.  Settings that are returned carry
    the fixed model and base URL, the API key of the environment, which
    is not empty, the project directory and the path of the configuration
    file; their server is never [null]: it is the first entry of
    [mcpServers] in the parsed file, with that entry's name, its
    [command] as it is, and its [args], a non-empty array. *)
Theorem settings_returned_are_complete settings :
  getSettings P = Ok settings ->
  model settings = "deepseek-chat"
  /\ baseUrl settings = "https://api.deepseek.com"
  /\ env_DEEPSEEK_API_KEY P = Some (apiKey settings)
  /\ apiKey settings <> ""
  /\ projectDir settings = platform_projectDir P
  /\ serverConfigPath settings = config_file P
  /\ exists sc config server,
      serverConfig settings = Some sc
      /\ args sc <> []
      /\ loads_config P (apiKey settings) config
      /\ selects config (name sc) server
      /\ Js.has "command" server = Ok true
      /\ Js.get server "command" = Ok (command sc)
      /\ Js.get server "args" = Ok (Some (JArr (args sc))).
Proof.
  intros H.
  destruct (env_DEEPSEEK_API_KEY P) as [key |] eqn:Hk.
  2:{ unfold getSettings in H. rewrite Hk in H. discriminate. }
  destruct (String.eqb key "") eqn:Hne.
  { unfold getSettings in H. rewrite Hk, Hne in H. discriminate. }
  apply String.eqb_neq in Hne.
  destruct (readServerConfig P (config_file P)) as [sc | e] eqn:Hr.
  2:{ rewrite (getSettings_catch Hk Hne Hr) in H. discriminate. }
  rewrite (getSettings_return Hk Hne Hr) in H. inversion H; subst settings.
  cbn [model baseUrl apiKey projectDir serverConfigPath serverConfig].
  destruct (readServerConfig_return Hr)
    as (raw & config & servers & server & rest
        & R1 & R2 & R3 & R4 & R5 & R6 & _ & R8 & R9 & R10).
  repeat split; auto.
  exists sc, config, server. repeat split; auto.
  - exists raw. auto.
  - exists servers, rest. auto.
Qed.

(** X2 -- A well-formed first entry is enough.  With an API key and a
    configuration file whose [mcpServers] starts with an object that has
    a [command] and a non-empty array [args], [getSettings] returns the
    settings of that server: the entries after the first are not
    inspected, and neither is the type of [command] nor of the elements
    of [args]. *)
Theorem first_server_entry_is_used key config name fields c a more :
  loads_config P key config ->
  selects config name (JObj fields) ->
  Js.assoc "command" fields = Some c ->
  Js.assoc "args" fields = Some (JArr (a :: more)) ->
  getSettings P
  = Ok {| model := "deepseek-chat";
          apiKey := key;
          baseUrl := "https://api.deepseek.com";
          projectDir := platform_projectDir P;
          serverConfigPath := config_file P;
          serverConfig :=
            Some {| name := name; command := Some c; args := a :: more |} |}.
Proof.
  intros Hl Hs Hc Ha.
  destruct Hl as (Hk & Hne & Hraw).
  apply (getSettings_return Hk Hne).
  rewrite (readServerConfig_selected (conj Hk (conj Hne Hraw)) Hs).
  rewrite missingFields_object. unfold requiredFields, lacks. cbn [filter].
  rewrite Hc, Ha. cbn. rewrite Hc, Ha. reflexivity.
Qed.

(** X3 -- How a configuration file that cannot be read or parsed is
    reported, once the API key is there.  A missing file ([ENOENT]) is
    reported as "MCP Config file not found" with the path, a file that
    does not parse as "Invalid MCP Config file" with the path, and any
    other error of the file system is thrown on as it is. *)
Theorem config_file_errors_are_reported key :
  env_DEEPSEEK_API_KEY P = Some key ->
  key <> "" ->
  (forall msg,
      readFileSync P (config_file P) = Throw (SystemError "ENOENT" msg) ->
      getSettings P = Throw (Error ("MCP Config file not found: " +++ config_file P)))
  /\ (forall raw,
        readFileSync P (config_file P) = Ok raw ->
        JSON_parse P raw = None ->
        getSettings P = Throw (Error ("Invalid MCP Config file: " +++ config_file P)))
  /\ (forall code msg,
        code <> "ENOENT" ->
        readFileSync P (config_file P) = Throw (SystemError code msg) ->
        getSettings P = Throw (SystemError code msg)).
Proof.
  intros Hk Hne. split; [| split].
  - intros msg Hr.
    rewrite (@getSettings_catch key (SystemError "ENOENT" msg) Hk Hne); [reflexivity |].
    unfold readServerConfig. rewrite Hr. reflexivity.
  - intros raw Hr Hp.
    rewrite (@getSettings_catch key (SyntaxError "Unexpected token in JSON") Hk Hne);
      [reflexivity |].
    unfold readServerConfig. rewrite Hr. cbn [bindO]. unfold parse. rewrite Hp.
    reflexivity.
  - intros code msg Hc Hr.
    rewrite (@getSettings_catch key (SystemError code msg) Hk Hne).
    + unfold reported. cbn [code_of instanceof_SyntaxError].
      apply String.eqb_neq in Hc. rewrite Hc. reflexivity.
    + unfold readServerConfig. rewrite Hr. reflexivity.
Qed.

(** X4 -- Missing fields are named.  When the selected server is an
    object without [command] or without [args], [getSettings] throws an
    error that names the server and lists the missing fields in the
    order [command], [args], separated by a comma and a blank. *)
Theorem missing_fields_are_named key config name fields :
  loads_config P key config ->
  selects config name (JObj fields) ->
  filter (lacks fields) requiredFields <> [] ->
  getSettings P
  = Throw (Error ("Server '" +++ name +++ "' missing required fields: "
                  +++ Js.join ", " (filter (lacks fields) requiredFields))).
Proof.
  intros Hl Hs Hm.
  pose proof Hl as (Hk & Hne & _).
  rewrite (@getSettings_catch key
             (Error ("Server '" +++ name +++ "' missing required fields: "
                     +++ Js.join ", " (filter (lacks fields) requiredFields))) Hk Hne);
    [reflexivity |].
  rewrite (readServerConfig_selected Hl Hs), missingFields_object. cbn [bindO].
  destruct (filter (lacks fields) requiredFields) as [| f fs];
    [contradiction Hm; reflexivity | reflexivity].
Qed.

(** X5 -- [args] must be a non-empty array.  When the selected server
    is an object with both fields but its [args] is an empty array or not
    an array at all, [getSettings] throws an error that names the server
    and asks for a non-empty [args] list. *)
Theorem args_must_be_a_nonempty_array key config name fields c v :
  loads_config P key config ->
  selects config name (JObj fields) ->
  Js.assoc "command" fields = Some c ->
  Js.assoc "args" fields = Some v ->
  nonempty_array (Some v) = None ->
  getSettings P
  = Throw (Error ("Server '" +++ name +++ "' must have a non-empty 'args' list")).
Proof.
  intros Hl Hs Hc Ha Hv.
  pose proof Hl as (Hk & Hne & _).
  rewrite (@getSettings_catch key
             (Error ("Server '" +++ name +++ "' must have a non-empty 'args' list"))
             Hk Hne); [reflexivity |].
  rewrite (readServerConfig_selected Hl Hs), missingFields_object.
  unfold requiredFields, lacks. cbn [filter]. rewrite Hc, Ha. cbn.
  rewrite Hc, Ha, Hv. reflexivity.
Qed.

(** X6 -- No server.  When [mcpServers] is absent from the parsed file,
    or has no entry, [getSettings] throws the error that asks for at
    least one server. *)
Theorem config_without_server_is_reported key config :
  loads_config P key config ->
  (Js.get config "mcpServers" = Ok None
   \/ exists servers,
       Js.get config "mcpServers" = Ok (Some servers) /\ Js.entries servers = []) ->
  getSettings P
  = Throw (Error "Config must contain at least one server in 'mcpServers'").
Proof.
  intros (Hk & Hne & raw & Hr & Hp) Hnone.
  rewrite (@getSettings_catch key
             (Error "Config must contain at least one server in 'mcpServers'") Hk Hne);
    [reflexivity |].
  unfold readServerConfig. rewrite Hr. cbn [bindO].
  unfold parse. rewrite Hp. cbn [bindO].
  destruct Hnone as [Hg | (servers & Hg & He)]; rewrite Hg; cbn [bindO];
    [reflexivity |].
  unfold Js.keys. rewrite He. cbn [map List.length Nat.eqb].
  rewrite orb_true_r. reflexivity.
Qed.

End Settings.

(** ** [processQuery], path by path *)

Lemma invocations_app evs1 evs2 :
  invocations (evs1 ++ evs2) = invocations evs1 ++ invocations evs2.
Proof.
  induction evs1 as [| ev evs1 IH]; simpl; [reflexivity |].
  destruct ev; simpl; rewrite ?IH; reflexivity.
Qed.

Lemma invocations_pushes ms : invocations (map EPush ms) = [].
Proof. induction ms; simpl; auto. Qed.

Section Turns.

Context {W Session : Type}.
Variable C : Collaborators W Session.
Variable P : Platform.
Variable settings : Settings.

Let Client' := Client W Session.

(** The state in which the finalizing completion is requested. *)
Lemma processQuery_round_done
      (st : Client') query s tools w1 response w2 c cs calls tool_messages st3 :
  session st = Some s ->
  list_tools C s (world st) = (Ok tools, w1) ->
  create C (first_request settings (messages st ++ [user_message query]) tools) w1
    = (Ok response, w2) ->
  choices response = c :: cs ->
  finish_reason c = "tool_calls" ->
  cm_tool_calls (message c) = Some calls ->
  call_tools C P calls [] (awaiting_tools settings st query tools w1 w2)
    = (Ok tool_messages, st3) ->
  let st5 := with_pushes tool_messages
               (with_push (assistant_message (message c)) st3) in
  processQuery C P settings query st
  = (second_response <- perform (ECreate (second_request settings (messages st5)))
                                (create C (second_request settings (messages st5))) ;;
     second_content <- lift (first_choice second_response) ;;
     ret (cm_content (message second_content))) st5
  /\ messages st5
     = messages st
       ++ user_message query :: assistant_message (message c) :: tool_messages
  /\ world st5 = world st3
  /\ trace st3
     = trace (awaiting_tools settings st query tools w1 w2) ++ call_events P calls
  /\ Forall2 (records C P) calls tool_messages.
Proof.
  intros Hs Hl Hc Hch Hf Ht Hloop st5.
  rewrite (processQuery_tool_round C P settings st query Hs Hl Hc Hch Hf Ht).
  unfold bind at 1. rewrite Hloop.
  rewrite bind_push. unfold bind at 1. rewrite push_all_eq.
  rewrite bind_get_messages. fold st5.
  destruct (call_tools_shape C P calls [] (awaiting_tools settings st query tools w1 w2))
    as (r & evs & w3 & E & _ & Hok).
  rewrite Hloop in E. inversion E; subst r st3.
  destruct (Hok tool_messages eq_refl) as (Hev & new & Hnew & HF).
  simpl in Hnew. subst new evs.
  split; [reflexivity |]. split.
  - subst st5. unfold awaiting_tools.
    cbn [messages with_pushes with_push with_events with_event].
    rewrite <- !app_assoc. reflexivity.
  - split; [reflexivity |]. split; [reflexivity | exact HF].
Qed.

(** Every way a turn can end, read on the result and the transcript. *)
Lemma processQuery_paths (st : Client') query r st' :
  processQuery C P settings query st = (r, st') ->
  (exists e, r = Throw e /\ messages st' = messages st ++ [user_message query])
  \/ (exists m,
        r = Ok (cm_content m)
        /\ messages st'
           = messages st ++ [user_message query; assistant_message m])
  \/ (exists m calls tool_messages,
        cm_tool_calls m = Some calls
        /\ Forall2 (records C P) calls tool_messages
        /\ messages st'
           = messages st
             ++ user_message query :: assistant_message m :: tool_messages).
Proof.
  intros Hrun.
  destruct (session st) as [s |] eqn:Hs.
  2:{ unfold processQuery in Hrun.
      rewrite bind_push, bind_the_session_null in Hrun by exact Hs.
      inversion Hrun; subst. left. eexists. split; reflexivity. }
  destruct (list_tools C s (world st)) as [[tools | e] w1] eqn:Hl.
  2:{ unfold processQuery in Hrun.
      rewrite bind_push, (bind_the_session _ _ (s := s)) in Hrun by exact Hs.
      erewrite bind_perform_throw in Hrun by exact Hl.
      inversion Hrun; subst. left. eexists. split; reflexivity. }
  destruct (create C (first_request settings (messages st ++ [user_message query]) tools) w1)
    as [[response | e] w2] eqn:Hc.
  2:{ unfold processQuery in Hrun.
      rewrite bind_push, (bind_the_session _ _ (s := s)) in Hrun by exact Hs.
      erewrite bind_perform_ok in Hrun by exact Hl.
      rewrite bind_get_messages in Hrun. cbv zeta in Hrun.
      erewrite bind_perform_throw in Hrun by exact Hc.
      inversion Hrun; subst. left. eexists. split; reflexivity. }
  destruct (choices response) as [| c cs] eqn:Hch.
  { rewrite (processQuery_first_completion C P settings st query Hs Hl Hc) in Hrun.
    unfold first_choice in Hrun. rewrite Hch, bind_lift_throw in Hrun.
    inversion Hrun; subst. left. eexists. split; reflexivity. }
  destruct (String.eqb (finish_reason c) "tool_calls") eqn:Hf.
  2:{ rewrite (processQuery_first_completion C P settings st query Hs Hl Hc) in Hrun.
      unfold first_choice in Hrun. rewrite Hch, bind_lift_ok, Hf, bind_push in Hrun.
      inversion Hrun; subst. right. left. exists (message c).
      split; [reflexivity |].
      unfold awaiting_tools. cbn [messages with_push with_event].
      rewrite <- app_assoc. reflexivity. }
  apply String.eqb_eq in Hf.
  destruct (cm_tool_calls (message c)) as [calls |] eqn:Ht.
  2:{ rewrite (processQuery_first_completion C P settings st query Hs Hl Hc) in Hrun.
      unfold first_choice in Hrun.
      rewrite Hch, bind_lift_ok, Hf, String.eqb_refl, Ht in Hrun.
      unfold iterable in Hrun. rewrite bind_lift_throw in Hrun.
      inversion Hrun; subst. left. eexists. split; reflexivity. }
  destruct (call_tools C P calls [] (awaiting_tools settings st query tools w1 w2))
    as [[tms | e] st3] eqn:Hloop.
  2:{ destruct (processQuery_loop_throws C P settings st query Hs Hl Hc Hch Hf Ht Hloop) as [Hq Hm].
      rewrite Hq in Hrun. inversion Hrun; subst. left. eexists. split; [reflexivity | exact Hm]. }
  destruct (processQuery_round_done st query Hs Hl Hc Hch Hf Ht Hloop)
    as (Hq & Hm & _ & _ & HF).
  rewrite Hq in Hrun.
  assert (Hst : messages st'
                = messages (with_pushes tms
                              (with_push (assistant_message (message c)) st3))).
  { unfold bind at 1, perform in Hrun.
    match type of Hrun with
    | context [create C ?r2 ?w] => destruct (create C r2 w) as [[second | e] w4]
    end.
    - destruct (first_choice second) as [c2 | e];
        [ rewrite bind_lift_ok in Hrun | rewrite bind_lift_throw in Hrun ];
        inversion Hrun; subst; reflexivity.
    - inversion Hrun; subst. reflexivity. }
  right. right. exists (message c), calls, tms.
  split; [exact Ht |]. split; [exact HF |]. rewrite Hst. exact Hm.
Qed.

(** C10 -- What is recorded of a tool result.  The calls requested
    before this one have returned, and the provider returns [result] for
    this call.  If [result] has a content item, the loop goes on with the
    tool message of this call added to its local array: its content is
    the text of the first item, whatever items follow, and its
    [tool_call_id] the id of the call; when the turn returns an answer,
    this message is in the transcript, at the place of the call among
    the tool messages.  If [result] has no content item, reading the
    first one throws a [TypeError] right after the invocation: the turn
    fails and no tool message is appended, the transcript having gained
    the user message only. *)
Theorem first_content_item_only
        (st : Client') query s tools w1 response w2 c cs
        before call after earlier st3 tool_args result w4 :
  session st = Some s ->
  list_tools C s (world st) = (Ok tools, w1) ->
  create C (first_request settings (messages st ++ [user_message query]) tools) w1
    = (Ok response, w2) ->
  choices response = c :: cs ->
  finish_reason c = "tool_calls" ->
  cm_tool_calls (message c) = Some (before ++ call :: after) ->
  call_tools C P before [] (awaiting_tools settings st query tools w1 w2)
    = (Ok earlier, st3) ->
  parse P (function_arguments call) = Ok tool_args ->
  call_tool C s (function_name call) tool_args (world st3) = (Ok result, w4) ->
  let invoked := with_event (ECallTool (function_name call) tool_args) w4 st3 in
  let asked := {| role := user; content := Some query;
                  tool_calls := None; tool_call_id := None |} in
  let requesting := {| role := assistant; content := cm_content (message c);
                       tool_calls := Some (before ++ call :: after);
                       tool_call_id := None |} in
  match result_content result with
  | item :: _ =>
      let recorded := {| role := tool; content := text item;
                         tool_calls := None; tool_call_id := Some (id call) |} in
      call_tools C P (before ++ call :: after) []
        (awaiting_tools settings st query tools w1 w2)
      = call_tools C P after (earlier ++ [recorded]) invoked
      /\ forall answer st',
          processQuery C P settings query st = (Ok answer, st') ->
          exists later evs,
            messages st'
            = messages st ++ asked :: requesting :: earlier ++ recorded :: later
            /\ List.length earlier = List.length before
            /\ List.length later = List.length after
            /\ trace st' = trace invoked ++ evs
  | [] =>
      processQuery C P settings query st
      = (Throw (TypeError "Cannot read properties of undefined (reading 'text')"),
         invoked)
      /\ messages invoked = messages st ++ [asked]
      /\ trace invoked = trace st3 ++ [ECallTool (function_name call) tool_args]
  end.
Proof.
  intros Hs Hl Hc Hch Hf Ht Hbefore Hp Hcall invoked asked requesting.
  destruct (@call_tools_after _ _ C P _ before (call :: after) _ _ Hbefore)
    as (Happ & Hs3 & Hm3).
  cbn [call_tools] in Happ.
  rewrite Hp, bind_lift_ok in Happ.
  rewrite (bind_the_session _ _ (s := s)) in Happ by (rewrite Hs3; exact Hs).
  erewrite bind_perform_ok in Happ by exact Hcall.
  fold invoked in Happ. unfold first_text in Happ.
  destruct (result_content result) as [| item others].
  - rewrite bind_lift_throw in Happ.
    destruct (processQuery_loop_throws C P settings st query Hs Hl Hc Hch Hf Ht Happ)
      as [Hq Hm].
    split; [exact Hq |]. split; [exact Hm | reflexivity].
  - rewrite bind_lift_ok in Happ. cbv zeta.
    split; [exact Happ |].
    intros answer st' Hrun.
    destruct (call_tools C P after
                (earlier ++ [tool_message (text item) (id call)]) invoked)
      as [[tms | e] st5] eqn:Hrest.
    2:{ destruct (processQuery_loop_throws C P settings st query
                    Hs Hl Hc Hch Hf Ht Happ) as [Hq _].
        rewrite Hq in Hrun. discriminate. }
    destruct (call_tools_shape C P after
                (earlier ++ [tool_message (text item) (id call)]) invoked)
      as (r & evs & w5 & E & _ & Hok).
    rewrite Hrest in E. inversion E; subst r st5.
    destruct (Hok tms eq_refl) as (_ & later & Hnew & HFl).
    destruct (call_tools_shape C P before []
                (awaiting_tools settings st query tools w1 w2))
      as (r0 & evs0 & w0 & E0 & _ & Hok0).
    rewrite Hbefore in E0. inversion E0; subst r0.
    destruct (Hok0 earlier eq_refl) as (_ & new0 & Hnew0 & HF0).
    simpl in Hnew0. subst new0.
    destruct (processQuery_round_done st query Hs Hl Hc Hch Hf Ht Happ)
      as (Hq & Hm & _ & _ & _).
    rewrite Hq in Hrun.
    assert (Hst : messages st'
                  = messages (with_pushes tms
                                (with_push (assistant_message (message c))
                                   (with_events evs w5 invoked)))
                  /\ exists more,
                      trace st' = trace (with_events evs w5 invoked) ++ more).
    { unfold bind at 1, perform in Hrun.
      match type of Hrun with
      | context [create C ?r2 ?w] => destruct (create C r2 w) as [[second | e] w6]
      end; [| discriminate].
      destruct (first_choice second) as [c2 | e];
        [ rewrite bind_lift_ok in Hrun | rewrite bind_lift_throw in Hrun; discriminate ].
      inversion Hrun; subst. split; [reflexivity |].
      cbn [trace with_event with_pushes with_push].
      rewrite <- !app_assoc. eexists. reflexivity. }
    destruct Hst as [Hst [more Htr]].
    exists later, (evs ++ more).
    split.
    + rewrite Hst, Hm, Hnew. unfold requesting, assistant_message. rewrite Ht.
      rewrite <- !app_assoc. reflexivity.
    + split; [symmetry; exact (Forall2_length HF0) |].
      split; [symmetry; exact (Forall2_length HFl) |].
      rewrite Htr. cbn [trace with_events]. rewrite <- app_assoc. reflexivity.
Qed.

Lemma well_linked_after_user ms : forall expected query rest,
  well_linked expected (ms ++ user_message query :: rest)
  = (well_linked expected ms && well_linked [] rest)%bool.
Proof.
  induction ms as [| m ms IH]; intros expected query rest; [reflexivity |].
  cbn [app well_linked].
  destruct (role m); [apply IH | apply IH |].
  destruct (tool_call_id m) as [call_id |]; [| reflexivity].
  rewrite IH, andb_assoc. reflexivity.
Qed.

Lemma well_linked_records expected calls tool_messages :
  (forall call, In call calls -> In (id call) expected) ->
  Forall2 (records C P) calls tool_messages ->
  well_linked expected tool_messages = true.
Proof.
  intros Hin HF. induction HF as [| call m calls tms Hr HF IH]; [reflexivity |].
  destruct Hr as (s & a & w & result & w' & item & others & _ & _ & _ & Hm).
  subst m. cbn [well_linked role tool_call_id tool_message].
  rewrite IH by (intros; apply Hin; right; assumption).
  rewrite andb_true_r. apply existsb_exists.
  exists (id call). split; [apply Hin; left; reflexivity | apply String.eqb_refl].
Qed.

(** A turn keeps a well-linked transcript well linked. *)
Lemma processQuery_well_linked (st : Client') query r st' :
  processQuery C P settings query st = (r, st') ->
  well_linked [] (messages st) = true ->
  well_linked [] (messages st') = true.
Proof.
  intros Hrun Hwl.
  destruct (processQuery_paths st query Hrun)
    as [(e & _ & Hm) | [(m & _ & Hm) | (m & calls & tms & Ht & HF & Hm)]];
    rewrite Hm, well_linked_after_user, Hwl; [reflexivity | reflexivity |].
  cbn [andb well_linked role assistant_message].
  apply well_linked_records with (calls := calls); [| exact HF].
  intros call Hin. unfold requested_ids. cbn [tool_calls assistant_message].
  rewrite Ht. apply in_map. exact Hin.
Qed.

(** X7 -- What a turn adds to the transcript.  However a turn ends, it
    has added the user message and then one of three things: nothing,
    and then it has thrown; the assistant message whose content it
    returns; or an assistant message that requests calls, followed by
    one tool message per requested call, in the order of the calls. *)
Theorem turn_gain_shapes (st : Client') query :
  let r := fst (processQuery C P settings query st) in
  let st' := snd (processQuery C P settings query st) in
  (exists e, r = Throw e /\ messages st' = messages st ++ [user_message query])
  \/ (exists m,
        r = Ok (cm_content m)
        /\ messages st'
           = messages st ++ [user_message query; assistant_message m])
  \/ (exists m calls tool_messages,
        cm_tool_calls m = Some calls
        /\ Forall2 (records C P) calls tool_messages
        /\ messages st'
           = messages st
             ++ user_message query :: assistant_message m :: tool_messages).
Proof.
  cbv zeta.
  destruct (processQuery C P settings query st) as [r st'] eqn:Hrun.
  exact (processQuery_paths st query Hrun).
Qed.

(** X8 -- Tool messages stay linked to their requests.  If in the
    transcript every tool message carries the id of a call requested by
    the assistant message before it, the same holds after a turn and
    after any number of passes of the loop, however they end. *)
Theorem tool_messages_stay_linked (st : Client') :
  well_linked [] (messages st) = true ->
  (forall query,
      well_linked [] (messages (snd (processQuery C P settings query st))) = true)
  /\ (forall fuel,
        well_linked [] (messages (snd (chatLoop C P settings fuel st))) = true).
Proof.
  set (R := fun a b : Client' =>
              well_linked [] (messages a) = true -> well_linked [] (messages b) = true).
  assert (R_refl : forall a, R a a) by (intros a H; exact H).
  assert (R_trans : forall a b c, R a b -> R b c -> R a c)
    by (intros a b c H1 H2 H; apply H2, H1, H).
  assert (Hturn : forall query, keeps R (processQuery C P settings query)).
  { intros query a r b Hrun. exact (processQuery_well_linked a query Hrun). }
  assert (Hsame : forall A (m : M (W := W) (Session := Session) A),
             (forall a r b, m a = (r, b) -> messages b = messages a) -> keeps R m).
  { intros A m Hm a r b Hrun H. rewrite (Hm a r b Hrun). exact H. }
  assert (Hbody : keeps R (chatLoop_body C P settings)).
  { unfold chatLoop_body.
    apply keeps_try_catch; [exact R_trans | | intros e].
    - apply keeps_bind; [exact R_trans | | intros line].
      + apply Hsame. intros a r b Hrun. unfold perform in Hrun.
        destruct (question C (world a)). inversion Hrun; subst. reflexivity.
      + cbv zeta. destruct (is_quit (Js.trim line)).
        * apply keeps_ret; exact R_refl.
        * apply keeps_bind; [exact R_trans | apply Hturn | intros _].
          apply keeps_ret; exact R_refl.
    - apply keeps_bind; [exact R_trans | | intros _].
      + apply Hsame. intros a r b Hrun. inversion Hrun; subst. reflexivity.
      + apply keeps_ret; exact R_refl. }
  assert (Hloop : forall fuel, keeps R (chatLoop C P settings fuel)).
  { induction fuel as [| fuel IH]; cbn [chatLoop].
    - apply keeps_ret; exact R_refl.
    - apply keeps_bind; [exact R_trans | exact Hbody | intros [|]].
      + exact IH.
      + apply keeps_ret; exact R_refl. }
  intros Hwl. split.
  - intros query.
    destruct (processQuery C P settings query st) as [r st'] eqn:Hrun.
    exact (Hturn query st r st' Hrun Hwl).
  - intros fuel.
    destruct (chatLoop C P settings fuel st) as [r st'] eqn:Hrun.
    exact (Hloop fuel st r st' Hrun Hwl).
Qed.

(** X9 -- A turn without a session.  When the client holds no session,
    [processQuery] first pushes the user message and then fails on the
    session with a [TypeError]: no collaborator has been called, and the
    user message stays in the transcript. *)
Theorem turn_without_session (st : Client') query :
  session st = None ->
  processQuery C P settings query st
  = (Throw (TypeError "Cannot read properties of null (reading 'list_tools')"),
     with_push (user_message query) st)
  /\ messages (with_push (user_message query) st)
     = messages st ++ [user_message query]
  /\ trace (with_push (user_message query) st)
     = trace st ++ [EPush (user_message query)].
Proof.
  intros Hs. unfold processQuery.
  rewrite bind_push, bind_the_session_null by exact Hs.
  repeat split.
Qed.

(** X10 -- A turn that fails before the model has answered.  When the
    listing of the tools fails, the first completion fails, or the
    completion comes without any choice, [processQuery] throws (the
    collaborator's error as it is, a [TypeError] for the missing choice)
    and the transcript has gained the user message, which stays. *)
Theorem failure_before_answer_keeps_user_message (st : Client') query s :
  session st = Some s ->
  (forall e w1,
      list_tools C s (world st) = (Throw e, w1) ->
      exists st',
        processQuery C P settings query st = (Throw e, st')
        /\ messages st' = messages st ++ [user_message query]
        /\ requests (skipn (List.length (trace st)) (trace st')) = [])
  /\ (forall tools w1 e w2,
        list_tools C s (world st) = (Ok tools, w1) ->
        create C (first_request settings (messages st ++ [user_message query]) tools) w1
          = (Throw e, w2) ->
        exists st',
          processQuery C P settings query st = (Throw e, st')
          /\ messages st' = messages st ++ [user_message query])
  /\ (forall tools w1 response w2,
        list_tools C s (world st) = (Ok tools, w1) ->
        create C (first_request settings (messages st ++ [user_message query]) tools) w1
          = (Ok response, w2) ->
        choices response = [] ->
        exists st',
          processQuery C P settings query st
          = (Throw (TypeError "Cannot read properties of undefined"), st')
          /\ messages st' = messages st ++ [user_message query]).
Proof.
  intros Hs. split; [| split].
  - intros e w1 Hl. unfold processQuery.
    rewrite bind_push, (bind_the_session _ _ (s := s)) by exact Hs.
    erewrite bind_perform_throw by exact Hl.
    eexists. split; [reflexivity |]. split; [reflexivity |].
    cbn [trace with_event with_push]. rewrite <- app_assoc.
    rewrite skipn_app, skipn_all, Nat.sub_diag. reflexivity.
  - intros tools w1 e w2 Hl Hc. unfold processQuery.
    rewrite bind_push, (bind_the_session _ _ (s := s)) by exact Hs.
    erewrite bind_perform_ok by exact Hl.
    rewrite bind_get_messages. cbv zeta.
    erewrite bind_perform_throw by exact Hc.
    eexists. split; reflexivity.
  - intros tools w1 response w2 Hl Hc Hch.
    rewrite (processQuery_first_completion C P settings st query Hs Hl Hc).
    unfold first_choice. rewrite Hch, bind_lift_throw.
    eexists. split; reflexivity.
Qed.

(** X11 -- A finalizing completion that fails.  When every requested
    call has returned and the completion that follows fails,
    [processQuery] throws that error, and the tool round stays in the
    transcript: the user message, the assistant message with the
    requests and one tool message per call. *)
Theorem finalizing_failure_keeps_tool_round
        (st : Client') query s tools w1 response w2 c cs calls tool_messages st3 e w4 :
  session st = Some s ->
  list_tools C s (world st) = (Ok tools, w1) ->
  create C (first_request settings (messages st ++ [user_message query]) tools) w1
    = (Ok response, w2) ->
  choices response = c :: cs ->
  finish_reason c = "tool_calls" ->
  cm_tool_calls (message c) = Some calls ->
  call_tools C P calls [] (awaiting_tools settings st query tools w1 w2)
    = (Ok tool_messages, st3) ->
  create C (second_request settings
              (messages st ++ user_message query
                 :: assistant_message (message c) :: tool_messages))
         (world st3)
    = (Throw e, w4) ->
  exists st',
    processQuery C P settings query st = (Throw e, st')
    /\ messages st'
       = messages st
         ++ user_message query :: assistant_message (message c) :: tool_messages
    /\ List.length (messages st')
       = List.length (messages st) + 2 + List.length calls.
Proof.
  intros Hs Hl Hc Hch Hf Ht Hloop H2.
  destruct (processQuery_round_done st query Hs Hl Hc Hch Hf Ht Hloop)
    as (Hq & Hm & Hw & _ & HF).
  rewrite Hq. rewrite Hm.
  erewrite bind_perform_throw by (rewrite Hw; exact H2).
  eexists. split; [reflexivity |]. split; [exact Hm |].
  cbn [messages with_event]. rewrite Hm, length_app. cbn [List.length].
  rewrite <- (Forall2_length HF). lia.
Qed.

(** X12 -- One round of tools only.  When every requested call has
    returned and the completion that follows comes with a choice,
    [processQuery] returns the content of that choice whatever its
    finish reason is and whether or not it requests calls again: no tool
    is invoked for it, and nothing more is pushed. *)
Theorem second_completion_ends_the_turn
        (st : Client') query s tools w1 response w2 c cs calls tool_messages st3
        second w4 c2 cs2 :
  session st = Some s ->
  list_tools C s (world st) = (Ok tools, w1) ->
  create C (first_request settings (messages st ++ [user_message query]) tools) w1
    = (Ok response, w2) ->
  choices response = c :: cs ->
  finish_reason c = "tool_calls" ->
  cm_tool_calls (message c) = Some calls ->
  call_tools C P calls [] (awaiting_tools settings st query tools w1 w2)
    = (Ok tool_messages, st3) ->
  create C (second_request settings
              (messages st ++ user_message query
                 :: assistant_message (message c) :: tool_messages))
         (world st3)
    = (Ok second, w4) ->
  choices second = c2 :: cs2 ->
  exists st',
    processQuery C P settings query st = (Ok (cm_content (message c2)), st')
    /\ world st' = w4
    /\ trace st'
       = trace st3
         ++ EPush (assistant_message (message c)) :: map EPush tool_messages
         ++ [ECreate (second_request settings (messages st'))]
    /\ List.length (invocations (skipn (List.length (trace st)) (trace st')))
       = List.length calls.
Proof.
  intros Hs Hl Hc Hch Hf Ht Hloop H2 Hch2.
  destruct (processQuery_round_done st query Hs Hl Hc Hch Hf Ht Hloop)
    as (Hq & Hm & Hw & Htr & HF).
  rewrite Hq. rewrite <- Hm in H2.
  erewrite bind_perform_ok by (rewrite Hw; exact H2).
  unfold first_choice. rewrite Hch2, bind_lift_ok.
  eexists. split; [reflexivity |]. split; [reflexivity |].
  cbn [messages trace with_event with_pushes with_push].
  split; [rewrite <- !app_assoc; reflexivity |].
  rewrite Htr. unfold awaiting_tools. cbn [trace with_event with_push].
  rewrite <- !app_assoc. rewrite skipn_app, skipn_all, Nat.sub_diag.
  cbn [skipn app]. cbn [invocations].
  rewrite invocations_app. cbn [invocations].
  rewrite invocations_app, invocations_pushes. cbn [invocations app].
  rewrite app_nil_r.
  destruct (records_order HF) as (Hn & _ & _ & Hlen).
  rewrite <- (length_map fst), Hn, length_map. reflexivity.
Qed.

(** X13 -- Arguments that do not parse.  When the calls requested
    before it have returned and the arguments of the next call are not
    valid JSON, [processQuery] throws the [SyntaxError] of [JSON.parse]:
    the tools of the earlier calls have been invoked, the tool of this
    call and of the later ones has not, and the transcript has gained the
    user message only. *)
Theorem unparsable_arguments_stop_the_round
        (st : Client') query s tools w1 response w2 c cs
        before call after tool_messages st3 :
  session st = Some s ->
  list_tools C s (world st) = (Ok tools, w1) ->
  create C (first_request settings (messages st ++ [user_message query]) tools) w1
    = (Ok response, w2) ->
  choices response = c :: cs ->
  finish_reason c = "tool_calls" ->
  cm_tool_calls (message c) = Some (before ++ call :: after) ->
  call_tools C P before [] (awaiting_tools settings st query tools w1 w2)
    = (Ok tool_messages, st3) ->
  JSON_parse P (function_arguments call) = None ->
  exists msg,
    processQuery C P settings query st = (Throw (SyntaxError msg), st3)
    /\ messages st3 = messages st ++ [user_message query]
    /\ trace st3
       = trace (awaiting_tools settings st query tools w1 w2)
         ++ call_events P before
    /\ List.length (invocations (call_events P before)) = List.length before.
Proof.
  intros Hs Hl Hc Hch Hf Ht Hbefore Hp.
  destruct (@call_tools_after _ _ C P _ before (call :: after) _ _ Hbefore)
    as (Happ & _ & _).
  cbn [call_tools] in Happ. unfold parse in Happ at 1.
  rewrite Hp, bind_lift_throw in Happ.
  destruct (processQuery_loop_throws C P settings st query Hs Hl Hc Hch Hf Ht Happ)
    as [Hq Hm].
  eexists. split; [exact Hq |]. split; [exact Hm |].
  destruct (call_tools_shape C P before [] (awaiting_tools settings st query tools w1 w2))
    as (r & evs & w3 & E & _ & Hok).
  rewrite Hbefore in E. inversion E; subst r st3.
  destruct (Hok tool_messages eq_refl) as (Hev & new & Hnew & HF).
  subst evs. split; [reflexivity |].
  destruct (records_order HF) as (Hn & _ & _ & _).
  rewrite <- (length_map fst), Hn, length_map. reflexivity.
Qed.

End Turns.

(** ** The loop *)

Section Loop.

Context {W Session : Type}.
Variable C : Collaborators W Session.
Variable P : Platform.
Variable settings : Settings.

Let Client' := Client W Session.

(** X15 -- A failed turn.  When the line read is not [quit] and the
    turn throws, the pass logs "Error: " followed by the error's message
    and ends normally, and the loop goes on to its next pass from there:
    what the turn did before it failed stays done. *)
Theorem failed_turn_is_logged (st : Client') line w' e st2 fuel :
  question C (world st) = (Ok line, w') ->
  is_quit (Js.trim line) = false ->
  processQuery C P settings (Js.trim line) (with_event EQuestion w' st)
    = (Throw e, st2) ->
  let logged := with_event (ELoggerError ("Error: " +++ message_of e)) (world st2) st2 in
  chatLoop_body C P settings st = (Ok Continue, logged)
  /\ chatLoop C P settings (S fuel) st = chatLoop C P settings fuel logged
  /\ messages logged = messages st2.
Proof.
  intros Hq Hn Hturn logged.
  assert (Hbody : chatLoop_body C P settings st = (Ok Continue, logged)).
  { unfold chatLoop_body, try_catch.
    erewrite bind_perform_ok by exact Hq. cbv zeta.
    rewrite Hn. unfold bind at 1. rewrite Hturn. reflexivity. }
  split; [exact Hbody |]. split; [| reflexivity].
  cbn [chatLoop]. unfold bind at 1. rewrite Hbody. reflexivity.
Qed.

(** X16 -- A line that cannot be read.  When reading the line throws,
    the pass logs the error like a failed turn and ends normally; no turn
    is started, and the loop goes on to read again. *)
Theorem failed_read_is_logged (st : Client') e w' fuel :
  question C (world st) = (Throw e, w') ->
  let logged := with_event (ELoggerError ("Error: " +++ message_of e)) w'
                  (with_event EQuestion w' st) in
  chatLoop_body C P settings st = (Ok Continue, logged)
  /\ chatLoop C P settings (S fuel) st = chatLoop C P settings fuel logged
  /\ messages logged = messages st.
Proof.
  intros Hq logged.
  assert (Hbody : chatLoop_body C P settings st = (Ok Continue, logged)).
  { unfold chatLoop_body, try_catch.
    erewrite bind_perform_throw by exact Hq. reflexivity. }
  split; [exact Hbody |]. split; [| reflexivity].
  cbn [chatLoop]. unfold bind at 1. rewrite Hbody. reflexivity.
Qed.

(** X17 -- Every other line is a turn.  A line that is not [quit],
    an empty one included, starts a turn whose user message is the line
    trimmed of its white space: after the pass, the transcript is the
    earlier one, that user message, and what the turn added. *)
Theorem other_lines_start_a_turn (st : Client') line w' :
  question C (world st) = (Ok line, w') ->
  is_quit (Js.trim line) = false ->
  exists added,
    messages (snd (chatLoop_body C P settings st))
    = messages st
      ++ {| role := user; content := Some (Js.trim line);
            tool_calls := None; tool_call_id := None |}
      :: added.
Proof.
  intros Hq Hn.
  unfold chatLoop_body, try_catch.
  erewrite bind_perform_ok by exact Hq. cbv zeta. rewrite Hn.
  unfold bind at 1.
  destruct (processQuery C P settings (Js.trim line) (with_event EQuestion w' st))
    as [r st2] eqn:Hturn.
  assert (Hm : exists added,
             messages st2 = messages st ++ user_message (Js.trim line) :: added).
  { destruct (@processQuery_paths _ _ C P settings _ _ _ _ Hturn)
      as [(e & _ & Hm) | [(m & _ & Hm) | (m & calls & tms & _ & _ & Hm)]];
      rewrite Hm; eexists; reflexivity. }
  destruct r as [answer | e]; exact Hm.
Qed.

End Loop.

(** ** The line that quits *)

(** A byte that is neither white space nor the start of one. *)
Lemma plain_lower_char c :
  (negb (Js.is_space (Js.lower_char c)) && negb (Js.is_lead (Js.lower_char c)))%bool
  = true ->
  (negb (Js.is_space c) && negb (Js.is_lead c))%bool = true.
Proof.
  destruct c as [[] [] [] [] [] [] [] []]; vm_compute; intros H; exact H.
Qed.

Lemma trimStart_keeps a rest :
  (negb (Js.is_space a) && negb (Js.is_lead a))%bool = true ->
  Js.trimStart (String a rest) = String a rest.
Proof.
  intros H. apply andb_true_iff in H. destruct H as [Hs Hl].
  apply negb_true_iff in Hs. apply negb_true_iff in Hl.
  unfold Js.is_lead in Hl.
  repeat (apply orb_false_iff in Hl; destruct Hl as [Hl ?]).
  cbn [Js.trimStart]. rewrite Hs.
  destruct rest as [| b [| c rest]]; [reflexivity | |];
    unfold Js.is_space2; rewrite Hl; cbn [andb]; [reflexivity |].
  unfold Js.is_space3.
  repeat match goal with
         | E : Ascii.eqb a _ = false |- _ => rewrite E; clear E
         end.
  reflexivity.
Qed.

Lemma trimStart_blank pre s :
  blank pre = true -> Js.trimStart (pre +++ s) = Js.trimStart s.
Proof.
  induction pre as [| c pre IH]; intros H; [reflexivity |].
  cbn [blank] in H. apply andb_true_iff in H. destruct H as [Hc Hpre].
  cbn [String.append Js.trimStart]. rewrite Hc. apply IH. exact Hpre.
Qed.

Lemma trimStart_all_blank s : blank s = true -> Js.trimStart s = "".
Proof.
  induction s as [| c s IH]; intros H; [reflexivity |].
  cbn [blank] in H. apply andb_true_iff in H. destruct H as [Hc Hs].
  cbn [Js.trimStart]. rewrite Hc. apply IH. exact Hs.
Qed.

Lemma trimEnd_blank post : blank post = true -> Js.trimEnd post = "".
Proof.
  intros H. destruct post as [| c post]; [reflexivity |].
  cbn [Js.trimEnd]. rewrite (@trimStart_all_blank _ H). reflexivity.
Qed.

Lemma trimEnd_keeps a rest :
  (negb (Js.is_space a) && negb (Js.is_lead a))%bool = true ->
  Js.trimEnd (String a rest) = String a (Js.trimEnd rest).
Proof.
  intros H. cbn [Js.trimEnd]. rewrite (@trimStart_keeps _ _ H). reflexivity.
Qed.

(** X18 -- What counts as [quit].  A line made of the four letters of
    [quit], each in either case, with any white space before and after,
    is recognised as the command to quit. *)
Theorem quit_in_any_case_between_blanks pre word post :
  blank pre = true ->
  blank post = true ->
  Js.toLowerCase word = "quit" ->
  Js.trim (pre +++ word +++ post) = word
  /\ is_quit (Js.trim (pre +++ word +++ post)) = true.
Proof.
  intros Hpre Hpost Hword.
  assert (Htrim : Js.trim (pre +++ word +++ post) = word).
  { destruct word as [| c1 [| c2 [| c3 [| c4 [| c5 rest]]]]]; try discriminate.
    cbn [Js.toLowerCase] in Hword. inversion Hword as [[H1 H2 H3 H4]].
    assert (P1 := plain_lower_char c1). rewrite H1 in P1. specialize (P1 eq_refl).
    assert (P2 := plain_lower_char c2). rewrite H2 in P2. specialize (P2 eq_refl).
    assert (P3 := plain_lower_char c3). rewrite H3 in P3. specialize (P3 eq_refl).
    assert (P4 := plain_lower_char c4). rewrite H4 in P4. specialize (P4 eq_refl).
    unfold Js.trim. rewrite (@trimStart_blank pre _ Hpre).
    cbn [String.append]. rewrite (@trimStart_keeps _ _ P1).
    rewrite (@trimEnd_keeps _ _ P1), (@trimEnd_keeps _ _ P2), (@trimEnd_keeps _ _ P3),
      (@trimEnd_keeps _ _ P4), (@trimEnd_blank _ Hpost).
    reflexivity. }
  split; [exact Htrim |].
  rewrite Htrim. unfold is_quit. rewrite Hword. reflexivity.
Qed.

(** ** The name of the history file *)

(** X19 -- The time stamp of the history file.  Replacing the colons
    and periods of the ISO time keeps its length, leaves no colon and no
    period, and changes no other character. *)
Theorem timestamp_has_no_colon_or_period iso :
  String.length (Js.replace_colon_dot iso) = String.length iso
  /\ (forall n,
        String.get n (Js.replace_colon_dot iso) <> Some ":"%char
        /\ String.get n (Js.replace_colon_dot iso) <> Some "."%char)
  /\ (forall n c,
        String.get n iso = Some c ->
        String.get n (Js.replace_colon_dot iso)
        = Some (if (Ascii.eqb c ":" || Ascii.eqb c ".")%bool then "-"%char else c)).
Proof.
  induction iso as [| c iso (IH1 & IH2 & IH3)].
  - split; [reflexivity |]. split.
    + intros n. destruct n; split; discriminate.
    + intros n c H. destruct n; discriminate H.
  - cbn [Js.replace_colon_dot String.length]. rewrite IH1.
    split; [reflexivity |]. split.
    + intros [| n]; [| apply IH2]. cbn [String.get].
      destruct (Ascii.eqb c ":") eqn:E1; destruct (Ascii.eqb c ".") eqn:E2;
        cbn [orb]; split; intros H; inversion H; subst c; discriminate.
    + intros [| n] c0 H; cbn [String.get] in *; [| apply IH3; exact H].
      inversion H; subst. reflexivity.
Qed.

(** ** Connecting, cleaning up and the top level *)

Section Lifecycle.

Context {W Session : Type}.
Variable C : Collaborators W Session.
Variable P : Platform.
Variable settings : Settings.

Let Client' := Client W Session.

(** X20 -- [cleanup] when the history directory exists.  No directory
    is created.  If writing the transcript throws, [cleanup] throws that
    error and the session is not closed; if the write succeeds and there
    is no session, [cleanup] is done; if there is a session, it is closed
    last, and [cleanup] ends as the closing does. *)
Theorem cleanup_in_existing_directory (st : Client') w1 iso w2 :
  existsSync C (historyDir P settings) (world st) = (true, w1) ->
  toISOString C w1 = (iso, w2) ->
  let file := historyFile P settings iso in
  let written := [EExistsSync (historyDir P settings); ENewDate;
                  EWriteFileSync file (messages st)] in
  (forall e w3,
      writeFileSync C file (messages st) w2 = (Throw e, w3) ->
      cleanup C P settings st = (Throw e, with_events written w3 st))
  /\ (forall w3,
        writeFileSync C file (messages st) w2 = (Ok tt, w3) ->
        session st = None ->
        cleanup C P settings st = (Ok tt, with_events written w3 st))
  /\ (forall w3 s r w4,
        writeFileSync C file (messages st) w2 = (Ok tt, w3) ->
        session st = Some s ->
        close C s w3 = (r, w4) ->
        cleanup C P settings st = (r, with_events (written ++ [EClose]) w4 st)).
Proof.
  intros He Hi file written.
  assert (Hstart :
             cleanup C P settings st
             = (perform (EWriteFileSync file (messages st))
                        (writeFileSync C file (messages st)) ;;
                s <- get_session ;;
                match s with
                | Some s => perform EClose (close C s)
                | None => ret tt
                end)
                 (with_events [EExistsSync (historyDir P settings); ENewDate] w2 st)).
  { unfold cleanup. fold (historyDir P settings).
    erewrite bind_perform_total by exact He. cbn [negb].
    rewrite bind_ret.
    erewrite bind_perform_total by exact Hi.
    rewrite bind_get_messages. fold (historyFile P settings iso).
    rewrite !with_event_events, with_events_app. reflexivity. }
  split; [| split].
  - intros e w3 Hw. rewrite Hstart.
    erewrite bind_perform_throw by exact Hw.
    rewrite with_event_events, with_events_app. reflexivity.
  - intros w3 Hw Hs. rewrite Hstart.
    erewrite bind_perform_ok by exact Hw.
    rewrite bind_get_session. cbn [session with_event with_events]. rewrite Hs.
    unfold ret. rewrite with_event_events, with_events_app. reflexivity.
  - intros w3 s r w4 Hw Hs Hc. rewrite Hstart.
    erewrite bind_perform_ok by exact Hw.
    rewrite bind_get_session. cbn [session with_event with_events]. rewrite Hs.
    unfold perform. cbn [world with_event]. rewrite Hc.
    rewrite !with_event_events, !with_events_app. reflexivity.
Qed.

(** X21 -- [cleanup] when the history directory is missing.  The
    directory is created first; if that throws, [cleanup] throws the
    error at once: no transcript is written and the session is not
    closed.  Otherwise the transcript is written and the session
    closed as in an existing directory. *)
Theorem cleanup_creates_missing_directory (st : Client') w1 :
  existsSync C (historyDir P settings) (world st) = (false, w1) ->
  (forall e w2,
      mkdirSync C (historyDir P settings) w1 = (Throw e, w2) ->
      cleanup C P settings st
      = (Throw e,
         with_events [EExistsSync (historyDir P settings);
                      EMkdirSync (historyDir P settings)] w2 st))
  /\ (forall w2 iso w3 w4 s r w5,
        mkdirSync C (historyDir P settings) w1 = (Ok tt, w2) ->
        toISOString C w2 = (iso, w3) ->
        writeFileSync C (historyFile P settings iso) (messages st) w3 = (Ok tt, w4) ->
        session st = Some s ->
        close C s w4 = (r, w5) ->
        cleanup C P settings st
        = (r,
           with_events [EExistsSync (historyDir P settings);
                        EMkdirSync (historyDir P settings);
                        ENewDate;
                        EWriteFileSync (historyFile P settings iso) (messages st);
                        EClose] w5 st)).
Proof.
  intros He. split.
  - intros e w2 Hm. unfold cleanup. fold (historyDir P settings).
    erewrite bind_perform_total by exact He. cbn [negb].
    erewrite bind_perform_throw by exact Hm.
    rewrite !with_event_events, with_events_app. reflexivity.
  - intros w2 iso w3 w4 s r w5 Hm Hi Hw Hs Hc.
    unfold cleanup. fold (historyDir P settings).
    erewrite bind_perform_total by exact He. cbn [negb].
    erewrite bind_perform_ok by exact Hm.
    erewrite bind_perform_total by exact Hi.
    rewrite bind_get_messages. fold (historyFile P settings iso).
    erewrite bind_perform_ok by exact Hw.
    rewrite bind_get_session. cbn [session with_event]. rewrite Hs.
    unfold perform. cbn [world with_event]. rewrite Hc.
    rewrite !with_event_events, !with_events_app. reflexivity.
Qed.

(** X22 -- How [connectToServer] can end.  If the provider process
    cannot be started, the error is thrown and the client still has the
    session it had.  Once the process is started the client holds the new
    session, also when the handshake or the listing of the tools then
    fails.  When all three succeed, these are the only effects, in this
    order, and the transcript is untouched. *)
Theorem connectToServer_outcomes (st : Client') sc :
  serverConfig settings = Some sc ->
  (forall e w1,
      stdio_client C (command sc) (args sc) (world st) = (Throw e, w1) ->
      exists st',
        connectToServer C settings st = (Throw e, st')
        /\ session st' = session st)
  /\ (forall s w1 e w2,
        stdio_client C (command sc) (args sc) (world st) = (Ok s, w1) ->
        initialize C s w1 = (Throw e, w2) ->
        exists st',
          connectToServer C settings st = (Throw e, st')
          /\ session st' = Some s)
  /\ (forall s w1 w2 e w3,
        stdio_client C (command sc) (args sc) (world st) = (Ok s, w1) ->
        initialize C s w1 = (Ok tt, w2) ->
        list_tools C s w2 = (Throw e, w3) ->
        exists st',
          connectToServer C settings st = (Throw e, st')
          /\ session st' = Some s)
  /\ (forall s w1 w2 tools w3,
        stdio_client C (command sc) (args sc) (world st) = (Ok s, w1) ->
        initialize C s w1 = (Ok tt, w2) ->
        list_tools C s w2 = (Ok tools, w3) ->
        exists st',
          connectToServer C settings st = (Ok tt, st')
          /\ session st' = Some s
          /\ messages st' = messages st
          /\ world st' = w3
          /\ trace st'
             = trace st ++ [EStdioClient (command sc) (args sc);
                            EInitialize; EListTools]).
Proof.
  intros Hsc.
  assert (Hstart : forall s w1,
             stdio_client C (command sc) (args sc) (world st) = (Ok s, w1) ->
             connectToServer C settings st
             = (perform EInitialize (initialize C s) ;;
                s0 <- the_session "list_tools" ;;
                _ <- perform EListTools (list_tools C s0) ;;
                ret tt)
                 (with_session (Some s)
                    (with_event (EStdioClient (command sc) (args sc)) w1 st))).
  { intros s w1 H1. unfold connectToServer, the_serverConfig. rewrite Hsc, bind_ret.
    erewrite bind_perform_ok by exact H1.
    rewrite bind_set_session.
    rewrite (bind_the_session _ _ (s := s)) by reflexivity. reflexivity. }
  split; [| split; [| split]].
  - intros e w1 H1. unfold connectToServer, the_serverConfig. rewrite Hsc, bind_ret.
    erewrite bind_perform_throw by exact H1.
    eexists. split; reflexivity.
  - intros s w1 e w2 H1 H2. rewrite (Hstart s w1 H1).
    erewrite bind_perform_throw by exact H2.
    eexists. split; reflexivity.
  - intros s w1 w2 e w3 H1 H2 H3. rewrite (Hstart s w1 H1).
    erewrite bind_perform_ok by exact H2.
    rewrite (bind_the_session _ _ (s := s)) by reflexivity.
    erewrite bind_perform_throw by exact H3.
    eexists. split; reflexivity.
  - intros s w1 w2 tools w3 H1 H2 H3. rewrite (Hstart s w1 H1).
    erewrite bind_perform_ok by exact H2.
    rewrite (bind_the_session _ _ (s := s)) by reflexivity.
    erewrite bind_perform_ok by exact H3.
    eexists. split; [reflexivity |].
    cbn [session messages world trace with_event with_session].
    rewrite <- !app_assoc. repeat split.
Qed.

(** X23 -- [main] when connecting fails.  The error's message is
    logged and [main] returns: the loop is never entered and [cleanup] is
    not run, so nothing is written and the session, if one was opened, is
    not closed. *)
Theorem main_logs_connect_failure (st0 st1 : Client') e fuel :
  connectToServer C settings st0 = (Throw e, st1) ->
  main C P settings fuel st0
  = (Ok (Some tt), with_event (ELoggerError (message_of e)) (world st1) st1)
  /\ cleanups (trace (with_event (ELoggerError (message_of e)) (world st1) st1))
     = cleanups (trace st0)
  /\ session (with_event (ELoggerError (message_of e)) (world st1) st1)
     = session st1.
Proof.
  intros Hc. split; [| split; [| reflexivity]].
  - unfold main, try_catch. unfold bind at 1. rewrite Hc. reflexivity.
  - destruct (connectToServer_follows C settings _ Hc) as (evs & HT & _ & HQ).
    cbn [trace with_event]. rewrite HT, !cleanups_app.
    rewrite (cleanups_not_cleanup _ HQ). cbn [cleanups]. lia.
Qed.

(** X24 -- [main] when [cleanup] fails.  After a normal quit, an error
    thrown by [cleanup] is logged with its message and [main] returns
    normally. *)
Theorem main_logs_cleanup_failure (st0 st1 st2 st3 : Client') e fuel :
  connectToServer C settings st0 = (Ok tt, st1) ->
  chatLoop C P settings fuel st1 = (Ok true, st2) ->
  cleanup C P settings st2 = (Throw e, st3) ->
  main C P settings fuel st0
  = (Ok (Some tt), with_event (ELoggerError (message_of e)) (world st3) st3).
Proof.
  intros Hc Hl Hk. unfold main, try_catch.
  unfold bind at 1. rewrite Hc. unfold bind at 1. rewrite Hl.
  unfold bind at 1. rewrite Hk. reflexivity.
Qed.

End Lifecycle.

(** ** The further properties, on the scenarios *)

Lemma settings_returned_are_complete_witness :
  model Script.settings = "deepseek-chat"
  /\ baseUrl Script.settings = "https://api.deepseek.com"
  /\ env_DEEPSEEK_API_KEY Script.platform = Some (apiKey Script.settings)
  /\ apiKey Script.settings <> ""
  /\ projectDir Script.settings = platform_projectDir Script.platform
  /\ serverConfigPath Script.settings = config_file Script.platform
  /\ exists sc config server,
      serverConfig Script.settings = Some sc
      /\ args sc <> []
      /\ loads_config Script.platform (apiKey Script.settings) config
      /\ selects config (name sc) server
      /\ Js.has "command" server = Ok true
      /\ Js.get server "command" = Ok (command sc)
      /\ Js.get server "args" = Ok (Some (JArr (args sc))).
Proof.
  apply (@settings_returned_are_complete Script.platform Script.settings).
  reflexivity.
Defined.

Lemma first_server_entry_is_used_witness :
  getSettings (Script.platform_parsing Script.two_servers)
  = Ok {| model := "deepseek-chat";
          apiKey := "sk-test";
          baseUrl := "https://api.deepseek.com";
          projectDir := platform_projectDir (Script.platform_parsing Script.two_servers);
          serverConfigPath := config_file (Script.platform_parsing Script.two_servers);
          serverConfig :=
            Some {| name := "files"; command := Some (JStr "node");
                    args := [JStr "server.js"] |} |}.
Proof.
  apply (@first_server_entry_is_used (Script.platform_parsing Script.two_servers)
           "sk-test" Script.two_servers "files"
           [("command", JStr "node"); ("args", JArr [JStr "server.js"])]
           (JStr "node") (JStr "server.js") []).
  - split; [reflexivity |]. split; [discriminate |]. exists "". split; reflexivity.
  - eexists. eexists. split; [reflexivity |]. split; reflexivity.
  - reflexivity.
  - reflexivity.
Defined.

Lemma config_file_errors_are_reported_witness :
  let P := Script.platform_reading (Throw (SystemError "ENOENT" "no such file")) in
  (forall msg,
      readFileSync P (config_file P) = Throw (SystemError "ENOENT" msg) ->
      getSettings P = Throw (Error ("MCP Config file not found: " +++ config_file P)))
  /\ (forall raw,
        readFileSync P (config_file P) = Ok raw ->
        JSON_parse P raw = None ->
        getSettings P = Throw (Error ("Invalid MCP Config file: " +++ config_file P)))
  /\ (forall code msg,
        code <> "ENOENT" ->
        readFileSync P (config_file P) = Throw (SystemError code msg) ->
        getSettings P = Throw (SystemError code msg)).
Proof.
  apply (@config_file_errors_are_reported
           (Script.platform_reading (Throw (SystemError "ENOENT" "no such file")))
           "sk-test"); [reflexivity | discriminate].
Defined.

Lemma missing_fields_are_named_witness :
  getSettings (Script.platform_parsing Script.bare_server)
  = Throw (Error ("Server '" +++ "files" +++ "' missing required fields: "
                  +++ Js.join ", "
                        (filter (lacks [("cwd", JStr "/tmp")]) requiredFields))).
Proof.
  apply (@missing_fields_are_named (Script.platform_parsing Script.bare_server)
           "sk-test" Script.bare_server "files" [("cwd", JStr "/tmp")]).
  - split; [reflexivity |]. split; [discriminate |]. exists "". split; reflexivity.
  - eexists. eexists. split; [reflexivity |]. split; reflexivity.
  - discriminate.
Defined.

Lemma args_must_be_a_nonempty_array_witness :
  getSettings (Script.platform_parsing Script.empty_args)
  = Throw (Error ("Server '" +++ "files" +++ "' must have a non-empty 'args' list")).
Proof.
  apply (@args_must_be_a_nonempty_array (Script.platform_parsing Script.empty_args)
           "sk-test" Script.empty_args "files"
           [("command", JStr "node"); ("args", JArr [])] (JStr "node") (JArr [])).
  - split; [reflexivity |]. split; [discriminate |]. exists "". split; reflexivity.
  - eexists. eexists. split; [reflexivity |]. split; reflexivity.
  - reflexivity.
  - reflexivity.
  - reflexivity.
Defined.

Lemma config_without_server_is_reported_witness :
  getSettings (Script.platform_parsing (JObj []))
  = Throw (Error "Config must contain at least one server in 'mcpServers'").
Proof.
  apply (@config_without_server_is_reported (Script.platform_parsing (JObj []))
           "sk-test" (JObj [])).
  - split; [reflexivity |]. split; [discriminate |]. exists "". split; reflexivity.
  - left. reflexivity.
Defined.

Example missing_fields_listed_in_order :
  getSettings (Script.platform_parsing Script.bare_server)
  = Throw (Error "Server 'files' missing required fields: command, args").
Proof. reflexivity. Qed.

Example null_config_is_a_type_error :
  getSettings (Script.platform_parsing JNull)
  = Throw (TypeError "Cannot read properties of null (reading 'mcpServers')").
Proof. reflexivity. Qed.

Lemma tool_messages_stay_linked_witness :
  let st := Script.connected Script.two_calls in
  (forall query,
      well_linked []
        (messages (snd (processQuery Script.collaborators Script.platform
                          Script.settings query st))) = true)
  /\ (forall fuel,
        well_linked []
          (messages (snd (chatLoop Script.collaborators Script.platform
                            Script.settings fuel st))) = true).
Proof.
  apply (@tool_messages_stay_linked _ _ Script.collaborators Script.platform
           Script.settings (Script.connected Script.two_calls)).
  reflexivity.
Defined.

Example two_calls_well_linked :
  well_linked []
    (messages (snd (Script.processQuery "Read the first file"
                      (Script.connected Script.two_calls)))) = true.
Proof. reflexivity. Qed.

Lemma turn_without_session_witness :
  let st := new_MCPClient Script.plain_answer in
  processQuery Script.collaborators Script.platform Script.settings "What is 2+2?" st
  = (Throw (TypeError "Cannot read properties of null (reading 'list_tools')"),
     with_push (user_message "What is 2+2?") st)
  /\ messages (with_push (user_message "What is 2+2?") st)
     = messages st ++ [user_message "What is 2+2?"]
  /\ trace (with_push (user_message "What is 2+2?") st)
     = trace st ++ [EPush (user_message "What is 2+2?")].
Proof.
  apply (@turn_without_session _ _ Script.collaborators Script.platform
           Script.settings (new_MCPClient Script.plain_answer) "What is 2+2?").
  reflexivity.
Defined.

Lemma failure_before_answer_keeps_user_message_witness :
  let C := Script.collaborators in
  let st := Script.connected Script.turn_fails in
  let query := "hello" in
  (forall e w1,
      list_tools C tt (world st) = (Throw e, w1) ->
      exists st',
        processQuery C Script.platform Script.settings query st = (Throw e, st')
        /\ messages st' = messages st ++ [user_message query]
        /\ requests (skipn (List.length (trace st)) (trace st')) = [])
  /\ (forall tools w1 e w2,
        list_tools C tt (world st) = (Ok tools, w1) ->
        create C (first_request Script.settings
                    (messages st ++ [user_message query]) tools) w1
          = (Throw e, w2) ->
        exists st',
          processQuery C Script.platform Script.settings query st = (Throw e, st')
          /\ messages st' = messages st ++ [user_message query])
  /\ (forall tools w1 response w2,
        list_tools C tt (world st) = (Ok tools, w1) ->
        create C (first_request Script.settings
                    (messages st ++ [user_message query]) tools) w1
          = (Ok response, w2) ->
        choices response = [] ->
        exists st',
          processQuery C Script.platform Script.settings query st
          = (Throw (TypeError "Cannot read properties of undefined"), st')
          /\ messages st' = messages st ++ [user_message query]).
Proof.
  apply (@failure_before_answer_keeps_user_message _ _ Script.collaborators
           Script.platform Script.settings (Script.connected Script.turn_fails)
           "hello" tt).
  reflexivity.
Defined.

Lemma finalizing_failure_keeps_tool_round_witness :
  let st := Script.connected Script.finalizing_fails in
  let calls := [Script.call "c1" "list_dir"; Script.call "c2" "read_file"] in
  let asking := {| cm_content := None; cm_tool_calls := Some calls |} in
  let tool_messages := [tool_message (Some "a.txt") "c1";
                        tool_message (Some "hello") "c2"] in
  exists st',
    processQuery Script.collaborators Script.platform Script.settings
      "Read the first file" st
    = (Throw (Rejected "APIError" "503 Service Unavailable"), st')
    /\ messages st'
       = messages st
         ++ user_message "Read the first file" :: assistant_message asking
         :: tool_messages
    /\ List.length (messages st')
       = List.length (messages st) + 2 + List.length calls.
Proof.
  apply (@finalizing_failure_keeps_tool_round _ _ Script.collaborators
           Script.platform Script.settings
           (Script.connected Script.finalizing_fails) "Read the first file"
           tt [Script.list_dir] (tl Script.finalizing_fails)
           (Script.asks [Script.call "c1" "list_dir"; Script.call "c2" "read_file"])
           (tl (tl Script.finalizing_fails))
           {| finish_reason := "tool_calls";
              message := {| cm_content := None;
                            cm_tool_calls :=
                              Some [Script.call "c1" "list_dir";
                                    Script.call "c2" "read_file"] |} |}
           []
           [Script.call "c1" "list_dir"; Script.call "c2" "read_file"]
           [tool_message (Some "a.txt") "c1"; tool_message (Some "hello") "c2"]
           (snd (call_tools Script.collaborators Script.platform
                   [Script.call "c1" "list_dir"; Script.call "c2" "read_file"] []
                   (Script.asked_for "Read the first file" Script.finalizing_fails)))
           (Rejected "APIError" "503 Service Unavailable") []);
    reflexivity.
Defined.

Lemma second_completion_ends_the_turn_witness :
  let st := Script.connected Script.asks_again in
  let calls := [Script.call "c1" "list_dir"] in
  let asking := {| cm_content := None; cm_tool_calls := Some calls |} in
  let again := {| cm_content := None;
                  cm_tool_calls := Some [Script.call "c3" "read_file"] |} in
  let st3 := snd (call_tools Script.collaborators Script.platform calls []
                    (Script.asked_for "Read the first file" Script.asks_again)) in
  exists st',
    processQuery Script.collaborators Script.platform Script.settings
      "Read the first file" st
    = (Ok (cm_content again), st')
    /\ world st' = []
    /\ trace st'
       = trace st3
         ++ EPush (assistant_message asking)
         :: map EPush [tool_message (Some "a.txt") "c1"]
         ++ [ECreate (second_request Script.settings (messages st'))]
    /\ List.length (invocations (skipn (List.length (trace st)) (trace st')))
       = List.length calls.
Proof.
  apply (@second_completion_ends_the_turn _ _ Script.collaborators
           Script.platform Script.settings
           (Script.connected Script.asks_again) "Read the first file"
           tt [Script.list_dir] (tl Script.asks_again)
           (Script.asks [Script.call "c1" "list_dir"])
           (tl (tl Script.asks_again))
           {| finish_reason := "tool_calls";
              message := {| cm_content := None;
                            cm_tool_calls := Some [Script.call "c1" "list_dir"] |} |}
           []
           [Script.call "c1" "list_dir"]
           [tool_message (Some "a.txt") "c1"]
           (snd (call_tools Script.collaborators Script.platform
                   [Script.call "c1" "list_dir"] []
                   (Script.asked_for "Read the first file" Script.asks_again)))
           (Script.asks [Script.call "c3" "read_file"]) []
           {| finish_reason := "tool_calls";
              message := {| cm_content := None;
                            cm_tool_calls := Some [Script.call "c3" "read_file"] |} |}
           []);
    reflexivity.
Defined.

Lemma unparsable_arguments_stop_the_round_witness :
  let st := Script.connected Script.garbled_second_call in
  let st3 := snd (call_tools Script.collaborators Script.platform
                    [Script.call "c1" "list_dir"] []
                    (Script.asked_for "Read the first file"
                       Script.garbled_second_call)) in
  exists msg,
    processQuery Script.collaborators Script.platform Script.settings
      "Read the first file" st
    = (Throw (SyntaxError msg), st3)
    /\ messages st3 = messages st ++ [user_message "Read the first file"]
    /\ trace st3
       = trace (Script.asked_for "Read the first file" Script.garbled_second_call)
         ++ call_events Script.platform [Script.call "c1" "list_dir"]
    /\ List.length (invocations (call_events Script.platform
                                   [Script.call "c1" "list_dir"]))
       = List.length [Script.call "c1" "list_dir"].
Proof.
  apply (@unparsable_arguments_stop_the_round _ _ Script.collaborators
           Script.platform Script.settings
           (Script.connected Script.garbled_second_call) "Read the first file"
           tt [Script.list_dir] (tl Script.garbled_second_call)
           (Script.asks [Script.call "c1" "list_dir"; Script.garbled_call])
           (tl (tl Script.garbled_second_call))
           {| finish_reason := "tool_calls";
              message := {| cm_content := None;
                            cm_tool_calls :=
                              Some [Script.call "c1" "list_dir";
                                    Script.garbled_call] |} |}
           []
           [Script.call "c1" "list_dir"] Script.garbled_call []
           [tool_message (Some "a.txt") "c1"]);
    reflexivity.
Defined.

Lemma failed_turn_is_logged_witness :
  let C := Script.collaborators in
  let st := Script.connected Script.turn_fails in
  let st2 := snd (processQuery C Script.platform Script.settings "hello"
                    (with_event EQuestion (tl Script.turn_fails) st)) in
  let logged := with_event (ELoggerError ("Error: " +++ "connection closed"))
                  (world st2) st2 in
  chatLoop_body C Script.platform Script.settings st = (Ok Continue, logged)
  /\ chatLoop C Script.platform Script.settings 3 st
     = chatLoop C Script.platform Script.settings 2 logged
  /\ messages logged = messages st2.
Proof.
  apply (@failed_turn_is_logged _ _ Script.collaborators Script.platform
           Script.settings (Script.connected Script.turn_fails) "hello"
           (tl Script.turn_fails) (Rejected "McpError" "connection closed")
           (snd (processQuery Script.collaborators Script.platform Script.settings
                   "hello"
                   (with_event EQuestion (tl Script.turn_fails)
                      (Script.connected Script.turn_fails))))
           2);
    reflexivity.
Defined.

Lemma failed_read_is_logged_witness :
  let C := Script.collaborators in
  let st := Script.connected Script.read_fails in
  let logged := with_event (ELoggerError ("Error: " +++ "stdin closed")) []
                  (with_event EQuestion [] st) in
  chatLoop_body C Script.platform Script.settings st = (Ok Continue, logged)
  /\ chatLoop C Script.platform Script.settings 3 st
     = chatLoop C Script.platform Script.settings 2 logged
  /\ messages logged = messages st.
Proof.
  apply (@failed_read_is_logged _ _ Script.collaborators Script.platform
           Script.settings (Script.connected Script.read_fails)
           (Error "stdin closed") [] 2).
  reflexivity.
Defined.

Lemma other_lines_start_a_turn_witness :
  let st := Script.connected Script.empty_line in
  exists added,
    messages (snd (chatLoop_body Script.collaborators Script.platform
                     Script.settings st))
    = messages st
      ++ {| role := user; content := Some (Js.trim "  ");
            tool_calls := None; tool_call_id := None |}
      :: added.
Proof.
  apply (@other_lines_start_a_turn _ _ Script.collaborators Script.platform
           Script.settings (Script.connected Script.empty_line) "  "
           (tl Script.empty_line));
    reflexivity.
Defined.

Example empty_line_is_sent :
  messages (snd (chatLoop_body Script.collaborators Script.platform Script.settings
                   (Script.connected Script.empty_line)))
  = [user_message "";
     assistant_message {| cm_content := Some "Yes?"; cm_tool_calls := None |}].
Proof. reflexivity. Qed.

Lemma quit_in_any_case_between_blanks_witness :
  Js.trim ("  " +++ "QuIt" +++ " ") = "QuIt"
  /\ is_quit (Js.trim ("  " +++ "QuIt" +++ " ")) = true.
Proof.
  apply (@quit_in_any_case_between_blanks "  " "QuIt" " "); reflexivity.
Defined.

Lemma cleanup_in_existing_directory_witness :
  let C := Script.collaborators in
  let st := Script.connected Script.existing_directory in
  let w2 := tl (tl Script.existing_directory) in
  let file := historyFile Script.platform Script.settings
                "2024-01-02T03:04:05.000Z" in
  let written := [EExistsSync (historyDir Script.platform Script.settings);
                  ENewDate; EWriteFileSync file (messages st)] in
  (forall e w3,
      writeFileSync C file (messages st) w2 = (Throw e, w3) ->
      cleanup C Script.platform Script.settings st
      = (Throw e, with_events written w3 st))
  /\ (forall w3,
        writeFileSync C file (messages st) w2 = (Ok tt, w3) ->
        session st = None ->
        cleanup C Script.platform Script.settings st
        = (Ok tt, with_events written w3 st))
  /\ (forall w3 s r w4,
        writeFileSync C file (messages st) w2 = (Ok tt, w3) ->
        session st = Some s ->
        close C s w3 = (r, w4) ->
        cleanup C Script.platform Script.settings st
        = (r, with_events (written ++ [EClose]) w4 st)).
Proof.
  apply (@cleanup_in_existing_directory _ _ Script.collaborators Script.platform
           Script.settings (Script.connected Script.existing_directory)
           (tl Script.existing_directory) "2024-01-02T03:04:05.000Z"
           (tl (tl Script.existing_directory)));
    reflexivity.
Defined.

Example history_file_name :
  historyFile Script.platform Script.settings "2024-01-02T03:04:05.000Z"
  = "/app/history/2024-01-02T03-04-05-000Z.json".
Proof. reflexivity. Qed.

Lemma cleanup_creates_missing_directory_witness :
  let C := Script.collaborators in
  let st := Script.connected Script.missing_directory in
  let dir := historyDir Script.platform Script.settings in
  (forall e w2,
      mkdirSync C dir (tl Script.missing_directory) = (Throw e, w2) ->
      cleanup C Script.platform Script.settings st
      = (Throw e, with_events [EExistsSync dir; EMkdirSync dir] w2 st))
  /\ (forall w2 iso w3 w4 s r w5,
        mkdirSync C dir (tl Script.missing_directory) = (Ok tt, w2) ->
        toISOString C w2 = (iso, w3) ->
        writeFileSync C (historyFile Script.platform Script.settings iso)
          (messages st) w3 = (Ok tt, w4) ->
        session st = Some s ->
        close C s w4 = (r, w5) ->
        cleanup C Script.platform Script.settings st
        = (r,
           with_events [EExistsSync dir; EMkdirSync dir; ENewDate;
                        EWriteFileSync
                          (historyFile Script.platform Script.settings iso)
                          (messages st);
                        EClose] w5 st)).
Proof.
  apply (@cleanup_creates_missing_directory _ _ Script.collaborators Script.platform
           Script.settings (Script.connected Script.missing_directory)
           (tl Script.missing_directory)).
  reflexivity.
Defined.

Lemma connectToServer_outcomes_witness :
  let C := Script.collaborators in
  let st := Script.started in
  let command := Some (JStr "node") in
  let args := [JStr "server.js"] in
  (forall e w1,
      stdio_client C command args (world st) = (Throw e, w1) ->
      exists st',
        connectToServer C Script.settings st = (Throw e, st')
        /\ session st' = session st)
  /\ (forall s w1 e w2,
        stdio_client C command args (world st) = (Ok s, w1) ->
        initialize C s w1 = (Throw e, w2) ->
        exists st',
          connectToServer C Script.settings st = (Throw e, st')
          /\ session st' = Some s)
  /\ (forall s w1 w2 e w3,
        stdio_client C command args (world st) = (Ok s, w1) ->
        initialize C s w1 = (Ok tt, w2) ->
        list_tools C s w2 = (Throw e, w3) ->
        exists st',
          connectToServer C Script.settings st = (Throw e, st')
          /\ session st' = Some s)
  /\ (forall s w1 w2 tools w3,
        stdio_client C command args (world st) = (Ok s, w1) ->
        initialize C s w1 = (Ok tt, w2) ->
        list_tools C s w2 = (Ok tools, w3) ->
        exists st',
          connectToServer C Script.settings st = (Ok tt, st')
          /\ session st' = Some s
          /\ messages st' = messages st
          /\ world st' = w3
          /\ trace st'
             = trace st ++ [EStdioClient command args; EInitialize; EListTools]).
Proof.
  apply (@connectToServer_outcomes _ _ Script.collaborators Script.settings
           Script.started
           {| name := "files"; command := Some (JStr "node");
              args := [JStr "server.js"] |}).
  reflexivity.
Defined.

Lemma main_logs_connect_failure_witness :
  let C := Script.collaborators in
  let st0 := new_MCPClient Script.handshake_fails in
  let st1 := snd (connectToServer C Script.settings st0) in
  let logged := with_event (ELoggerError "handshake failed") (world st1) st1 in
  main C Script.platform Script.settings 5 st0 = (Ok (Some tt), logged)
  /\ cleanups (trace logged) = cleanups (trace st0)
  /\ session logged = session st1.
Proof.
  apply (@main_logs_connect_failure _ _ Script.collaborators Script.platform
           Script.settings (new_MCPClient Script.handshake_fails)
           (snd (connectToServer Script.collaborators Script.settings
                   (new_MCPClient Script.handshake_fails)))
           (Rejected "McpError" "handshake failed") 5).
  reflexivity.
Defined.

Lemma main_logs_cleanup_failure_witness :
  let C := Script.collaborators in
  let st0 := new_MCPClient Script.write_fails in
  let st1 := snd (connectToServer C Script.settings st0) in
  let st2 := snd (chatLoop C Script.platform Script.settings 5 st1) in
  let st3 := snd (cleanup C Script.platform Script.settings st2) in
  main C Script.platform Script.settings 5 st0
  = (Ok (Some tt), with_event (ELoggerError "permission denied") (world st3) st3).
Proof.
  apply (@main_logs_cleanup_failure _ _ Script.collaborators Script.platform
           Script.settings (new_MCPClient Script.write_fails)
           (snd (connectToServer Script.collaborators Script.settings
                   (new_MCPClient Script.write_fails)))
           (snd (chatLoop Script.collaborators Script.platform Script.settings 5
                   (snd (connectToServer Script.collaborators Script.settings
                           (new_MCPClient Script.write_fails)))))
           (snd (cleanup Script.collaborators Script.platform Script.settings
                   (snd (chatLoop Script.collaborators Script.platform
                           Script.settings 5
                           (snd (connectToServer Script.collaborators
                                   Script.settings
                                   (new_MCPClient Script.write_fails)))))))
           (SystemError "EACCES" "permission denied") 5);
    reflexivity.
Defined.

(** C10 on two scenarios: a result without content, and a result of two
    content items, the second of which is dropped. *)
Lemma first_content_item_only_witness :
  (let st := Script.connected Script.empty_result in
   let invoked := with_event (ECallTool "list_dir" (JObj [])) []
                    (Script.asked_for "List files in /tmp" Script.empty_result) in
   processQuery Script.collaborators Script.platform Script.settings
     "List files in /tmp" st
   = (Throw (TypeError "Cannot read properties of undefined (reading 'text')"),
      invoked)
   /\ messages invoked
      = messages st
        ++ [ {| role := user; content := Some "List files in /tmp";
                tool_calls := None; tool_call_id := None |} ]
   /\ trace invoked
      = trace (Script.asked_for "List files in /tmp" Script.empty_result)
        ++ [ECallTool "list_dir" (JObj [])])
  /\ (let st := Script.connected Script.two_calls in
      let st' := snd (Script.processQuery "Read the first file" st) in
      let invoked := with_event (ECallTool "list_dir" (JObj []))
                       (tl (tl (tl Script.two_calls)))
                       (Script.asked Script.two_calls) in
      exists later evs,
        messages st'
        = messages st
          ++ {| role := user; content := Some "Read the first file";
                tool_calls := None; tool_call_id := None |}
          :: {| role := assistant; content := None;
                tool_calls := Some ([] ++ Script.call "c1" "list_dir"
                                       :: [Script.call "c2" "read_file"]);
                tool_call_id := None |}
          :: [] ++ {| role := tool; content := Some "a.txt";
                      tool_calls := None; tool_call_id := Some "c1" |}
          :: later
        /\ List.length (@nil Message) = List.length (@nil ToolCall)
        /\ List.length later = List.length [Script.call "c2" "read_file"]
        /\ trace st' = trace invoked ++ evs).
Proof.
  split.
  - exact (@first_content_item_only _ _ Script.collaborators Script.platform
             Script.settings (Script.connected Script.empty_result)
             "List files in /tmp" tt [Script.list_dir]
             (tl Script.empty_result)
             (Script.asks [Script.call "c1" "list_dir"])
             (tl (tl Script.empty_result))
             {| finish_reason := "tool_calls";
                message := {| cm_content := None;
                              cm_tool_calls := Some [Script.call "c1" "list_dir"] |} |}
             [] [] (Script.call "c1" "list_dir") [] []
             (Script.asked_for "List files in /tmp" Script.empty_result)
             (JObj []) (Script.returns []) []
             eq_refl eq_refl eq_refl eq_refl eq_refl eq_refl eq_refl eq_refl eq_refl).
  - exact (proj2
             (@first_content_item_only _ _ Script.collaborators Script.platform
                Script.settings (Script.connected Script.two_calls)
                "Read the first file" tt [Script.list_dir]
                (tl Script.two_calls)
                (Script.asks [Script.call "c1" "list_dir";
                              Script.call "c2" "read_file"])
                (tl (tl Script.two_calls))
                {| finish_reason := "tool_calls";
                   message := {| cm_content := None;
                                 cm_tool_calls :=
                                   Some [Script.call "c1" "list_dir";
                                         Script.call "c2" "read_file"] |} |}
                [] [] (Script.call "c1" "list_dir") [Script.call "c2" "read_file"] []
                (Script.asked Script.two_calls)
                (JObj []) (Script.returns ["a.txt"; "b.txt"])
                (tl (tl (tl Script.two_calls)))
                eq_refl eq_refl eq_refl eq_refl eq_refl eq_refl eq_refl eq_refl eq_refl)
             (Some "a.txt says hello.")
             (snd (Script.processQuery "Read the first file"
                     (Script.connected Script.two_calls)))
             eq_refl).
Defined.

(** White space outside ASCII is trimmed too. *)
Example quit_between_no_break_spaces :
  Js.trim (Script.nbsp +++ "Quit" +++ Script.nbsp) = "Quit"
  /\ chatLoop_body Script.collaborators Script.platform Script.settings
       (Script.connected Script.nbsp_quit)
     = (Ok Break, with_event EQuestion [] (Script.connected Script.nbsp_quit)).
Proof. split; reflexivity. Qed.

Example greeting_after_no_break_space :
  messages (snd (chatLoop_body Script.collaborators Script.platform Script.settings
                   (Script.connected Script.nbsp_hello)))
  = [ {| role := user; content := Some "hello";
         tool_calls := None; tool_call_id := None |};
      {| role := assistant; content := Some "Hi";
         tool_calls := None; tool_call_id := None |} ].
Proof. reflexivity. Qed.

(** A zero-width space (U+200B) is no white space and stays. *)
Example zero_width_space_is_kept :
  Js.trim (String "226" (String "128" (String "139" "quit")))
  = String "226" (String "128" (String "139" "quit")).
Proof. reflexivity. Qed.
